(** * DNUDS: a shallow embedding of the sampling engine

    The development follows the Python sources of [dnuds]: one Rocq module
    per source module or class, each function translated statement by
    statement.  Python text is modelled by Rocq strings of 8-bit characters
    read as code points below 256; integers are [Z]; floats are the kernel's
    binary64 numbers; exceptions are an error type threaded by a small monad.
    What the interpreter and its libraries supply and the repository does not
    define (salted string hashing, [repr] of floats, digests, the JSON parser,
    the random number generator) is a parameter of the embedding. *)

From Stdlib Require Import ZArith Floats DecimalString Ascii String Lia.
From stdpp Require Import gmap strings list sorting.

(* stdpp's solvers clear hypotheses by name; the note they print is noise. *)
Set Warnings "-clear-no-such-hyp".

(** ** Python values, exceptions and built-ins *)
Module Py.

Inductive exn :=
| ValueError (msg : string)
| TypeError
| ZeroDivisionError
| OverflowError
| IndexError.

Inductive result (A : Type) :=
| Ok (a : A)
| Raise (e : exn).
Arguments Ok {A} a.
Arguments Raise {A} e.

#[global] Instance result_ret : MRet result := fun A a => Ok a.
#[global] Instance result_bind : MBind result := fun A B k m =>
  match m with Ok a => k a | Raise e => Raise e end.

Definition is_ok {A} (m : result A) : bool :=
  match m with Ok _ => true | Raise _ => false end.

(** The values a row cell or a configuration parameter can hold.  [VOther]
    stands for an object of any other class, carried by its [str] rendering. *)
Inductive value :=
| VNone
| VBool (b : bool)
| VInt (z : Z)
| VFloat (f : float)
| VStr (s : string)
| VDatetime (text : string)
| VOther (text : string).

(** What the interpreter supplies: [hash] of a [str] (keyed per process),
    [repr] of a float, float floor division, [hashlib] digests in lowercase
    hex, whether [json.loads] accepts a text, and the order in which
    [list.sort] leaves a list of 64 items or more when a key is a NaN: some
    rearrangement of the list. *)
Class Runtime := {
  str_hash : string -> Z;
  float_repr : float -> string;
  float_floordiv : float -> float -> float;
  hexdigest : string -> string -> string;
  json_loads_ok : string -> bool;
  sort_long : forall {A : Type}, list (float * A) -> list (float * A);
  sort_long_perm : forall A (l : list (float * A)), sort_long l ≡ₚ l;
}.

(** *** Characters and text *)

Definition code (a : ascii) : N := N_of_ascii a.

(** [str.isspace] on code points below 256; also the class [\s] of [re]. *)
Definition is_space (a : ascii) : bool :=
  let n := code a in
  ((9 <=? n) && (n <=? 13) || (28 <=? n) && (n <=? 32) || (n =? 133) || (n =? 160))%N.

Definition is_digit (a : ascii) : bool :=
  let n := code a in ((48 <=? n) && (n <=? 57))%N.

Definition digit_value (a : ascii) : Z := Z.of_N (code a) - 48.

Definition lower_char (a : ascii) : ascii :=
  let n := code a in
  if ((65 <=? n) && (n <=? 90))%N then ascii_of_N (n + 32) else a.

Definition upper_char (a : ascii) : ascii :=
  let n := code a in
  if ((97 <=? n) && (n <=? 122))%N then ascii_of_N (n - 32) else a.

Fixpoint map_chars (f : ascii -> ascii) (s : string) : string :=
  match s with
  | EmptyString => EmptyString
  | String a s' => String (f a) (map_chars f s')
  end.

Definition lower : string -> string := map_chars lower_char.
Definition upper : string -> string := map_chars upper_char.

Fixpoint lstrip (s : string) : string :=
  match s with
  | EmptyString => EmptyString
  | String a s' => if is_space a then lstrip s' else s
  end.

Definition rstrip (s : string) : string := String.rev (lstrip (String.rev s)).
Definition strip (s : string) : string := rstrip (lstrip s).

Definition startswith (s p : string) : bool := String.prefix p s.
Definition endswith (s p : string) : bool :=
  String.prefix (String.rev p) (String.rev s).

(** [sub in s] *)
Fixpoint contains (sub s : string) : bool :=
  String.prefix sub s ||
  match s with
  | EmptyString => false
  | String _ s' => contains sub s'
  end.

Fixpoint take_chars (n : nat) (s : string) : string :=
  match n, s with
  | S n', String a s' => String a (take_chars n' s')
  | _, _ => EmptyString
  end.

Fixpoint drop_chars (n : nat) (s : string) : string :=
  match n, s with
  | S n', String _ s' => drop_chars n' s'
  | _, _ => s
  end.

(** [s[1:-1]] *)
Definition slice_1_m1 (s : string) : string :=
  take_chars (String.length s - 2) (drop_chars 1 s).

(** [s[:n]] for an integer [n] of either sign. *)
Definition slice_to (n : Z) (s : string) : string :=
  if (0 <=? n)%Z then take_chars (Z.to_nat n) s
  else take_chars (Z.to_nat (Z.of_nat (String.length s) + n)) s.

(** [s.replace(old, new)] for a non-empty [old]: occurrences are replaced
    from the left and do not overlap; [skip] counts the characters of a
    matched occurrence still to be dropped. *)
Fixpoint replace_from (old new : string) (skip : nat) (s : string) : string :=
  match s with
  | EmptyString => EmptyString
  | String a s' =>
      match skip with
      | S k => replace_from old new k s'
      | O =>
          if String.prefix old s
          then new +:+ replace_from old new (String.length old - 1) s'
          else String a (replace_from old new 0 s')
      end
  end.

Definition replace (old new s : string) : string := replace_from old new 0 s.

Definition squote : string := "'".
Definition dquote : string := String (ascii_of_N 34) EmptyString.
Definition backslash : string := String (ascii_of_N 92) EmptyString.

(** *** Numbers *)

(** A run of decimal digits in which single underscores may separate digits,
    as [int] and [float] read it.  Returns the accumulated value, the number
    of digits read and the unread rest; [None] on a misplaced underscore. *)
Fixpoint scan_digits (acc : Z) (n : nat) (prev_digit : bool) (s : string)
  : option (Z * nat * string) :=
  match s with
  | EmptyString => Some (acc, n, EmptyString)
  | String a s' =>
      if is_digit a then scan_digits (10 * acc + digit_value a) (S n) true s'
      else if (code a =? 95)%N then
        match prev_digit, s' with
        | true, String b _ => if is_digit b then scan_digits acc n false s' else None
        | _, _ => None
        end
      else Some (acc, n, s)
  end.

(** An optional sign: [true] for a minus. *)
Definition scan_sign (s : string) : bool * string :=
  match s with
  | String a s' =>
      if (code a =? 45)%N then (true, s')
      else if (code a =? 43)%N then (false, s')
      else (false, s)
  | EmptyString => (false, s)
  end.

(** The blanks that [int] and [float] skip around a number, on code points
    below 256: those of [str.isspace] without the separators 28 to 31. *)
Definition is_number_space (a : ascii) : bool :=
  let n := code a in
  ((9 <=? n) && (n <=? 13) || (n =? 32) || (n =? 133) || (n =? 160))%N.

Fixpoint lstrip_number (s : string) : string :=
  match s with
  | EmptyString => EmptyString
  | String a s' => if is_number_space a then lstrip_number s' else s
  end.

Definition strip_number (s : string) : string :=
  String.rev (lstrip_number (String.rev (lstrip_number s))).

(** [sys.get_int_max_str_digits()]: the longest run of digits that [int]
    converts. *)
Definition int_max_str_digits : nat := 4300.

(** [int(s)] for a text [s]; [None] where Python raises [ValueError]: on a
    text that is not an integer literal, and on one of more than
    [int_max_str_digits] digits. *)
Definition int_of_str (s : string) : option Z :=
  let '(neg, r) := scan_sign (strip_number s) in
  match scan_digits 0 0 false r with
  | Some (m, S n, EmptyString) =>
      if (S n <=? int_max_str_digits)%nat then Some (if neg then - m else m)%Z else None
  | _ => None
  end.

Definition Z_to_float (z : Z) : float :=
  SF2Prim (binary_normalize prec emax z 0 false).

(** The binary64 number nearest to [m * 10 ^ e10] (ties to even).  For a
    negative exponent the quotient is carried with 64 bits beyond the
    divisor and a sticky bit, so one rounding decides the result. *)
Definition decimal_to_float (m e10 : Z) : float :=
  if (0 <=? e10)%Z then Z_to_float (m * 10 ^ e10)
  else
    let d := (10 ^ (- e10))%Z in
    let s := (Z.log2 d + 64)%Z in
    let n := (m * 2 ^ s)%Z in
    let sticky := if (n mod d =? 0)%Z then 0%Z else 1%Z in
    SF2Prim (binary_normalize prec emax (2 * (n / d) + sticky) (- (s + 1)) false).

Definition scan_exponent (s : string) : option Z :=
  match s with
  | EmptyString => Some 0%Z
  | String a s' =>
      if ((code a =? 101) || (code a =? 69))%N then
        let '(neg, r) := scan_sign s' in
        match scan_digits 0 0 false r with
        | Some (e, S _, EmptyString) => Some (if neg then - e else e)%Z
        | _ => None
        end
      else None
  end.

(** The unsigned body of a float literal. *)
Definition float_body (r : string) : option float :=
  let l := lower r in
  if String.eqb l "inf" || String.eqb l "infinity" then Some infinity
  else if String.eqb l "nan" then Some nan
  else
    match scan_digits 0 0 false r with
    | Some (ip, n1, r1) =>
        let frac :=
          match r1 with
          | String a r1' =>
              if (code a =? 46)%N then
                match r1' with
                | String b _ =>
                    if is_digit b then
                      match scan_digits ip 0 false r1' with
                      | Some (m, n2, r2) => Some (m, n2, r2)
                      | None => None
                      end
                    else Some (ip, 0%nat, r1')
                | EmptyString => Some (ip, 0%nat, r1')
                end
              else Some (ip, 0%nat, r1)
          | EmptyString => Some (ip, 0%nat, r1)
          end in
        match frac with
        | Some (m, n2, r2) =>
            if (n1 + n2 =? 0)%nat then None
            else
              match scan_exponent r2 with
              | Some e => Some (decimal_to_float m (e - Z.of_nat n2))
              | None => None
              end
        | None => None
        end
    | None => None
    end.

(** [float(s)] for a text [s]; [None] where Python raises [ValueError]. *)
Definition float_of_str (s : string) : option float :=
  let '(neg, r) := scan_sign (strip_number s) in
  match float_body r with
  | Some f => Some (if neg then PrimFloat.opp f else f)
  | None => None
  end.

(** [float(z)] for an integer: [OverflowError] beyond the binary64 range. *)
Definition float_of_int (z : Z) : result float :=
  let f := Z_to_float z in
  if is_infinity f then Raise OverflowError else Ok f.

(** The decimal text of an integer: [str(z)] for an integer of at most
    [int_max_str_digits] digits. *)
Definition str_of_int (z : Z) : string := NilZero.string_of_int (Z.to_int z).

(** [str(v)] *)
Definition str `{Runtime} (v : value) : string :=
  match v with
  | VNone => "None"
  | VBool b => if b then "True" else "False"
  | VInt z => str_of_int z
  | VFloat f => float_repr f
  | VStr s => s
  | VDatetime t => t
  | VOther t => t
  end.

(** [isinstance(v, (int, float))]: [bool] is a subclass of [int]. *)
Definition is_number (v : value) : bool :=
  match v with
  | VBool _ | VInt _ | VFloat _ => true
  | _ => false
  end.

(** Exact comparison of an integer with a float, as Python compares them:
    the float is read as [m * 2 ^ e], never the integer rounded. *)
Definition Z_compare_float (z : Z) (f : float) : option comparison :=
  match Prim2SF f with
  | S754_nan => None
  | S754_infinity s => Some (if s then Gt else Lt)
  | S754_zero _ => Some (z ?= 0)%Z
  | S754_finite s m e =>
      let sm := if s then Z.neg m else Z.pos m in
      Some (if (0 <=? e)%Z then (z ?= sm * 2 ^ e)%Z else (z * 2 ^ (- e) ?= sm)%Z)
  end.

Definition int_of_bool (b : bool) : Z := if b then 1%Z else 0%Z.

(** [a < b] on numbers ([bool] counts as [0] and [1]); [false] on any other
    pair, which the callers below exclude by an [isinstance] test. *)
Definition num_lt (a b : value) : bool :=
  let as_int v := match v with VBool b => Some (int_of_bool b) | VInt z => Some z | _ => None end in
  match as_int a, as_int b, a, b with
  | Some x, Some y, _, _ => (x <? y)%Z
  | Some x, None, _, VFloat g =>
      match Z_compare_float x g with Some Lt => true | _ => false end
  | None, Some y, VFloat f, _ =>
      match Z_compare_float y f with Some Gt => true | _ => false end
  | None, None, VFloat f, VFloat g => PrimFloat.ltb f g
  | _, _, _, _ => false
  end.

Definition num_gt (a b : value) : bool := num_lt b a.

(** [a == b], the equality under which a [dict] identifies keys: numbers
    compare by value across [bool], [int] and [float]; a NaN equals nothing
    (each float is its own object). *)
Definition py_eq (a b : value) : bool :=
  let as_int v := match v with VBool b => Some (int_of_bool b) | VInt z => Some z | _ => None end in
  match as_int a, as_int b, a, b with
  | Some x, Some y, _, _ => (x =? y)%Z
  | Some x, None, _, VFloat g =>
      match Z_compare_float x g with Some Eq => true | _ => false end
  | None, Some y, VFloat f, _ =>
      match Z_compare_float y f with Some Eq => true | _ => false end
  | None, None, VFloat f, VFloat g => PrimFloat.eqb f g
  | None, None, VNone, VNone => true
  | None, None, VStr s, VStr t => String.eqb s t
  | None, None, VDatetime s, VDatetime t => String.eqb s t
  | None, None, VOther s, VOther t => String.eqb s t
  | _, _, _, _ => false
  end.

(** [int(f)]: truncation towards zero; [ValueError] on a NaN and
    [OverflowError] on an infinity. *)
Definition int_of_float (f : float) : result Z :=
  match Prim2SF f with
  | S754_nan => Raise (ValueError "cannot convert float NaN to integer")
  | S754_infinity _ => Raise OverflowError
  | S754_zero _ => Ok 0%Z
  | S754_finite s m e =>
      let a := if (0 <=? e)%Z then (Z.pos m * 2 ^ e)%Z else (Z.pos m / 2 ^ (- e))%Z in
      Ok (if s then - a else a)%Z
  end.

(** [float(v)] *)
Definition float_of_value (v : value) : result float :=
  match v with
  | VBool b => float_of_int (int_of_bool b)
  | VInt z => float_of_int z
  | VFloat f => Ok f
  | VStr s =>
      match float_of_str s with
      | Some f => Ok f
      | None => Raise (ValueError "could not convert string to float")
      end
  | _ => Raise TypeError
  end.

(** *** Insertion-ordered dictionaries *)

(** A [dict] whose iteration order matters is an association list in
    insertion order; assigning to a present key keeps its position. *)
Fixpoint dict_get {K V} (eqb : K -> K -> bool) (k : K) (d : list (K * V)) : option V :=
  match d with
  | [] => None
  | (k', v) :: d' => if eqb k' k then Some v else dict_get eqb k d'
  end.

Fixpoint dict_set {K V} (eqb : K -> K -> bool) (k : K) (v : V) (d : list (K * V)) : list (K * V) :=
  match d with
  | [] => [(k, v)]
  | (k', v') :: d' => if eqb k' k then (k', v) :: d' else (k', v') :: dict_set eqb k v d'
  end.

(** *** [list.sort(key=...)] on float keys

    The sort only ever asks whether one key is less than another.  Keys
    without a NaN are totally preordered by that test and the sort is
    stable, so its result is the one of every stable sort: [sort_by_key], a
    stable insertion sort.  With a NaN among the keys the result follows
    the comparisons that the algorithm makes.  On a list below 64 items
    they are those of [short_sort]: the run that starts the list is found
    and reversed when it descends, and each later item is inserted at the
    place a binary search gives.  A longer list is merged run by run, and
    what a NaN does to it is left to the interpreter ([sort_long]). *)
Fixpoint insert_by_key {A} (x : float * A) (l : list (float * A)) : list (float * A) :=
  match l with
  | [] => [x]
  | y :: l' => if PrimFloat.ltb (fst x) (fst y) then x :: l else y :: insert_by_key x l'
  end.

Definition sort_by_key {A} (l : list (float * A)) : list (float * A) :=
  foldl (fun acc x => insert_by_key x acc) [] l.

(** The number of items of [l] that continue a run after the key [prev]:
    ascending while no item is less than the one before, descending while
    each item is. *)
Fixpoint run_up {A} (prev : float) (l : list (float * A)) : nat :=
  match l with
  | x :: l' => if PrimFloat.ltb x.1 prev then 0 else S (run_up x.1 l')
  | [] => 0
  end.

Fixpoint run_down {A} (prev : float) (l : list (float * A)) : nat :=
  match l with
  | x :: l' => if PrimFloat.ltb x.1 prev then S (run_down x.1 l') else 0
  | [] => 0
  end.

(** [count_run]: the length of the run that starts [l], and whether it
    descends. *)
Definition count_run {A} (l : list (float * A)) : nat * bool :=
  match l with
  | x :: y :: l' =>
      if PrimFloat.ltb y.1 x.1 then (2 + run_down y.1 l', true)
      else (2 + run_up y.1 l', false)
  | _ => (length l, false)
  end.

(** The binary search of [binarysort] between the positions [lo] and [hi]
    of [l]: the loop [do ... while (lo < hi)], which halves the interval at
    each turn. *)
Fixpoint bisect {A} (fuel : nat) (pivot : float) (l : list (float * A)) (lo hi : nat)
  : nat :=
  match fuel with
  | O => lo
  | S fuel' =>
      let p := lo + (hi - lo) / 2 in
      let '(lo, hi) :=
        match l !! p with
        | Some y => if PrimFloat.ltb pivot y.1 then (lo, p) else (S p, hi)
        | None => (lo, hi)
        end in
      if lo <? hi then bisect fuel' pivot l lo hi else lo
  end.

(** [binarysort]: each item of [rest] is inserted among the items before
    it. *)
Definition binarysort {A} (sorted rest : list (float * A)) : list (float * A) :=
  foldl (fun acc x =>
           let i := bisect (S (length acc)) x.1 acc 0 (length acc) in
           take i acc ++ x :: drop i acc) sorted rest.

Definition short_sort {A} (l : list (float * A)) : list (float * A) :=
  let '(n, descending) := count_run l in
  let run := take n l in
  binarysort (if descending then reverse run else run) (drop n l).

Definition keys_without_nan {A} (l : list (float * A)) : bool :=
  forallb (fun x => negb (PrimFloat.is_nan x.1)) l.

Definition list_sort `{Runtime} {A} (l : list (float * A)) : list (float * A) :=
  if keys_without_nan l then sort_by_key l
  else if length l <? 64 then short_sort l
  else sort_long l.

(** *** Regular expressions and paths *)

(** The patterns the sources use are sequences of character classes, each
    taken once or one or more times. *)
Inductive atom :=
| One (c : ascii -> bool)
| Plus (c : ascii -> bool).

Definition lit (s : string) : list atom :=
  (fun a => One (Ascii.eqb a)) <$> list_ascii_of_string s.

(** [re.match(p, s)]: the pattern matches at the start of [s]. *)
Fixpoint re_match (p : list atom) (s : string) {struct p} : bool :=
  match p with
  | [] => true
  | One c :: p' =>
      match s with
      | String a s' => c a && re_match p' s'
      | EmptyString => false
      end
  | Plus c :: p' =>
      (fix many (s : string) : bool :=
         match s with
         | String a s' => c a && (re_match p' s' || many s')
         | EmptyString => false
         end) s
  end.

(** [re.search(p, s)]: the pattern matches somewhere in [s]. *)
Fixpoint re_search (p : list atom) (s : string) : bool :=
  re_match p s ||
  match s with
  | EmptyString => false
  | String _ s' => re_search p s'
  end.

(** The components of a path between slashes. *)
Fixpoint split_path (cur : string) (s : string) : list string :=
  match s with
  | EmptyString => [String.rev cur]
  | String a s' =>
      if (code a =? 47)%N then String.rev cur :: split_path EmptyString s'
      else split_path (String a cur) s'
  end.

(** [Path(p).name]: the last component, empty and [.] components dropped. *)
Definition path_name (p : string) : string :=
  List.last
    (filter (fun c => negb (String.eqb c "" || String.eqb c ".") = true)
       (split_path EmptyString p))
    "".

(** [Path(p).suffix]: from the last dot of the name, when that dot is
    neither its first nor its last character. *)
Definition path_suffix (p : string) : string :=
  let name := path_name p in
  match String.index 0 "." (String.rev name) with
  | Some j =>
      let i := (String.length name - 1 - j)%nat in
      if ((0 <? i) && (i <? String.length name - 1))%nat
      then drop_chars i name else ""
  | None => ""
  end.

(** *** Lists *)

(** [l[i] = x]: a negative index counts from the end, an index out of range
    raises [IndexError]. *)
Definition list_setitem {A} (l : list A) (i : Z) (x : A) : result (list A) :=
  let n := Z.of_nat (length l) in
  if ((0 <=? i) && (i <? n))%Z then Ok (<[Z.to_nat i := x]> l)
  else if ((- n <=? i) && (i <? 0))%Z then Ok (<[Z.to_nat (n + i) := x]> l)
  else Raise IndexError.

(** [l[:n]] for an integer [n] of either sign. *)
Definition list_slice_to {A} (n : Z) (l : list A) : list A :=
  if (0 <=? n)%Z then take (Z.to_nat n) l
  else take (Z.to_nat (Z.of_nat (length l) + n)) l.

(** A [for] loop whose body may raise. *)
Fixpoint for_each {A S} (body : S -> A -> result S) (st : S) (l : list A) : result S :=
  match l with
  | [] => Ok st
  | x :: l' => st' ← body st x; for_each body st' l'
  end.

(** *** More text and patterns *)

(** [s.split(sep)] for a separator of one character: the pieces between
    the separators, empty pieces kept. *)
Fixpoint split_from (sep : ascii) (cur : string) (s : string) : list string :=
  match s with
  | EmptyString => [String.rev cur]
  | String a s' =>
      if Ascii.eqb a sep then String.rev cur :: split_from sep EmptyString s'
      else split_from sep (String a cur) s'
  end.

Definition split (sep : ascii) (s : string) : list string := split_from sep EmptyString s.

(** [s.rstrip(chars)] *)
Fixpoint lstrip_chars (chars : ascii -> bool) (s : string) : string :=
  match s with
  | EmptyString => EmptyString
  | String a s' => if chars a then lstrip_chars chars s' else s
  end.

Definition rstrip_chars (chars : ascii -> bool) (s : string) : string :=
  String.rev (lstrip_chars chars (String.rev s)).

(** The class [\w] of [re] on code points below 256: letters, digits of
    any kind and the underscore. *)
Definition is_word (a : ascii) : bool :=
  let n := code a in
  ((48 <=? n) && (n <=? 57) || (65 <=? n) && (n <=? 90) || (n =? 95)
   || (97 <=? n) && (n <=? 122) || (n =? 170) || (178 <=? n) && (n <=? 179)
   || (n =? 181) || (185 <=? n) && (n <=? 186) || (188 <=? n) && (n <=? 190)
   || (192 <=? n) && (n <=? 214) || (216 <=? n) && (n <=? 246)
   || (248 <=? n) && (n <=? 255))%N.

(** Patterns with groups.  Each item is a character class taken once, any
    number of times, or one or more times; [Group] is a class taken one or
    more times whose match is captured.  Repetition is greedy and gives
    characters back when the rest of the pattern fails, as [re] does. *)
Inductive item :=
| Chr (c : ascii -> bool)
| Star (c : ascii -> bool)
| Group (c : ascii -> bool).

(** A letter of a pattern compiled with [re.IGNORECASE]. *)
Definition ignorecase (x : ascii) : item :=
  Chr (fun a => Ascii.eqb (lower_char a) (lower_char x)).

Definition exactly (x : ascii) : item := Chr (Ascii.eqb x).

(** The groups of a match of [p] at the start of [s]. *)
Fixpoint match_groups (p : list item) (s : string) {struct p} : option (list string) :=
  match p with
  | [] => Some []
  | Chr c :: p' =>
      match s with
      | String a s' => if c a then match_groups p' s' else None
      | EmptyString => None
      end
  | Star c :: p' =>
      (fix star (s : string) : option (list string) :=
         match s with
         | String a s' =>
             if c a then
               match star s' with
               | Some groups => Some groups
               | None => match_groups p' s
               end
             else match_groups p' s
         | EmptyString => match_groups p' s
         end) s
  | Group c :: p' =>
      (fix group (taken : string) (s : string) : option (list string) :=
         match s with
         | String a s' =>
             if c a then
               match group (String a taken) s' with
               | Some groups => Some groups
               | None => cons (String.rev (String a taken)) <$> match_groups p' s'
               end
             else None
         | EmptyString => None
         end) EmptyString s
  end.

(** [pattern.search(s).groups()]: the first position of [s] where the
    pattern matches. *)
Fixpoint search_groups (p : list item) (s : string) : option (list string) :=
  match match_groups p s with
  | Some groups => Some groups
  | None =>
      match s with
      | EmptyString => None
      | String _ s' => search_groups p s'
      end
  end.

End Py.
Import Py.

(** ** The [random] module

    A [random.Random] object is a generator state with the three methods the
    samplers call.  Their contracts are the library's: [randint(a, b)] lies in
    [[a, b]]; [sample(l, k)] selects [k] positions of [l] without
    replacement; [shuffle] permutes; [random()] is a float; [choice(l)] is
    the element of [l] at a position it draws, [choice_index].  [seeded s]
    is [Random(s)]. *)
Module random.

Class Random := {
  rng : Type;
  seeded : Z -> rng;
  randint : rng -> Z -> Z -> Z * rng;
  sample : forall {A : Type}, rng -> list A -> nat -> list A * rng;
  shuffle : forall {A : Type}, rng -> list A -> list A * rng;
  random : rng -> float * rng;
  choice_index : rng -> nat -> nat * rng;
  randint_range : forall g a b, (a <= b)%Z -> (a <= (randint g a b).1 <= b)%Z;
  sample_length : forall A g (l : list A) k,
    k <= length l -> length (sample g l k).1 = k;
  sample_submseteq : forall A g (l : list A) k,
    k <= length l -> (sample g l k).1 ⊆+ l;
  shuffle_perm : forall A g (l : list A), (shuffle g l).1 ≡ₚ l;
  choice_index_lt : forall g n, 0 < n -> (choice_index g n).1 < n;
}.

(** [Random(seed)] when a seed is configured, else [Random()], whose state
    comes from the operating system and is the argument [entropy]. *)
Definition Random_new `{Random} (seed : option Z) (entropy : rng) : rng :=
  match seed with
  | Some s => seeded s
  | None => entropy
  end.

(** [rng.sample(population, k)] with the argument check of the library:
    [ValueError] when [k] is negative or exceeds the population. *)
Definition sample_checked `{Random} {A} (g : rng) (population : list A) (k : Z)
  : result (list A * rng) :=
  if ((k <? 0) || (Z.of_nat (length population) <? k))%Z
  then Raise (ValueError "Sample larger than population or is negative")
  else Ok (sample g population (Z.to_nat k)).

(** [rng.choice(seq)]: [IndexError] on an empty sequence. *)
Definition choice `{Random} {A} (g : rng) (seq : list A) : result (A * rng) :=
  let '(i, g') := choice_index g (length seq) in
  match seq !! i with
  | Some x => Ok (x, g')
  | None => Raise IndexError
  end.

End random.

(** ** [dnuds.config] *)
Module config.

Record PrivacyRule := {
  column : string;
  mask_type : string;
  mask_params : gmap string value;
}.

Record SamplerConfig := {
  sampling_mode : string;
  target_rows : Z;
  max_memory_bytes : option Z;
  key_columns : option (list string);
  privacy_rules : option (list PrivacyRule);
  seed : option Z;
  log_level : string;
}.

Definition sampling_modes : list string :=
  ["random"; "stratified"; "time_aware"; "outlier_aware"; "composite"].

(** [SamplerConfig.__post_init__]: the validation every configuration
    passes when it is constructed. *)
Definition __post_init__ (self : SamplerConfig) : result unit :=
  if (target_rows self <? 1)%Z then
    Raise (ValueError "target_rows must be at least 1")
  else if negb (bool_decide (sampling_mode self ∈ sampling_modes)) then
    Raise (ValueError ("Unknown sampling_mode: " +:+ sampling_mode self))
  else Ok tt.

(** The keyword arguments that a dictionary [d] gives to the constructor
    of [SamplerConfig]: for each field, whether [d] has it and with what
    value. *)
Record kwargs := {
  kw_sampling_mode : option string;
  kw_target_rows : option Z;
  kw_max_memory_bytes : option (option Z);
  kw_key_columns : option (option (list string));
  kw_privacy_rules : option (option (list PrivacyRule));
  kw_seed : option (option Z);
  kw_log_level : option string;
}.

(** The constructor of [SamplerConfig] called with the keywords [kw]: the
    defaults of the dataclass, then [__post_init__]. *)
Definition SamplerConfig_new (kw : kwargs) : result SamplerConfig :=
  let self :=
    {| sampling_mode := default "random" (kw_sampling_mode kw);
       target_rows := default 1000%Z (kw_target_rows kw);
       max_memory_bytes := default None (kw_max_memory_bytes kw);
       key_columns := default None (kw_key_columns kw);
       privacy_rules := default None (kw_privacy_rules kw);
       seed := default None (kw_seed kw);
       log_level := default "INFO" (kw_log_level kw) |} in
  _ ← __post_init__ self; Ok self.

Definition PROFILES : list (string * kwargs) :=
  [("debug_sample",
    {| kw_sampling_mode := Some "random"; kw_target_rows := Some 1000%Z;
       kw_max_memory_bytes := None; kw_key_columns := Some None;
       kw_privacy_rules := None; kw_seed := Some None; kw_log_level := None |});
   ("schema_sample",
    {| kw_sampling_mode := Some "stratified"; kw_target_rows := Some 100%Z;
       kw_max_memory_bytes := None; kw_key_columns := Some None;
       kw_privacy_rules := None; kw_seed := Some None; kw_log_level := None |});
   ("smoke_test_sample",
    {| kw_sampling_mode := Some "random"; kw_target_rows := Some 100%Z;
       kw_max_memory_bytes := None; kw_key_columns := Some None;
       kw_privacy_rules := None; kw_seed := Some (Some 42%Z); kw_log_level := None |});
   ("privacy_sample",
    {| kw_sampling_mode := Some "random"; kw_target_rows := Some 1000%Z;
       kw_max_memory_bytes := None; kw_key_columns := Some None;
       kw_privacy_rules := Some (Some []); kw_seed := Some None; kw_log_level := None |})].

Definition get_profile_config (profile_name : string) : result kwargs :=
  match dict_get String.eqb profile_name PROFILES with
  | Some d => Ok d
  | None =>
      Raise (ValueError ("Unknown profile: " +:+ profile_name +:+ ". Available profiles: "
                         +:+ String.concat ", " PROFILES.*1))
  end.

(** [d.update(overrides)] *)
Definition update (d overrides : kwargs) : kwargs :=
  let pick {A} (new old : option A) : option A :=
    match new with Some _ => new | None => old end in
  {| kw_sampling_mode := pick (kw_sampling_mode overrides) (kw_sampling_mode d);
     kw_target_rows := pick (kw_target_rows overrides) (kw_target_rows d);
     kw_max_memory_bytes := pick (kw_max_memory_bytes overrides) (kw_max_memory_bytes d);
     kw_key_columns := pick (kw_key_columns overrides) (kw_key_columns d);
     kw_privacy_rules := pick (kw_privacy_rules overrides) (kw_privacy_rules d);
     kw_seed := pick (kw_seed overrides) (kw_seed d);
     kw_log_level := pick (kw_log_level overrides) (kw_log_level d) |}.

End config.

(** ** Rows

    A row is a [dict] object.  The samplers never mutate a row, so for them
    a row is its identity ([id(row)]) together with its contents. *)
Record Row := {
  row_id : nat;
  cells : gmap string value;
}.

(** ** [dnuds.privacy.masks] *)
Module masks.
Section with_runtime.
Context `{!Py.Runtime}.

Definition hash_mask (value algorithm : value) : result Py.value :=
  match value with
  | VNone => Ok (VStr "")
  | _ =>
      let value_str := str value in
      if py_eq algorithm (VStr "sha256") then Ok (VStr (hexdigest "sha256" value_str))
      else if py_eq algorithm (VStr "sha1") then Ok (VStr (hexdigest "sha1" value_str))
      else if py_eq algorithm (VStr "md5") then Ok (VStr (hexdigest "md5" value_str))
      else Raise (ValueError ("Unsupported hash algorithm: " +:+ str algorithm))
  end.

Definition redact_mask (value token : value) : result Py.value :=
  match value with
  | VNone => Ok token
  | _ => Ok token
  end.

Definition truncate_mask (value max_length : value) : result Py.value :=
  match value with
  | VNone => Ok (VStr "")
  | _ =>
      let value_str := str value in
      let n := Z.of_nat (String.length value_str) in
      let cut m :=
        if (n <=? m)%Z then Ok (VStr value_str)
        else Ok (VStr (slice_to m value_str +:+ "...")) in
      match max_length with
      | VBool b => cut (int_of_bool b)
      | VInt m => cut m
      | VFloat f =>
          match Z_compare_float n f with
          | Some Lt | Some Eq => Ok (VStr value_str)
          | _ => Raise TypeError
          end
      | _ => Raise TypeError
      end
  end.

(** The [try] body of [bucket_mask]. *)
Definition bucket_label (value bucket_size : value) : result Py.value :=
  num_value ← float_of_value value;
  size ← match bucket_size with
          | VBool b => float_of_int (int_of_bool b)
          | VInt z => float_of_int z
          | VFloat g => Ok g
          | _ => Raise TypeError
          end;
  if PrimFloat.eqb size 0 then Raise ZeroDivisionError
  else
    bucket_start ← int_of_float (PrimFloat.mul (float_floordiv num_value size) size);
    let bucket_end :=
      match bucket_size with
      | VFloat g =>
          float_repr (PrimFloat.sub (PrimFloat.add (Z_to_float bucket_start) g) 1)
      | VInt z => str_of_int (bucket_start + z - 1)
      | VBool b => str_of_int (bucket_start + int_of_bool b - 1)
      | _ => ""
      end in
    Ok (VStr (str_of_int bucket_start +:+ "-" +:+ bucket_end)).

Definition bucket_mask (value bucket_size : value) : result Py.value :=
  match value with
  | VNone => Ok (VStr "")
  | _ =>
      match bucket_label value bucket_size with
      | Raise (ValueError _) | Raise TypeError => Ok (VStr "")
      | r => r
      end
  end.

Definition mask_types : list string := ["hash"; "redact"; "truncate"; "bucket"].

Definition apply_mask (value : value) (mask_type : string)
    (mask_params : option (gmap string Py.value)) : result Py.value :=
  let mask_params := default ∅ mask_params in
  if String.eqb mask_type "hash" then
    hash_mask value (default (VStr "sha256") (mask_params !! "algorithm"))
  else if String.eqb mask_type "redact" then
    redact_mask value (default (VStr "[REDACTED]") (mask_params !! "token"))
  else if String.eqb mask_type "truncate" then
    truncate_mask value (default (VInt 4) (mask_params !! "max_length"))
  else if String.eqb mask_type "bucket" then
    bucket_mask value (default (VInt 10) (mask_params !! "bucket_size"))
  else Raise (ValueError ("Unknown mask type: " +:+ mask_type)).

End with_runtime.
End masks.

(** ** [dnuds.privacy.rules]

    Here a row is mutated, so rows live in a store of [dict] objects and are
    passed by reference. *)
Abbreviation heap := (gmap nat (gmap string value)).

Module rules.
Section with_runtime.
Context `{!Py.Runtime}.

(** [row.copy()]: a new object with the same items. *)
Definition dict_copy (row : nat) (h : heap) : nat * heap :=
  let l := fresh (dom h) in (l, <[l := h !!! row]> h).

(** The loop [for rule in privacy_rules] over the object [masked_row]. *)
Fixpoint apply_rules (masked_row : nat) (privacy_rules : list config.PrivacyRule)
    (h : heap) : result unit * heap :=
  match privacy_rules with
  | [] => (Ok tt, h)
  | rule :: privacy_rules' =>
      let d := h !!! masked_row in
      match d !! config.column rule with
      | Some v =>
          match masks.apply_mask v (config.mask_type rule) (Some (config.mask_params rule)) with
          | Ok masked_value =>
              apply_rules masked_row privacy_rules'
                (<[masked_row := <[config.column rule := masked_value]> d]> h)
          | Raise e => (Raise e, h)
          end
      | None => apply_rules masked_row privacy_rules' h
      end
  end.

Definition apply_privacy_rules (row : nat) (privacy_rules : list config.PrivacyRule)
    (h : heap) : result nat * heap :=
  match privacy_rules with
  | [] => let '(l, h) := dict_copy row h in (Ok l, h)
  | _ :: _ =>
      let '(masked_row, h) := dict_copy row h in
      match apply_rules masked_row privacy_rules h with
      | (Ok _, h) => (Ok masked_row, h)
      | (Raise e, h) => (Raise e, h)
      end
  end.

End with_runtime.
End rules.

(** ** [dnuds.sampling.base] *)
Module base.

(** The abstract class [Sampler]: an object with its configuration and its
    [sample] method. *)
Record Sampler := {
  config : config.SamplerConfig;
  sample : list Row -> list string -> result (list Row);
}.

Definition get_sample_size (self : Sampler) (total_rows : option Z) : Z :=
  match total_rows with
  | None => config.target_rows (config self)
  | Some n => Z.min (config.target_rows (config self)) n
  end.

End base.

(** ** [dnuds.sampling.random_sampler] *)
Module RandomSampler.
Section with_random.
Context `{!random.Random}.

Record t := {
  config : config.SamplerConfig;
  rng : random.rng;
}.

Definition __init__ (config : config.SamplerConfig) (entropy : random.rng) : t :=
  {| config := config; rng := random.Random_new (config.seed config) entropy |}.

(** The variables of the loop of [sample]. *)
Record state := {
  reservoir : list Row;
  count : Z;
  gen : random.rng;
}.

(** One iteration of [for row in rows]. *)
Definition step (target_size : Z) (st : state) (row : Row) : result state :=
  if (Z.of_nat (length (reservoir st)) <? target_size)%Z then
    Ok {| reservoir := reservoir st ++ [row]; count := count st + 1; gen := gen st |}
  else
    let '(index, g) := random.randint (gen st) 0 (count st) in
    r ← (if (index <? target_size)%Z
         then list_setitem (reservoir st) index row
         else Ok (reservoir st));
    Ok {| reservoir := r; count := count st + 1; gen := g |}.

Definition run (self : t) (rows : list Row) : result state :=
  for_each (step (config.target_rows (config self)))
    {| reservoir := []; count := 0; gen := rng self |} rows.

Definition sample (self : t) (rows : list Row) (columns : list string)
  : result (list Row) :=
  st ← run self rows; Ok (reservoir st).

Definition as_Sampler (self : t) : base.Sampler :=
  {| base.config := config self; base.sample := sample self |}.

End with_random.
End RandomSampler.

(** ** [dnuds.sampling.time_sampler] *)
Module TimeSampler.
Section with_runtime.
Context `{!Py.Runtime} `{!random.Random}.

Record t := {
  config : config.SamplerConfig;
  rng : random.rng;
  time_column : option string;
}.

Definition __init__ (config : config.SamplerConfig) (entropy : random.rng) : t :=
  {| config := config;
     rng := random.Random_new (config.seed config) entropy;
     time_column :=
       match config.key_columns config with
       | Some (c :: _) => Some c
       | _ => None
       end |}.

Definition _get_timestamp_value (self : t) (row : Row) (row_index : Z) : result float :=
  let fallback := float_of_int row_index in
  match time_column self with
  | Some tc =>
      if negb (String.eqb tc "") then
        match cells row !! tc with
        | Some (VBool b) => float_of_int (int_of_bool b)
        | Some (VInt z) => float_of_int z
        | Some (VFloat f) => Ok f
        | Some (VStr s) =>
            match float_of_str s with
            | Some f => Ok f
            | None => float_of_int (str_hash s)
            end
        | _ => fallback
        end
      else fallback
  | None => fallback
  end.

(** Phase 1: [all_rows] and [row_index] after the rows read so far. *)
Definition collect (self : t) (st : list (float * Row) * Z) (row : Row)
  : result (list (float * Row) * Z) :=
  timestamp ← _get_timestamp_value self row st.2;
  Ok (st.1 ++ [(timestamp, row)], st.2 + 1)%Z.

(** The sampling of one segment with its quota: [sampled] and the generator
    after [rng.sample] and [sampled.extend]. *)
Definition draw (segment : list (float * Row)) (quota : Z)
    (sampled : list Row) (g : random.rng) : result (list Row * random.rng) :=
  let count := Z.min quota (Z.of_nat (length segment)) in
  '(sampled_rows, g') ← random.sample_checked g segment count;
  Ok (sampled ++ (snd <$> sampled_rows), g').

Definition sample (self : t) (rows : list Row) (columns : list string)
  : result (list Row) :=
  let target_size := config.target_rows (config self) in
  '(all_rows, _) ← for_each (collect self) ([], 0%Z) rows;
  match all_rows with
  | [] => Ok []
  | _ :: _ =>
      let all_rows := list_sort all_rows in
      let total_rows := length all_rows in
      if (Z.of_nat total_rows <=? target_size)%Z then Ok (snd <$> all_rows)
      else
        let segment_size := (total_rows / 3)%nat in
        let early_rows := take segment_size all_rows in
        let middle_rows := take segment_size (drop segment_size all_rows) in
        let late_rows := drop (segment_size * 2) all_rows in
        let samples_per_segment := (target_size / 3)%Z in
        let remaining := (target_size - samples_per_segment * 3)%Z in
        let one remaining := if (0 <? remaining)%Z then 1%Z else 0%Z in
        '(sampled, remaining, g) ←
          (match early_rows with
           | [] => Ok ([], remaining, rng self)
           | _ :: _ =>
               '(sampled, g) ← draw early_rows (samples_per_segment + one remaining) [] (rng self);
               Ok (sampled, remaining - one remaining, g)
           end)%Z;
        '(sampled, remaining, g) ←
          (match middle_rows with
           | [] => Ok (sampled, remaining, g)
           | _ :: _ =>
               '(sampled, g) ← draw middle_rows (samples_per_segment + one remaining) sampled g;
               Ok (sampled, remaining - one remaining, g)
           end)%Z;
        '(sampled, g) ←
          (match late_rows with
           | [] => Ok (sampled, g)
           | _ :: _ => draw late_rows (samples_per_segment + remaining) sampled g
           end)%Z;
        let '(sampled, _) := random.shuffle g sampled in
        Ok (list_slice_to target_size sampled)
  end.

Definition as_Sampler (self : t) : base.Sampler :=
  {| base.config := config self; base.sample := sample self |}.

End with_runtime.
End TimeSampler.

(** ** [dnuds.sampling.outlier_sampler] *)
Module OutlierSampler.
Section with_random.
Context `{!random.Random}.

Record t := {
  config : config.SamplerConfig;
  rng : random.rng;
  outlier_columns : option (list string);
}.

Definition __init__ (config : config.SamplerConfig) (entropy : random.rng) : t :=
  {| config := config;
     rng := random.Random_new (config.seed config) entropy;
     outlier_columns := config.key_columns config |}.

Definition _get_numeric_value (value : value) : result (option float) :=
  match value with
  | VNone => Ok None
  | VBool b => f ← float_of_int (int_of_bool b); Ok (Some f)
  | VInt z => f ← float_of_int z; Ok (Some f)
  | VFloat f => Ok (Some f)
  | VStr s => Ok (float_of_str s)
  | _ => Ok None
  end.

(** An entry of [column_stats]. *)
Record stats := {
  min : option float;
  max : option float;
  min_row : option Row;
  max_row : option Row;
}.

Definition is_none_or {A} (o : option A) (p : A -> bool) : bool :=
  match o with
  | None => true
  | Some a => p a
  end.

(** The body of [for col in columns_to_check]. *)
Definition observe (row : Row) (column_stats : list (string * stats)) (col : string)
  : result (list (string * stats)) :=
  match cells row !! col with
  | None => Ok column_stats
  | Some v =>
      value ← _get_numeric_value v;
      match value with
      | None => Ok column_stats
      | Some value =>
          let stats :=
            default {| min := None; max := None; min_row := None; max_row := None |}
              (dict_get String.eqb col column_stats) in
          let stats :=
            if is_none_or (min stats) (PrimFloat.ltb value)
            then {| min := Some value; max := max stats;
                    min_row := Some row; max_row := max_row stats |}
            else stats in
          let stats :=
            if is_none_or (max stats) (fun m => PrimFloat.ltb m value)
            then {| min := min stats; max := Some value;
                    min_row := min_row stats; max_row := Some row |}
            else stats in
          Ok (dict_set String.eqb col stats column_stats)
      end
  end.

(** The body of [for row in rows] (phase 1). *)
Definition collect (columns_to_check : list string)
    (st : list Row * list (string * stats)) (row : Row)
  : result (list Row * list (string * stats)) :=
  column_stats ← for_each (observe row) st.2 columns_to_check;
  Ok (st.1 ++ [row], column_stats).

(** [outlier_rows] and [outlier_set] after an optional row is offered. *)
Definition add_outlier (acc : list Row * gset nat) (r : option Row) : list Row * gset nat :=
  match r with
  | None => acc
  | Some row =>
      if bool_decide (row_id row ∈ acc.2) then acc
      else (acc.1 ++ [row], {[ row_id row ]} ∪ acc.2)
  end.

(** Phase 2: the rows carrying a tracked minimum or maximum. *)
Definition outliers (column_stats : list (string * stats)) : list Row * gset nat :=
  foldl (fun acc entry => add_outlier (add_outlier acc (min_row entry.2)) (max_row entry.2))
    ([], ∅) column_stats.

Definition sample (self : t) (rows : list Row) (columns : list string)
  : result (list Row) :=
  let target_size := config.target_rows (config self) in
  let columns_to_check :=
    match outlier_columns self with
    | Some (c :: cs) => c :: cs
    | _ => columns
    end in
  '(all_rows, column_stats) ← for_each (collect columns_to_check) ([], []) rows;
  match all_rows with
  | [] => Ok []
  | _ :: _ =>
      let total_rows := length all_rows in
      if (Z.of_nat total_rows <=? target_size)%Z then Ok all_rows
      else
        let '(outlier_rows, outlier_set) := outliers column_stats in
        let remaining_target := (target_size - Z.of_nat (length outlier_rows))%Z in
        '(outlier_rows, g) ←
          (if (0 <? remaining_target)%Z then
             let non_outlier_rows :=
               filter (fun row => row_id row ∉ outlier_set) all_rows in
             match non_outlier_rows with
             | [] => Ok (outlier_rows, rng self)
             | _ :: _ =>
                 let sample_count :=
                   Z.min remaining_target (Z.of_nat (length non_outlier_rows)) in
                 '(sampled_rows, g) ←
                   random.sample_checked (rng self) non_outlier_rows sample_count;
                 Ok (outlier_rows ++ sampled_rows, g)
             end
           else Ok (outlier_rows, rng self));
        let '(outlier_rows, _) := random.shuffle g outlier_rows in
        Ok (list_slice_to target_size outlier_rows)
  end.

Definition as_Sampler (self : t) : base.Sampler :=
  {| base.config := config self; base.sample := sample self |}.

End with_random.
End OutlierSampler.

(** ** [dnuds.sampling.composite_sampler] *)
Module CompositeSampler.

Record t := {
  config : config.SamplerConfig;
  samplers : list base.Sampler;
}.

Definition __init__ (config : config.SamplerConfig) (samplers : list base.Sampler) : t :=
  {| config := config; samplers := samplers |}.

(** [current_rows = sampler.sample(current_rows, columns)] for each sampler
    in turn; the rows left at the end are yielded. *)
Definition sample (self : t) (rows : list Row) (columns : list string)
  : result (list Row) :=
  for_each (fun current_rows sampler => base.sample sampler current_rows columns)
    rows (samplers self).

Definition as_Sampler (self : t) : base.Sampler :=
  {| base.config := config self; base.sample := sample self |}.

End CompositeSampler.

(** ** [dnuds.formats.format_detector] *)
Module format_detector.
Section with_runtime.
Context `{!Py.Runtime}.

Inductive FormatType := CSV | JSONL | LOG | SQL | UNKNOWN.

Definition newline : string := String (ascii_of_N 10) EmptyString.

(** The pattern [INSERT\s+INTO]. *)
Definition INSERT_INTO : list atom := lit "INSERT" ++ [Plus is_space] ++ lit "INTO".

Definition detect_format (file_path : string) (content_hint : option string)
  : FormatType :=
  let extension := lower (path_suffix file_path) in
  if String.eqb extension ".csv" then CSV
  else if String.eqb extension ".jsonl" || String.eqb extension ".ndjson" then JSONL
  else if String.eqb extension ".log" then LOG
  else if String.eqb extension ".sql" then SQL
  else
    match content_hint with
    | Some content_hint =>
        if String.eqb content_hint "" then UNKNOWN
        else
          let content_lower := lower content_hint in
          if startswith (strip content_hint) "{" && endswith (strip content_hint) "}"
             && json_loads_ok (strip content_hint)
          then JSONL
          else if contains "," content_hint && contains newline content_hint then CSV
          else if re_search INSERT_INTO content_lower then SQL
          else UNKNOWN
    | None => UNKNOWN
    end.

End with_runtime.
End format_detector.

(** ** [dnuds.formats.sql_reader] *)
Module SQLReader.

Definition quoted_by (q value_str : string) : bool :=
  startswith value_str q && endswith value_str q.

Definition _parse_value (value_str : string) : value :=
  let value_str := strip value_str in
  if String.eqb (upper value_str) "NULL" then VNone
  else if quoted_by squote value_str || quoted_by dquote value_str then
    let unquoted := slice_1_m1 value_str in
    VStr (replace (backslash +:+ dquote) dquote
            (replace (backslash +:+ squote) squote unquoted))
  else
    let number :=
      if contains "." value_str
      then VFloat <$> float_of_str value_str
      else VInt <$> int_of_str value_str in
    match number with
    | Some v => v
    | None =>
        if String.eqb (upper value_str) "TRUE" || String.eqb (upper value_str) "FALSE"
        then VBool (String.eqb (upper value_str) "TRUE")
        else VStr value_str
    end.

(** [INSERT_PATTERN]:
    [INSERT\s+INTO\s+(\w+)\s*\(([^)]+)\)\s*VALUES\s*\(([^)]+)\)], compiled
    with [re.IGNORECASE]. *)
Definition letters (w : string) : list item := ignorecase <$> list_ascii_of_string w.
Definition not_closing (a : ascii) : bool := negb (Ascii.eqb a ")").

Definition INSERT_PATTERN : list item :=
  letters "INSERT" ++ [Chr is_space; Star is_space] ++ letters "INTO"
  ++ [Chr is_space; Star is_space; Group is_word; Star is_space; exactly "(";
      Group not_closing; exactly ")"; Star is_space]
  ++ letters "VALUES"
  ++ [Star is_space; exactly "("; Group not_closing; exactly ")"].

(** The variables of the loop [for char in values_str]. *)
Record scan := {
  values : list string;
  current_value : string;
  in_quotes : bool;
  quote_char : option ascii;
}.

Definition is_quote (char : ascii) : bool :=
  Ascii.eqb char "'" || Ascii.eqb char (ascii_of_N 34).

Definition append_char (s : string) (char : ascii) : string :=
  s +:+ String char EmptyString.

Definition scan_char (st : scan) (char : ascii) : scan :=
  if is_quote char && (negb (in_quotes st) || bool_decide (quote_char st = Some char)) then
    if in_quotes st && bool_decide (quote_char st = Some char) then
      {| values := values st; current_value := append_char (current_value st) char;
         in_quotes := false; quote_char := None |}
    else
      {| values := values st; current_value := append_char (current_value st) char;
         in_quotes := true; quote_char := Some char |}
  else if Ascii.eqb char "," && negb (in_quotes st) then
    {| values := values st ++ [strip (current_value st)]; current_value := "";
       in_quotes := in_quotes st; quote_char := quote_char st |}
  else
    {| values := values st; current_value := append_char (current_value st) char;
       in_quotes := in_quotes st; quote_char := quote_char st |}.

(** [values] after the loop and the last value. *)
Definition split_values (values_str : string) : list string :=
  let st :=
    foldl scan_char
      {| values := []; current_value := ""; in_quotes := false; quote_char := None |}
      (list_ascii_of_string values_str) in
  if String.eqb (current_value st) "" then values st
  else values st ++ [strip (current_value st)].

(** The loop [for i, col in enumerate(column_names)]. *)
Definition build_row (column_names values : list string) : list (string * value) :=
  foldl (fun row (entry : nat * string) =>
           dict_set String.eqb entry.2
             (match values !! entry.1 with
              | Some v => _parse_value v
              | None => VNone
              end) row)
    [] (imap pair column_names).

Definition _parse_insert_line (table_name : option string) (line : string)
  : option (list (string * value)) :=
  match search_groups INSERT_PATTERN line with
  | Some [table; columns_str; values_str] =>
      if match table_name with
         | Some t => negb (String.eqb t "") && negb (String.eqb (lower table) (lower t))
         | None => false
         end
      then None
      else
        let column_names := strip <$> split "," columns_str in
        Some (build_row column_names (split_values values_str))
  | _ => None
  end.

(** [read_rows] over the lines of the file: the rows of the lines that
    hold an INSERT statement. *)
Definition read_rows (table_name : option string) (lines : list string)
  : list (list (string * value)) :=
  omap (fun line =>
          match _parse_insert_line table_name line with
          | Some (entry :: row) => Some (entry :: row)
          | _ => None
          end) lines.

(** [get_columns] before any row is read: the keys of the first row. *)
Definition get_columns (table_name : option string) (lines : list string) : list string :=
  match read_rows table_name lines with
  | row :: _ => row.*1
  | [] => []
  end.

End SQLReader.

(** ** [dnuds.profiling.type_inference] *)
Module type_inference.

Inductive TypeGuess := STRING | INTEGER | FLOAT | BOOLEAN | DATETIME | UNKNOWN.

#[global] Instance TypeGuess_eq_dec : EqDecision TypeGuess.
Proof. solve_decision. Defined.

Definition TypeGuess_value (t : TypeGuess) : string :=
  match t with
  | STRING => "string"
  | INTEGER => "integer"
  | FLOAT => "float"
  | BOOLEAN => "boolean"
  | DATETIME => "datetime"
  | UNKNOWN => "unknown"
  end.

Definition d : atom := One is_digit.
Definition ch (s : string) : list atom := lit s.
Definition one_of (s : string) : atom :=
  One (fun a => existsb (Ascii.eqb a) (list_ascii_of_string s)).

Definition DATETIME_PATTERNS : list (list atom) :=
  [ [d; d; d; d] ++ ch "-" ++ [d; d] ++ ch "-" ++ [d; d] ++ [one_of "T "]
      ++ [d; d] ++ ch ":" ++ [d; d] ++ ch ":" ++ [d; d];
    [d; d; d; d] ++ ch "-" ++ [d; d] ++ ch "-" ++ [d; d];
    [d; d] ++ ch "/" ++ [d; d] ++ ch "/" ++ [d; d; d; d];
    [d; d] ++ ch "-" ++ [d; d] ++ ch "-" ++ [d; d; d; d] ].

Definition boolean_words : list string := ["true"; "false"; "yes"; "no"; "1"; "0"].

Definition infer_type (value : value) : TypeGuess :=
  match value with
  | VNone => UNKNOWN
  | VBool _ => BOOLEAN
  | VInt _ => INTEGER
  | VFloat _ => FLOAT
  | VDatetime _ => DATETIME
  | VStr s =>
      let value_stripped := strip s in
      if String.eqb value_stripped "" then STRING
      else if existsb (String.eqb (lower value_stripped)) boolean_words then BOOLEAN
      else if bool_decide (is_Some (int_of_str value_stripped)) then INTEGER
      else if bool_decide (is_Some (float_of_str value_stripped)) then FLOAT
      else if existsb (fun pattern => re_match pattern value_stripped) DATETIME_PATTERNS
      then DATETIME
      else STRING
  | VOther _ => UNKNOWN
  end.

Definition guess_eqb (a b : TypeGuess) : bool := bool_decide (a = b).

(** [type_counts[type_guess] = type_counts.get(type_guess, 0) + 1] *)
Definition count_guess (type_counts : list (TypeGuess * Z)) (type_guess : TypeGuess)
  : list (TypeGuess * Z) :=
  dict_set guess_eqb type_guess
    (default 0%Z (dict_get guess_eqb type_guess type_counts) + 1)%Z type_counts.

(** [max(items, key=lambda x: x[1])] continued from the best item so far:
    a later item wins only with a strictly larger count. *)
Definition max_by_count (best : TypeGuess * Z) (items : list (TypeGuess * Z))
  : TypeGuess * Z :=
  foldl (fun best item => if (best.2 <? item.2)%Z then item else best) best items.

Definition infer_column_type (values : list value) (sample_size : Z) : TypeGuess :=
  match values with
  | [] => UNKNOWN
  | _ :: _ =>
      let sample :=
        if (sample_size <? Z.of_nat (length values))%Z
        then list_slice_to sample_size values else values in
      let type_counts :=
        foldl (fun type_counts value =>
                 match value with
                 | VNone => type_counts
                 | _ => count_guess type_counts (infer_type value)
                 end) [] sample in
      match type_counts with
      | [] => UNKNOWN
      | item :: items => (max_by_count item items).1
      end
  end.

End type_inference.

(** ** [dnuds.profiling.stats] *)
Module stats.
Import type_inference.

Record ColumnStats := {
  column_name : string;
  type_guess : TypeGuess;
  null_count : Z;
  total_count : Z;
  min_value : option value;
  max_value : option value;
  top_values : list (value * Z);
  unique_count : Z;
}.

(** [ColumnStats(column_name=col)] *)
Definition ColumnStats_new (col : string) : ColumnStats :=
  {| column_name := col; type_guess := UNKNOWN; null_count := 0; total_count := 0;
     min_value := None; max_value := None; top_values := []; unique_count := 0 |}.

Definition set_type_guess (self : ColumnStats) (t : TypeGuess) : ColumnStats :=
  {| column_name := column_name self; type_guess := t;
     null_count := null_count self; total_count := total_count self;
     min_value := min_value self; max_value := max_value self;
     top_values := top_values self; unique_count := unique_count self |}.

Definition set_top_values (self : ColumnStats) (tv : list (value * Z)) : ColumnStats :=
  {| column_name := column_name self; type_guess := type_guess self;
     null_count := null_count self; total_count := total_count self;
     min_value := min_value self; max_value := max_value self;
     top_values := tv; unique_count := unique_count self |}.

Definition is_none_or {A} (o : option A) (p : A -> bool) : bool :=
  match o with
  | None => true
  | Some a => p a
  end.

Definition update (self : ColumnStats) (value : value) : ColumnStats :=
  let total_count := (total_count self + 1)%Z in
  match value with
  | VNone =>
      {| column_name := column_name self; type_guess := type_guess self;
         null_count := null_count self + 1; total_count := total_count;
         min_value := min_value self; max_value := max_value self;
         top_values := top_values self; unique_count := unique_count self |}
  | _ =>
      let min_value :=
        if is_number value && is_none_or (min_value self) (num_lt value)
        then Some value else min_value self in
      let max_value :=
        if is_number value && is_none_or (max_value self) (num_gt value)
        then Some value else max_value self in
      let unique_count :=
        match dict_get py_eq value (top_values self) with
        | None => (unique_count self + 1)%Z
        | Some _ => unique_count self
        end in
      let top_values :=
        dict_set py_eq value
          (default 0%Z (dict_get py_eq value (top_values self)) + 1)%Z
          (top_values self) in
      {| column_name := column_name self; type_guess := type_guess self;
         null_count := null_count self; total_count := total_count;
         min_value := min_value; max_value := max_value;
         top_values := top_values; unique_count := unique_count |}
  end.

(** [d[k] = f(d[k])] for a key that is present. *)
Fixpoint dict_alter {V} (k : string) (f : V -> V) (d : list (string * V)) : list (string * V) :=
  match d with
  | [] => []
  | (k', v) :: d' =>
      if String.eqb k' k then (k', f v) :: d' else (k', v) :: dict_alter k f d'
  end.

(** [{col: new(col) for col in columns}] *)
Definition dict_from_keys {V} (new : string -> V) (columns : list string) : list (string * V) :=
  foldl (fun d col => dict_set String.eqb col (new col) d) [] columns.

(** [Counter(d).most_common(n)]: by decreasing count, equal counts in
    insertion order. *)
Fixpoint insert_by_count (x : value * Z) (l : list (value * Z)) : list (value * Z) :=
  match l with
  | [] => [x]
  | y :: l' => if (y.2 <? x.2)%Z then x :: l else y :: insert_by_count x l'
  end.

Definition most_common (n : Z) (d : list (value * Z)) : list (value * Z) :=
  take (Z.to_nat n) (foldl (fun acc x => insert_by_count x acc) [] d).

(** The variables of the loop [for row in rows]. *)
Record state := {
  stats : list (string * ColumnStats);
  value_samples : list (string * list value);
  row_count : Z;
  stopped : bool;
}.

Definition observe (row : gmap string value) (st : state) (col : string) : state :=
  let value := default VNone (row !! col) in
  {| stats := dict_alter col (fun s => update s value) (stats st);
     value_samples := dict_alter col (fun l => l ++ [value]) (value_samples st);
     row_count := row_count st; stopped := stopped st |}.

Definition step (columns : list string) (sample_size : option Z) (st : state)
    (row : gmap string value) : state :=
  if stopped st then st
  else
    let limit :=
      match sample_size with
      | Some n => negb (n =? 0)%Z && (n <=? row_count st)%Z
      | None => false
      end in
    if limit then
      {| stats := stats st; value_samples := value_samples st;
         row_count := row_count st; stopped := true |}
    else
      let st := foldl (observe row) st columns in
      {| stats := stats st; value_samples := value_samples st;
         row_count := row_count st + 1; stopped := false |}.

Definition collect_stats (rows : list (gmap string value)) (columns : list string)
    (max_top_values : Z) (sample_size : option Z) : list (string * ColumnStats) :=
  let st :=
    foldl (step columns sample_size)
      {| stats := dict_from_keys ColumnStats_new columns;
         value_samples := dict_from_keys (fun _ => []) columns;
         row_count := 0; stopped := false |} rows in
  let stats :=
    foldl (fun stats col =>
             match dict_get String.eqb col (value_samples st) with
             | Some (v :: vs) =>
                 dict_alter col
                   (fun s => set_type_guess s (infer_column_type (v :: vs) 100)) stats
             | _ => stats
             end) (stats st) columns in
  (fun entry : string * ColumnStats =>
     let col_stats := entry.2 in
     if (max_top_values <? Z.of_nat (length (top_values col_stats)))%Z
     then (entry.1, set_top_values col_stats (most_common max_top_values (top_values col_stats)))
     else entry) <$> stats.

End stats.

(** ** [dnuds.manifest] *)
Module manifest.
Import type_inference stats.
Section with_runtime.
Context `{!Py.Runtime}.

(** The Python object handed to [json.dump]. *)
#[local] Unset Elimination Schemes.
Inductive doc :=
| DVal (v : value)
| DList (l : list doc)
| DDict (items : list (string * doc)).
#[local] Set Elimination Schemes.

Definition dstr (s : string) : doc := DVal (VStr s).
Definition dint (z : Z) : doc := DVal (VInt z).

(** The body of [for col_name, col_stats in stats.items()]. *)
Definition column_entry (col_stats : ColumnStats) : doc :=
  let entry :=
    [("type_guess", dstr (TypeGuess_value (type_guess col_stats)));
     ("null_count", dint (null_count col_stats));
     ("total_count", dint (total_count col_stats));
     ("unique_count", dint (unique_count col_stats))] in
  let entry :=
    match min_value col_stats with
    | Some v => dict_set String.eqb "min_value" (DVal v) entry
    | None => entry
    end in
  let entry :=
    match max_value col_stats with
    | Some v => dict_set String.eqb "max_value" (DVal v) entry
    | None => entry
    end in
  let entry :=
    match top_values col_stats with
    | [] => entry
    | _ :: _ =>
        dict_set String.eqb "top_values"
          (DList ((fun kv : value * Z => DList [dstr (str kv.1); dint kv.2])
                    <$> take 10 (top_values col_stats)))
          entry
    end in
  DDict entry.

(** The manifest that [generate_manifest] builds and dumps.  [version] is
    [dnuds.__version__], [timestamp] is [datetime.utcnow().isoformat()] and
    [absolute] resolves a path against the working directory. *)
Definition generate_manifest (version timestamp : string) (absolute : string -> string)
    (input_path output_path : string) (config : config.SamplerConfig)
    (input_format output_format : string) (columns : list string) (row_count : Z)
    (stats : option (list (string * ColumnStats))) : doc :=
  let manifest :=
    [("dnuds_version", dstr version);
     ("timestamp", dstr (timestamp +:+ "Z"));
     ("input_path", dstr (absolute input_path));
     ("output_path", dstr (absolute output_path));
     ("input_format", dstr input_format);
     ("output_format", dstr output_format);
     ("sampling_mode", dstr (config.sampling_mode config));
     ("target_rows", dint (config.target_rows config));
     ("actual_rows", dint row_count);
     ("key_columns", DList (dstr <$> default [] (config.key_columns config)));
     ("seed", DVal (from_option VInt VNone (config.seed config)));
     ("columns", DList (dstr <$> columns));
     ("column_count", dint (Z.of_nat (length columns)))] in
  let manifest :=
    match stats with
    | Some (e :: es) =>
        dict_set String.eqb "column_stats"
          (DDict (foldl (fun d entry => dict_set String.eqb entry.1 (column_entry entry.2) d)
                    [] (e :: es)))
          manifest
    | _ => manifest
    end in
  let manifest :=
    match config.privacy_rules config with
    | Some (r :: rs) =>
        dict_set String.eqb "privacy_rules"
          (DList ((fun rule =>
                     DDict [("column", dstr (config.column rule));
                            ("mask_type", dstr (config.mask_type rule));
                            ("mask_params",
                             DDict (prod_map id DVal <$> map_to_list (config.mask_params rule)))])
                    <$> (r :: rs)))
          manifest
    | _ => manifest
    end in
  DDict manifest.

End with_runtime.
End manifest.

(** ** [dnuds.sampling.stratified_sampler] *)
Module StratifiedSampler.
Section with_runtime.
Context `{!Py.Runtime} `{!random.Random}.

Record t := {
  config : config.SamplerConfig;
  rng : random.rng;
  key_columns : list string;
}.

Definition __init__ (config : config.SamplerConfig) (entropy : random.rng) : result t :=
  match config.key_columns config with
  | Some (c :: cs) =>
      Ok {| config := config;
            rng := random.Random_new (config.seed config) entropy;
            key_columns := c :: cs |}
  | _ => Raise (ValueError "Stratified sampling requires at least one key column. Set key_columns in config.")
  end.

Definition _get_category_key (self : t) (row : Row) : string :=
  String.concat "|"
    ((fun col =>
        match cells row !! col with
        | Some VNone | None => "None"
        | Some value => str value
        end) <$> key_columns self).

(** [category_rows[category_key].append(row)] on a [defaultdict(list)]. *)
Definition add_row (self : t) (category_rows : list (string * list Row)) (row : Row)
  : list (string * list Row) :=
  let category_key := _get_category_key self row in
  dict_set String.eqb category_key
    (default [] (dict_get String.eqb category_key category_rows) ++ [row])
    category_rows.

(** [row in sampled]: the same object, or a [dict] with equal items. *)
Definition row_eq (a b : Row) : bool :=
  bool_decide (row_id a = row_id b)
  || (bool_decide (dom (cells a) = dom (cells b))
      && forallb (fun kv : string * value =>
                    match cells b !! kv.1 with
                    | Some v => py_eq kv.2 v
                    | None => false
                    end) (map_to_list (cells a))).

Fixpoint dict_del {V} (k : string) (d : list (string * V)) : list (string * V) :=
  match d with
  | [] => []
  | (k', v) :: d' => if String.eqb k' k then d' else (k', v) :: dict_del k d'
  end.

(** The first pass: one category. *)
Definition first_pass (min_per_category : Z) (st : list Row * Z * random.rng)
    (entry : string * list Row) : result (list Row * Z * random.rng) :=
  let '(sampled, remaining_target, g) := st in
  let category_size := Z.of_nat (length entry.2) in
  let sample_count := Z.min (Z.min min_per_category category_size) remaining_target in
  if (0 <? sample_count)%Z then
    '(sampled_rows, g) ← random.sample_checked g entry.2 sample_count;
    Ok (sampled ++ sampled_rows, (remaining_target - sample_count)%Z, g)
  else Ok st.

(** The [for] loop that picks [selected_category]: the first category whose
    cumulative capacity reaches [rand_val]. *)
Fixpoint select (rand_val : float) (cumulative : Z) (caps : list (string * Z))
  : option string :=
  match caps with
  | [] => None
  | (cat_key, capacity) :: caps' =>
      let cumulative := (cumulative + capacity)%Z in
      match Z_compare_float cumulative rand_val with
      | Some Gt | Some Eq => Some cat_key
      | _ => select rand_val cumulative caps'
      end
  end.

(** The variables of the second pass. *)
Record state := {
  st_sampled : list Row;
  st_remaining_target : Z;
  st_category_capacities : list (string * Z);
  st_gen : random.rng;
}.

(** The [while] loop of the second pass.  Every iteration lowers
    [remaining_target] or deletes a category, so [fuel] bounds it. *)
Fixpoint second_pass (self : t) (category_rows : list (string * list Row))
    (fuel : nat) (st : state) : result state :=
  match fuel with
  | O => Ok st
  | S fuel' =>
      match st_category_capacities st with
      | [] => Ok st
      | (first_key, _) :: _ =>
          if negb (0 <? st_remaining_target st)%Z then Ok st
          else
            let total_capacity := foldl Z.add 0%Z (snd <$> st_category_capacities st) in
            if (total_capacity =? 0)%Z then Ok st
            else
              let '(u, g) := random.random (st_gen st) in
              let rand_val := PrimFloat.mul u (Z_to_float total_capacity) in
              let selected_category :=
                default first_key (select rand_val 0 (st_category_capacities st)) in
              let category_list :=
                default [] (dict_get String.eqb selected_category category_rows) in
              let already_sampled_keys := _get_category_key self <$> st_sampled st in
              let available_rows :=
                List.filter
                  (fun row =>
                     negb (existsb (String.eqb (_get_category_key self row)) already_sampled_keys)
                     || negb (existsb (row_eq row) (st_sampled st)))
                  category_list in
              match available_rows with
              | _ :: _ =>
                  '(sampled_row, g) ← random.choice g available_rows;
                  let capacity :=
                    (default 0 (dict_get String.eqb selected_category (st_category_capacities st)) - 1)%Z in
                  let caps := dict_set String.eqb selected_category capacity (st_category_capacities st) in
                  second_pass self category_rows fuel'
                    {| st_sampled := st_sampled st ++ [sampled_row];
                       st_remaining_target := st_remaining_target st - 1;
                       st_category_capacities :=
                         if (capacity <=? 0)%Z then dict_del selected_category caps else caps;
                       st_gen := g |}
              | [] =>
                  second_pass self category_rows fuel'
                    {| st_sampled := st_sampled st;
                       st_remaining_target := st_remaining_target st;
                       st_category_capacities := dict_del selected_category (st_category_capacities st);
                       st_gen := g |}
              end
      end
  end.

Definition sample (self : t) (rows : list Row) (columns : list string)
  : result (list Row) :=
  let target_size := config.target_rows (config self) in
  let category_rows := foldl (add_row self) [] rows in
  let num_categories := Z.of_nat (length category_rows) in
  if (num_categories =? 0)%Z then Ok []
  else
    let min_per_category := Z.max 1 (target_size / (num_categories * 2)) in
    let max_per_category :=
      Z.max min_per_category (target_size / Z.max 1 (num_categories / 2)) in
    '(sampled, remaining_target, g) ←
      for_each (first_pass min_per_category) ([], target_size, rng self) category_rows;
    st ←
      (if (0 <? remaining_target)%Z && (Z.of_nat (length sampled) <? target_size)%Z then
         let category_capacities :=
           foldl (fun caps entry =>
                    let already_sampled :=
                      Z.of_nat (length (List.filter
                        (fun row => String.eqb (_get_category_key self row) entry.1) sampled)) in
                    let available := (Z.of_nat (length entry.2) - already_sampled)%Z in
                    let capacity := Z.min available (max_per_category - already_sampled) in
                    if (0 <? capacity)%Z then dict_set String.eqb entry.1 capacity caps
                    else caps) [] category_rows in
         second_pass self category_rows
           (Z.to_nat remaining_target + length category_capacities)
           {| st_sampled := sampled; st_remaining_target := remaining_target;
              st_category_capacities := category_capacities; st_gen := g |}
       else Ok {| st_sampled := sampled; st_remaining_target := remaining_target;
                  st_category_capacities := []; st_gen := g |});
    let '(sampled, _) := random.shuffle (st_gen st) (st_sampled st) in
    Ok (list_slice_to target_size sampled).

Definition as_Sampler (self : t) : base.Sampler :=
  {| base.config := config self; base.sample := sample self |}.

End with_runtime.
End StratifiedSampler.

(** ** [dnuds.core] *)
Module core.
Section with_runtime.
Context `{!Py.Runtime} `{!random.Random}.

(** [entropy n] is the state of the [n]-th generator that this call creates
    without a seed. *)
Definition _get_sampler (config : config.SamplerConfig) (entropy : nat -> random.rng)
  : result base.Sampler :=
  let mode := config.sampling_mode config in
  if String.eqb mode "random" then
    Ok (RandomSampler.as_Sampler (RandomSampler.__init__ config (entropy 0)))
  else if String.eqb mode "stratified" then
    s ← StratifiedSampler.__init__ config (entropy 0);
    Ok (StratifiedSampler.as_Sampler s)
  else if String.eqb mode "time_aware" then
    Ok (TimeSampler.as_Sampler (TimeSampler.__init__ config (entropy 0)))
  else if String.eqb mode "outlier_aware" then
    Ok (OutlierSampler.as_Sampler (OutlierSampler.__init__ config (entropy 0)))
  else if String.eqb mode "composite" then
    let samplers :=
      [OutlierSampler.as_Sampler (OutlierSampler.__init__ config (entropy 0));
       TimeSampler.as_Sampler (TimeSampler.__init__ config (entropy 1));
       RandomSampler.as_Sampler (RandomSampler.__init__ config (entropy 2))] in
    Ok (CompositeSampler.as_Sampler (CompositeSampler.__init__ config samplers))
  else Raise (ValueError ("Unsupported sampling mode: " +:+ mode)).

(** What the sampling loop of [sample_file] has done when it stops: the
    contents handed to [writer.write_row], in order, the rows kept for the
    statistics, and the store. *)
Record emitted := {
  written : list (gmap string value);
  sampled_rows_list : list nat;
  row_count : Z;
  store : heap;
}.

(** [for row in sampled_rows]: mask when rules are configured, write, keep. *)
Fixpoint write_rows (privacy_rules : option (list config.PrivacyRule))
    (sampled_rows : list nat) (st : emitted) : result unit * emitted :=
  match sampled_rows with
  | [] => (Ok tt, st)
  | row :: sampled_rows' =>
      let '(r, h) :=
        match privacy_rules with
        | Some (rule :: rules) => rules.apply_privacy_rules row (rule :: rules) (store st)
        | _ => (Ok row, store st)
        end in
      match r with
      | Ok row =>
          write_rows privacy_rules sampled_rows'
            {| written := written st ++ [h !!! row];
               sampled_rows_list := sampled_rows_list st ++ [row];
               row_count := row_count st + 1;
               store := h |}
      | Raise e =>
          (Raise e,
           {| written := written st; sampled_rows_list := sampled_rows_list st;
              row_count := row_count st; store := h |})
      end
  end.

(** [FormatType.value] and [FormatType(value)]. *)
Definition FormatType_value (f : format_detector.FormatType) : string :=
  match f with
  | format_detector.CSV => "csv"
  | format_detector.JSONL => "jsonl"
  | format_detector.LOG => "log"
  | format_detector.SQL => "sql"
  | format_detector.UNKNOWN => "unknown"
  end.

Definition FormatType_new (value : string) : result format_detector.FormatType :=
  match List.find (fun f => String.eqb (FormatType_value f) value)
          [format_detector.CSV; format_detector.JSONL; format_detector.LOG;
           format_detector.SQL; format_detector.UNKNOWN] with
  | Some f => Ok f
  | None => Raise (ValueError (squote +:+ value +:+ "' is not a valid FormatType"))
  end.

(** [_get_reader] and [_get_writer]: the format whose reader or writer is
    built.  The message names the member as Python 3.11 and later format
    it. *)
Definition _get_reader (file_path : string) (format_type : option format_detector.FormatType)
  : result format_detector.FormatType :=
  let format_type :=
    match format_type with
    | None => format_detector.detect_format file_path None
    | Some f => f
    end in
  match format_type with
  | format_detector.UNKNOWN =>
      Raise (ValueError ("Unsupported format: " +:+ "FormatType.UNKNOWN"
                         +:+ ". Supported formats: CSV, JSONL, LOG, SQL"))
  | f => Ok f
  end.

Definition _get_writer (file_path : string) (format_type : option format_detector.FormatType)
    (columns : option (list string)) : result format_detector.FormatType :=
  let format_type :=
    match format_type with
    | None => format_detector.detect_format file_path None
    | Some f => f
    end in
  match format_type with
  | format_detector.UNKNOWN =>
      Raise (ValueError ("Unsupported format: " +:+ "FormatType.UNKNOWN"
                         +:+ ". Supported formats: CSV, JSONL, LOG, SQL"))
  | f => Ok f
  end.

(** What [sample_file] has set up when the sampling loop starts, for an
    input file that exists; [columns] is what [reader.get_columns()]
    returns. *)
Record setup := {
  format_type : option format_detector.FormatType;
  config : config.SamplerConfig;
  reader : format_detector.FormatType;
  writer : format_detector.FormatType;
  sampler : base.Sampler;
}.

Definition sample_file_setup (input_path output_path : string) (format : option string)
    (profile : string) (target_rows : Z) (key_columns : option (list string))
    (config : option config.SamplerConfig) (columns : list string)
    (entropy : nat -> random.rng) : result setup :=
  format_type ←
    match format with
    | Some format =>
        if String.eqb format "" then Ok None
        else
          match FormatType_new (lower format) with
          | Ok f => Ok (Some f)
          | Raise _ => Raise (ValueError ("Unknown format: " +:+ format))
          end
    | None => Ok None
    end;
  config ←
    match config with
    | Some config => Ok config
    | None =>
        profile_config ← config.get_profile_config profile;
        let config_dict := profile_config in
        let config_dict :=
          if negb (target_rows =? 1000)%Z
          then config.update config_dict
                 {| config.kw_sampling_mode := None; config.kw_target_rows := Some target_rows;
                    config.kw_max_memory_bytes := None; config.kw_key_columns := None;
                    config.kw_privacy_rules := None; config.kw_seed := None;
                    config.kw_log_level := None |}
          else config_dict in
        let config_dict :=
          match key_columns with
          | Some key_columns =>
              config.update config_dict
                {| config.kw_sampling_mode := None; config.kw_target_rows := None;
                   config.kw_max_memory_bytes := None;
                   config.kw_key_columns := Some (Some key_columns);
                   config.kw_privacy_rules := None; config.kw_seed := None;
                   config.kw_log_level := None |}
          | None => config_dict
          end in
        config.SamplerConfig_new config_dict
    end;
  reader ← _get_reader input_path format_type;
  writer ← _get_writer output_path format_type (Some columns);
  sampler ← _get_sampler config entropy;
  Ok {| format_type := format_type; config := config; reader := reader;
        writer := writer; sampler := sampler |}.

End with_runtime.
End core.


(** ** [dnuds.profiles] *)
Module profiles.

(** [overrides] is [None], or a dictionary of fields of the configuration. *)
Definition create_config_from_profile (profile_name : string)
    (overrides : option config.kwargs) : result config.SamplerConfig :=
  profile_dict ← config.get_profile_config profile_name;
  config.SamplerConfig_new
    (match overrides with
     | Some o => config.update profile_dict o
     | None => profile_dict
     end).

End profiles.

(** ** [dnuds.formats.sql_writer] *)
Module SQLWriter.
Section with_runtime.
Context `{!Py.Runtime}.

Record t := {
  table_name : string;
  columns : option (list string);
}.

Definition __init__ (table_name : string) : t :=
  {| table_name := table_name; columns := None |}.

Definition _escape_sql_value (value : value) : string :=
  match value with
  | VNone => "NULL"
  | VBool b => if b then "TRUE" else "FALSE"
  | VInt _ | VFloat _ => str value
  | _ => squote +:+ replace squote (squote +:+ squote) (str value) +:+ squote
  end.

Definition write_header (self : t) (columns : list string) : t :=
  {| table_name := table_name self; columns := Some columns |}.

(** The statement written for [row], and the writer afterwards. *)
Definition write_row (self : t) (row : list (string * value)) : string * t :=
  let columns :=
    match columns self with
    | None => row.*1
    | Some columns => columns
    end in
  let columns_str := String.concat ", " columns in
  let values :=
    (fun col => _escape_sql_value (default VNone (dict_get String.eqb col row)))
      <$> columns in
  let values_str := String.concat ", " values in
  ("INSERT INTO " +:+ table_name self +:+ " (" +:+ columns_str +:+ ") VALUES ("
   +:+ values_str +:+ ");" +:+ format_detector.newline,
   {| table_name := table_name self; columns := Some columns |}).

End with_runtime.
End SQLWriter.

(** ** [dnuds.formats.log_reader] *)
Module LogReader.

(** A reader: [parse_pattern], when given, is the compiled pattern, taken
    by what [match(line).groups()] returns ([None] for no match; a group
    that took no part in the match is [None]). *)
Record t := {
  parse_pattern : option (string -> option (list (option string)));
  columns : list string;
}.

Definition __init__ (parse_pattern : option (string -> option (list (option string)))) : t :=
  {| parse_pattern := parse_pattern;
     columns := match parse_pattern with
                | Some _ => ["level"; "message"]
                | None => ["message"]
                end |}.

Definition is_newline (a : ascii) : bool := ((code a =? 10) || (code a =? 13))%N.

Definition _parse_line (self : t) (line : string) : list (string * value) :=
  let line := rstrip_chars is_newline line in
  match parse_pattern self ≫= (fun pattern => pattern line) with
  | Some groups =>
      foldl (fun result (entry : nat * string) =>
               dict_set String.eqb entry.2
                 (match groups !! entry.1 with
                  | Some (Some g) => VStr g
                  | Some None => VNone
                  | None => VStr ""
                  end) result)
        [] (imap pair (columns self))
  | None => [("message", VStr line)]
  end.

Definition read_rows (self : t) (lines : list string) : list (list (string * value)) :=
  _parse_line self <$> List.filter (fun line => negb (String.eqb (strip line) "")) lines.

Definition get_columns (self : t) : list string := columns self.

End LogReader.

(** ** [dnuds.formats.log_writer] *)
Module LogWriter.
Section with_runtime.
Context `{!Py.Runtime}.

(** What [format_template.format] does with the items of the row as
    keywords. *)
Inductive formatted :=
| Formatted (line : string)
| KeyError
| Other (e : exn).

Record t := {
  message_column : string;
  format_template : option (list (string * value) -> formatted);
}.

(** The writer that [core._get_writer] builds. *)
Definition __init__ : t := {| message_column := "message"; format_template := None |}.

(** [row.get(key, default)] *)
Definition get (row : list (string * value)) (key : string) (default : value) : value :=
  match dict_get String.eqb key row with
  | Some v => v
  | None => default
  end.

(** The text written for [row]. *)
Definition write_row (self : t) (row : list (string * value)) : result string :=
  line ←
    match format_template self with
    | Some format =>
        match format row with
        | Formatted line => Ok line
        | KeyError => Ok (str (get row (message_column self) (VStr "")))
        | Other e => Raise e
        end
    | None =>
        let first := match row with (key, _) :: _ => key | [] => "" end in
        Ok (str (get row (message_column self) (get row first (VStr ""))))
    end;
  Ok (line +:+ format_detector.newline).

End with_runtime.
End LogWriter.

(** ** [dnuds.formats.jsonl_reader] *)
Module JSONLReader.
Import manifest.

(** The [json] module: [loads] is [None] where [json.loads] raises
    [JSONDecodeError]. *)
Class JSON := {
  loads : string -> option doc;
  dumps : doc -> string;
}.

Section with_json.
Context `{!JSON}.

(** [f"{prefix}.{key}" if prefix else key] *)
Definition full_key (prefix key : string) : string :=
  if String.eqb prefix "" then key else prefix +:+ "." +:+ key.

(** The keys that [value], found under the key [name], adds to [keys]. *)
Fixpoint flatten_key (value : doc) (name : string) {struct value} : list string :=
  match value with
  | DDict items =>
      (fix each (items : list (string * doc)) : list string :=
         match items with
         | [] => []
         | (key, value) :: items' =>
             flatten_key value (full_key name key) ++ each items'
         end) items
  | _ => [name]
  end.

Definition _flatten_keys (obj : list (string * doc)) (prefix : string) : list string :=
  flatten_key (DDict obj) prefix.

(** The inner function [_flatten] of [_flatten_row], with [result]. *)
Fixpoint _flatten (obj : doc) (prefix : string) (result : list (string * value))
  {struct obj} : list (string * value) :=
  match obj with
  | DDict items =>
      (fix each (items : list (string * doc)) (result : list (string * value)) :=
         match items with
         | [] => result
         | (key, value) :: items' =>
             each items' (_flatten value (full_key prefix key) result)
         end) items result
  | DList _ => dict_set String.eqb prefix (VStr (dumps obj)) result
  | DVal v => dict_set String.eqb prefix v result
  end.

Definition _flatten_row (row : list (string * doc)) : list (string * value) :=
  _flatten (DDict row) "" [].

(** [json.loads(line)], a value that is not an object wrapped. *)
Definition load_row (line : string) : option (list (string * doc)) :=
  match loads line with
  | Some (DDict items) => Some items
  | Some obj => Some [("value", obj)]
  | None => None
  end.

(** The body of the loop of [read_rows]. *)
Definition read_line (line : string) : option (list (string * value)) :=
  let line := strip line in
  if String.eqb line "" then None
  else _flatten_row <$> load_row line.

Definition read_rows (lines : list string) : list (list (string * value)) :=
  omap read_line lines.

(** [get_columns] before any row is read: only the first line is looked at. *)
Definition get_columns (lines : list string) : list string :=
  match lines with
  | first_line :: _ =>
      if String.eqb (strip first_line) "" then []
      else
        match loads (strip first_line) with
        | Some (DDict items) => _flatten_keys items ""
        | Some _ => ["value"]
        | None => []
        end
  | [] => []
  end.

End with_json.
End JSONLReader.

(** * Verification *)

(** Splits a conjunction of implications and closes the cases that a
    decided test contradicts. *)
Ltac crush :=
  repeat split; intros;
  repeat match goal with H : _ /\ _ |- _ => destruct H end;
  simplify_eq; try done; try congruence.

(** ** The SQL-dump reader decodes value tokens (C5) *)
Section sql_values.
Import SQLReader.

(** A token that is neither [NULL] nor quoted. *)
Definition plain (t : string) : Prop :=
  String.eqb (upper t) "NULL" = false /\
  quoted_by squote t || quoted_by dquote t = false.

(** C5, as stated, fails: the token [1e5] parses as a float and not as an
    integer, yet it is decoded to the text [1e5]. *)
Lemma parse_value_exponent_is_text :
  ~ (forall tok f, plain (strip tok) -> int_of_str (strip tok) = None ->
       float_of_str (strip tok) = Some f -> _parse_value tok = VFloat f).
Proof.
  intros Hclaim.
  specialize (Hclaim "1e5" 100000%float).
  assert (Hv : _parse_value "1e5" = VStr "1e5") by (vm_compute; reflexivity).
  rewrite Hv in Hclaim.
  discriminate Hclaim; [split | | ]; vm_compute; reflexivity.
Qed.

(** C5, amended: [NULL] decodes to null and a quoted token to its unescaped
    text; any other token is tried as a float when it contains a dot and as
    an integer when it does not, then as a boolean, else kept as text.  So a
    plain token decodes to a float exactly when it has a dot and parses as
    a float, and without a dot it never does. *)
Theorem parse_value_decodes (tok : string) :
  let t := strip tok in
  (String.eqb (upper t) "NULL" = true -> _parse_value tok = VNone) /\
  (String.eqb (upper t) "NULL" = false ->
   quoted_by squote t || quoted_by dquote t = true ->
   _parse_value tok =
     VStr (replace (backslash +:+ dquote) dquote
             (replace (backslash +:+ squote) squote (slice_1_m1 t)))) /\
  (plain t -> forall f,
   _parse_value tok = VFloat f <-> contains "." t = true /\ float_of_str t = Some f) /\
  (plain t -> forall z,
   _parse_value tok = VInt z <-> contains "." t = false /\ int_of_str t = Some z) /\
  (plain t -> contains "." t = false -> int_of_str t = None ->
   _parse_value tok =
     if String.eqb (upper t) "TRUE" || String.eqb (upper t) "FALSE"
     then VBool (String.eqb (upper t) "TRUE") else VStr t) /\
  (plain t -> contains "." t = true -> float_of_str t = None ->
   _parse_value tok =
     if String.eqb (upper t) "TRUE" || String.eqb (upper t) "FALSE"
     then VBool (String.eqb (upper t) "TRUE") else VStr t).
Proof.
  intros t. unfold _parse_value, plain. fold t.
  destruct (String.eqb (upper t) "NULL") eqn:Hnull; [crush|].
  destruct (quoted_by squote t || quoted_by dquote t) eqn:Hq; [crush|].
  destruct (contains "." t) eqn:Hdot; simpl.
  - destruct (float_of_str t) as [f|] eqn:Hf; simpl; [crush|].
    destruct (String.eqb (upper t) "TRUE" || String.eqb (upper t) "FALSE"); crush.
  - destruct (int_of_str t) as [z|] eqn:Hz; simpl; [crush|].
    destruct (String.eqb (upper t) "TRUE" || String.eqb (upper t) "FALSE"); crush.
Qed.

End sql_values.

(** ** Format detection by content (C4) *)
Section detection.
Import format_detector.
Context `{!Py.Runtime}.

Definition recognized_extensions : list string :=
  [".csv"; ".jsonl"; ".ndjson"; ".log"; ".sql"].

(** The extension of [path] is none of the recognized ones. *)
Definition unrecognized (path : string) : Prop :=
  lower (path_suffix path) ∉ recognized_extensions.

(** The three content tests, as the specification words them. *)
Definition json_object (c : string) : bool :=
  startswith (strip c) "{" && endswith (strip c) "}" && json_loads_ok (strip c).

Definition comma_and_newline (c : string) : bool :=
  contains "," c && contains newline c.

(** A case-insensitive search for [INSERT\\s+INTO]: the pattern is in upper
    case, so the subject is searched in upper case. *)
Definition insert_into_ignorecase (c : string) : bool :=
  re_search INSERT_INTO (upper c).

(** The content rules in the order the specification gives them. *)
Definition spec_content_rules (c : string) : FormatType :=
  if json_object c then JSONL
  else if insert_into_ignorecase c then SQL
  else if comma_and_newline c then CSV
  else UNKNOWN.

Lemma detect_format_by_content path c :
  unrecognized path ->
  detect_format path (Some c) =
    if String.eqb c "" then UNKNOWN
    else if json_object c then JSONL
    else if comma_and_newline c then CSV
    else if re_search INSERT_INTO (lower c) then SQL
    else UNKNOWN.
Proof.
  unfold unrecognized, recognized_extensions, detect_format.
  intros Hext.
  repeat match goal with
  | |- context [String.eqb (lower (path_suffix path)) ?e] =>
      destruct (String.eqb_spec (lower (path_suffix path)) e) as [Heq|_];
      [exfalso; apply Hext; rewrite Heq; set_solver|]
  end.
  reflexivity.
Qed.

(** No lower-case text contains the upper-case letter [I]. *)
Lemma lower_char_not_I a : Ascii.eqb "I"%char (lower_char a) = false.
Proof.
  destruct a as [[] [] [] [] [] [] [] []]; vm_compute; reflexivity.
Qed.

Lemma re_match_lower_INSERT_INTO s : re_match INSERT_INTO (lower s) = false.
Proof.
  destruct s as [|a s]; [reflexivity|].
  change (re_match INSERT_INTO (lower (String a s))) with
    (Ascii.eqb "I"%char (lower_char a) && re_match (List.tl INSERT_INTO) (lower s)).
  rewrite lower_char_not_I. reflexivity.
Qed.

(** The search for [INSERT\\s+INTO] runs over the lower-cased fragment,
    where the upper-case pattern cannot occur: the SQL rule never fires. *)
Lemma re_search_lower_INSERT_INTO s : re_search INSERT_INTO (lower s) = false.
Proof.
  induction s as [|a s IH].
  - reflexivity.
  - change (lower (String a s)) with (String (lower_char a) (lower s)).
    cbn [re_search]. rewrite IH.
    change (String (lower_char a) (lower s)) with (lower (String a s)).
    rewrite re_match_lower_INSERT_INTO. reflexivity.
Qed.

(** C4, amended: with an unrecognized extension, a fragment that is a JSON
    object yields jsonlines; else a fragment with a comma and a newline
    yields tabular; any other fragment yields sqldump or unknown, and
    unknown when it has no [INSERT INTO] in any letter case. *)
Theorem detect_format_content_rules path c :
  unrecognized path ->
  (json_object c = true -> detect_format path (Some c) = JSONL) /\
  (json_object c = false -> comma_and_newline c = true ->
   detect_format path (Some c) = CSV) /\
  (json_object c = false -> comma_and_newline c = false ->
   detect_format path (Some c) = SQL \/ detect_format path (Some c) = UNKNOWN) /\
  (json_object c = false -> comma_and_newline c = false ->
   insert_into_ignorecase c = false -> detect_format path (Some c) = UNKNOWN).
Proof.
  intros Hext. rewrite (detect_format_by_content _ _ Hext).
  rewrite re_search_lower_INSERT_INTO.
  destruct (String.eqb_spec c "") as [->|_].
  - repeat split; intros; try done; auto.
  - destruct (json_object c), (comma_and_newline c); repeat split; intros; try done; auto.
Qed.

End detection.

Lemma unrecognized_by_test path :
  forallb (fun e => negb (String.eqb (lower (path_suffix path)) e))
    recognized_extensions = true ->
  unrecognized path.
Proof.
  intros H Hin. apply list_elem_of_In in Hin.
  rewrite forallb_forall in H. specialize (H _ Hin).
  rewrite String.eqb_refl in H. discriminate H.
Qed.

(** C4, as stated, fails twice.  A fragment with an [INSERT INTO], a comma
    and a newline is classified as tabular, because the comma test comes
    before the SQL test; and a fragment with an [INSERT INTO] alone is
    classified as unknown. *)
Lemma detect_format_not_spec_order :
  unrecognized "dump.txt" /\
  (~ exists rt : Py.Runtime,
       @format_detector.detect_format rt "dump.txt"
         (Some ("INSERT INTO t (a, b) VALUES (1, 2);" +:+ format_detector.newline))
       = @spec_content_rules rt
           ("INSERT INTO t (a, b) VALUES (1, 2);" +:+ format_detector.newline)) /\
  (~ exists rt : Py.Runtime,
       @format_detector.detect_format rt "dump.txt" (Some "INSERT INTO t VALUES (1);")
       = @spec_content_rules rt "INSERT INTO t VALUES (1);").
Proof.
  split; [|split].
  - apply unrecognized_by_test. vm_compute. reflexivity.
  - intros [rt H]. vm_compute in H. discriminate H.
  - intros [rt H]. vm_compute in H. discriminate H.
Qed.

Lemma detect_format_content_rules_witness :
  unrecognized "export.txt" /\
  (forall rt : Py.Runtime,
     @format_detector.detect_format rt "export.txt"
       (Some ("id,name" +:+ format_detector.newline)) = format_detector.CSV).
Proof.
  assert (Hext : unrecognized "export.txt").
  { apply unrecognized_by_test. vm_compute. reflexivity. }
  split; [exact Hext|].
  intros rt.
  apply (@detect_format_content_rules rt "export.txt"
           ("id,name" +:+ format_detector.newline) Hext); vm_compute; reflexivity.
Defined.

(** ** Insertion-ordered dictionaries: lookup after assignment *)
Section dict_facts.
Context {K V : Type} (eqb : K -> K -> bool).
Hypothesis eqb_eq : forall a b, eqb a b = true <-> a = b.

Lemma dict_get_set k k' (v : V) d :
  dict_get eqb k (dict_set eqb k' v d) =
    if eqb k' k then Some v else dict_get eqb k d.
Proof.
  assert (Hrefl : forall a, eqb a a = true) by (intros a; by apply eqb_eq).
  induction d as [|[k0 v0] d IH]; simpl.
  - reflexivity.
  - destruct (eqb k0 k') eqn:E0; simpl.
    + apply eqb_eq in E0. subst k0.
      destruct (eqb k' k); reflexivity.
    + destruct (eqb k0 k) eqn:E1; [|exact IH].
      apply eqb_eq in E1. subst k0.
      destruct (eqb k' k) eqn:E2; [|reflexivity].
      apply eqb_eq in E2. subst k'. rewrite Hrefl in E0. discriminate E0.
Qed.

Lemma dict_get_elem_of k (v : V) d : dict_get eqb k d = Some v -> (k, v) ∈ d.
Proof.
  induction d as [|[k0 v0] d IH]; simpl; [done|].
  destruct (eqb k0 k) eqn:E.
  - apply eqb_eq in E. intros [= ->]. subst. left.
  - intros H. right. auto.
Qed.

Lemma dict_set_keys k (v : V) d :
  fst <$> dict_set eqb k v d =
    if bool_decide (is_Some (dict_get eqb k d)) then fst <$> d else (fst <$> d) ++ [k].
Proof.
  induction d as [|[k0 v0] d IH]; [done|].
  cbn [dict_set dict_get]. destruct (eqb k0 k) eqn:E.
  - reflexivity.
  - rewrite !fmap_cons, IH. case_bool_decide; reflexivity.
Qed.

Lemma dict_get_None_keys k (d : list (K * V)) :
  dict_get eqb k d = None -> k ∉ (fst <$> d).
Proof.
  induction d as [|[k0 v0] d IH]; simpl; [set_solver|].
  destruct (eqb k0 k) eqn:E; [done|].
  intros H Hin. apply elem_of_cons in Hin as [->|Hin].
  - assert (eqb k0 k0 = true) by (apply eqb_eq; reflexivity). congruence.
  - by apply IH.
Qed.

Lemma dict_set_NoDup k (v : V) d :
  NoDup (fst <$> d) -> NoDup (fst <$> dict_set eqb k v d).
Proof.
  intros Hnd. rewrite dict_set_keys. case_bool_decide as Hk; [done|].
  apply NoDup_app. split; [done|]. split; [|apply NoDup_singleton].
  intros x Hx Hx'. apply list_elem_of_singleton in Hx'. subst x.
  destruct (dict_get eqb k d) eqn:E; [destruct Hk; eauto|].
  by apply dict_get_None_keys in E.
Qed.

Lemma elem_of_dict_get k (v : V) d :
  NoDup (fst <$> d) -> (k, v) ∈ d -> dict_get eqb k d = Some v.
Proof.
  induction d as [|[k0 v0] d IH]; simpl; [set_solver|].
  intros Hnd Hin. apply NoDup_cons in Hnd as [Hk0 Hnd].
  apply elem_of_cons in Hin as [[= -> ->]|Hin].
  - assert (eqb k0 k0 = true) as -> by (apply eqb_eq; reflexivity). reflexivity.
  - destruct (eqb k0 k) eqn:E; [|auto].
    apply eqb_eq in E. subst k0. destruct Hk0.
    apply list_elem_of_fmap. exists (k, v). done.
Qed.

End dict_facts.

(** ** Column type inference (C8) *)
Section column_type.
Import type_inference.

Definition non_null (v : value) : bool :=
  match v with
  | VNone => false
  | _ => true
  end.

(** How often the tag [t] occurs in [l]. *)
Definition occurrences (t : TypeGuess) (l : list TypeGuess) : Z :=
  Z.of_nat (length (filter (fun x => x = t) l)).

(** The counting loop and the choice of the most frequent tag. *)
Definition tally_from (acc : list (TypeGuess * Z)) (l : list TypeGuess) :=
  foldl count_guess acc l.

Definition modal (l : list TypeGuess) : TypeGuess :=
  match tally_from [] l with
  | [] => UNKNOWN
  | item :: items => (max_by_count item items).1
  end.

(** The values the code infers on: the non-null ones among the first 100. *)
Definition code_sample (values : list value) : list value :=
  List.filter non_null (take 100 values).

(** The values the specification names: the first 100 non-null ones. *)
Definition spec_sample (values : list value) : list value :=
  take 100 (List.filter non_null values).

Definition spec_infer_column_type (values : list value) : TypeGuess :=
  modal (infer_type <$> spec_sample values).

Lemma guess_eqb_eq a b : guess_eqb a b = true <-> a = b.
Proof. unfold guess_eqb. apply bool_decide_eq_true. Qed.

Lemma count_loop_skips_null acc (sample : list value) :
  foldl (fun type_counts value =>
           match value with
           | VNone => type_counts
           | _ => count_guess type_counts (infer_type value)
           end) acc sample
  = tally_from acc (infer_type <$> List.filter non_null sample).
Proof.
  revert acc. induction sample as [|v sample IH]; intros acc; [reflexivity|].
  destruct v; simpl; apply IH.
Qed.

Lemma infer_column_type_modal values :
  infer_column_type values 100 = modal (infer_type <$> code_sample values).
Proof.
  unfold infer_column_type, modal, code_sample.
  destruct values as [|v values]; [reflexivity|].
  set (l := v :: values).
  assert (Hs : (if (100 <? Z.of_nat (length l))%Z then list_slice_to 100 l else l)
               = take 100 l).
  { destruct (Z.ltb_spec 100 (Z.of_nat (length l))); [reflexivity|].
    symmetry. apply take_ge. lia. }
  rewrite Hs, count_loop_skips_null. reflexivity.
Qed.

Lemma occurrences_cons t x l :
  occurrences t (x :: l) = ((if decide (x = t) then 1 else 0) + occurrences t l)%Z.
Proof.
  unfold occurrences. rewrite filter_cons.
  destruct (decide (x = t)); simpl length; lia.
Qed.

Lemma occurrences_nonneg t l : (0 <= occurrences t l)%Z.
Proof. unfold occurrences. lia. Qed.

Lemma occurrences_pos t l : t ∈ l -> (0 < occurrences t l)%Z.
Proof.
  induction l as [|x l IH]; [by intros ?%elem_of_nil|].
  rewrite occurrences_cons. intros [Heq|Hin]%elem_of_cons.
  - rewrite decide_True by done. pose proof (occurrences_nonneg t l). lia.
  - specialize (IH Hin). destruct (decide (x = t)); lia.
Qed.

Lemma count_guess_get acc x t :
  dict_get guess_eqb t (count_guess acc x) =
    if decide (x = t) then Some (default 0 (dict_get guess_eqb t acc) + 1)%Z
    else dict_get guess_eqb t acc.
Proof.
  unfold count_guess. rewrite (dict_get_set _ guess_eqb_eq).
  destruct (decide (x = t)) as [->|Hne].
  - assert (guess_eqb t t = true) as -> by (by apply guess_eqb_eq). reflexivity.
  - destruct (guess_eqb x t) eqn:E; [|reflexivity].
    apply guess_eqb_eq in E. done.
Qed.

Lemma tally_from_spec l : forall acc,
  NoDup (fst <$> acc) ->
  NoDup (fst <$> tally_from acc l) /\
  forall t,
    (is_Some (dict_get guess_eqb t (tally_from acc l)) <->
     is_Some (dict_get guess_eqb t acc) \/ t ∈ l) /\
    default 0%Z (dict_get guess_eqb t (tally_from acc l)) =
      (default 0 (dict_get guess_eqb t acc) + occurrences t l)%Z.
Proof.
  induction l as [|x l IH]; intros acc Hnd.
  - split; [done|]. intros t. unfold occurrences. simpl. split; [|lia].
    rewrite elem_of_nil. naive_solver.
  - change (tally_from acc (x :: l)) with (tally_from (count_guess acc x) l).
    destruct (IH (count_guess acc x)) as [Hnd' Ht].
    { apply dict_set_NoDup; [apply guess_eqb_eq|done]. }
    split; [done|]. intros t. destruct (Ht t) as [Hs Hc]. clear Ht IH.
    rewrite count_guess_get in Hs, Hc. rewrite occurrences_cons.
    destruct (decide (x = t)) as [->|Hne]; simpl in Hc.
    + split; [|lia]. rewrite Hs. split; [intros _; right; left|].
      intros _. left. eauto.
    + split; [|lia]. rewrite Hs, elem_of_cons. naive_solver.
Qed.

Lemma max_by_count_spec items : forall best,
  let r := max_by_count best items in
  r ∈ best :: items /\ forall i, i ∈ best :: items -> (i.2 <= r.2)%Z.
Proof.
  induction items as [|x items IH]; intros best; simpl.
  - split; [left|]. intros i Hi. apply list_elem_of_singleton in Hi. subst. lia.
  - destruct (IH (if (best.2 <? x.2)%Z then x else best)) as [Hin Hmax].
    unfold max_by_count in *. simpl.
    split.
    + apply elem_of_cons in Hin as [Heq|Hin].
      * rewrite Heq. destruct (best.2 <? x.2)%Z; [right; left|left].
      * right. right. done.
    + intros i Hi.
      assert (Hb : ((if (best.2 <? x.2)%Z then x else best).2 <=
                    (foldl (fun best item => if (best.2 <? item.2)%Z then item else best)
                       (if (best.2 <? x.2)%Z then x else best) items).2)%Z).
      { apply Hmax. left. }
      apply elem_of_cons in Hi as [Heq|Hi]; [subst i|].
      * destruct (Z.ltb_spec best.2 x.2); lia.
      * apply elem_of_cons in Hi as [Heq|Hi]; [subst i|].
        -- destruct (Z.ltb_spec best.2 x.2); lia.
        -- apply Hmax. right. done.
Qed.

(** The tag chosen for a non-empty sample occurs in it at least as often
    as any other tag. *)
Lemma modal_is_most_frequent (l : list TypeGuess) :
  l <> [] ->
  modal l ∈ l /\ forall t, (occurrences t l <= occurrences (modal l) l)%Z.
Proof.
  intros Hne. unfold modal.
  destruct (tally_from_spec l [] (NoDup_nil_2)) as [Hnd Ht].
  destruct (tally_from [] l) as [|item items] eqn:Hl.
  { destruct l as [|x l]; [done|].
    destruct (Ht x) as [Hs _]. destruct Hs as [_ Hs].
    destruct Hs as [? Hs]; [right; left|]. simpl in Hs. done. }
  destruct (max_by_count_spec items item) as [Hin Hmax].
  set (r := max_by_count item items) in *.
  assert (Hr : dict_get guess_eqb r.1 (item :: items) = Some r.2).
  { apply (elem_of_dict_get _ guess_eqb_eq); [done|]. by destruct r. }
  destruct (Ht r.1) as [Hs Hc]. rewrite Hr in Hs, Hc. simpl in Hc.
  assert (Hrl : r.1 ∈ l).
  { destruct Hs as [Hs _]. destruct Hs as [[? Hs]|Hs]; eauto. simpl in Hs. done. }
  split; [done|]. intros t.
  destruct (decide (t ∈ l)) as [Hin'|Hnin].
  - destruct (Ht t) as [Hst Hct].
    destruct Hst as [_ Hst]. destruct Hst as [m Hm]; [by right|].
    rewrite Hm in Hct. simpl in Hct.
    apply (dict_get_elem_of _ guess_eqb_eq) in Hm.
    specialize (Hmax _ Hm). simpl in Hmax. lia.
  - assert (occurrences t l = 0)%Z as ->.
    { unfold occurrences. clear -Hnin. induction l as [|x l IH]; [done|].
      rewrite not_elem_of_cons in Hnin. destruct Hnin as [Hx Hl].
      rewrite filter_cons. destruct (decide (x = t)); [done|].
      apply IH. done. }
    apply occurrences_nonneg.
Qed.

Lemma code_sample_all_null values :
  Forall (fun v => v = VNone) (take 100 values) -> code_sample values = [].
Proof.
  unfold code_sample. generalize (take 100 values) as l.
  induction l as [|v l IH]; intros Hall; [reflexivity|].
  apply Forall_cons in Hall as [-> Hall]. simpl. auto.
Qed.

(** C8, as stated, fails: after 100 nulls the later integer is not looked
    at, while the first 100 non-null values would classify the column. *)
Lemma infer_column_type_nulls_use_budget :
  infer_column_type (replicate 100 VNone ++ [VInt 5]) 100 = UNKNOWN /\
  spec_infer_column_type (replicate 100 VNone ++ [VInt 5]) = INTEGER.
Proof. split; vm_compute; reflexivity. Qed.

(** C8, amended: the tag is inferred on the non-null values among the
    first 100 values, nulls included in the 100; it is a most frequent tag
    of that sample; an empty input, and a column whose first 100 values are
    all null, yield unknown. *)
Theorem infer_column_type_first_100 (values : list value) :
  let tags := infer_type <$> code_sample values in
  (values = [] -> infer_column_type values 100 = UNKNOWN) /\
  (Forall (fun v => v = VNone) (take 100 values) ->
   infer_column_type values 100 = UNKNOWN) /\
  (tags <> [] ->
   infer_column_type values 100 ∈ tags /\
   forall t, (occurrences t tags <= occurrences (infer_column_type values 100) tags)%Z).
Proof.
  intros tags. rewrite infer_column_type_modal. fold tags.
  split; [|split].
  - intros ->. reflexivity.
  - intros Hall. unfold tags. rewrite (code_sample_all_null _ Hall). reflexivity.
  - apply modal_is_most_frequent.
Qed.

End column_type.

(** ** Privacy masks and rules (C6, C7) *)
Section privacy.
Import config.
Context `{!Py.Runtime}.

Definition unknown_mask_type (mask_type : string) : exn :=
  ValueError ("Unknown mask type: " +:+ mask_type).

Lemma apply_mask_unknown v mask_type mask_params :
  mask_type ∉ masks.mask_types ->
  masks.apply_mask v mask_type mask_params = Raise (unknown_mask_type mask_type).
Proof.
  unfold masks.mask_types, masks.apply_mask. intros Hk.
  repeat match goal with
  | |- context [String.eqb mask_type ?k] =>
      destruct (String.eqb_spec mask_type k) as [Heq|_];
      [exfalso; apply Hk; rewrite Heq; apply list_elem_of_In; simpl; tauto|]
  end.
  reflexivity.
Qed.

Lemma hash_mask_not_unknown v a k : masks.hash_mask v a <> Raise (unknown_mask_type k).
Proof.
  unfold masks.hash_mask, unknown_mask_type.
  destruct v; try done;
    repeat match goal with |- context [if ?b then _ else _] => destruct b end;
    try done; intros [= H]; apply (f_equal (take_chars 3)) in H; discriminate H.
Qed.

Lemma truncate_mask_not_unknown v m k : masks.truncate_mask v m <> Raise (unknown_mask_type k).
Proof.
  unfold masks.truncate_mask, unknown_mask_type.
  destruct v, m; try done;
    repeat match goal with
    | |- context [if ?b then _ else _] => destruct b
    | |- context [match ?o with Some _ => _ | None => _ end] => destruct o as [[]|]
    end; done.
Qed.

Lemma bucket_mask_not_unknown v b k : masks.bucket_mask v b <> Raise (unknown_mask_type k).
Proof.
  unfold masks.bucket_mask.
  destruct v; try done; destruct (masks.bucket_label _ b) as [|[]]; done.
Qed.

(** A redact rule returns its token for every value. *)
Lemma apply_mask_redact v mask_params :
  masks.apply_mask v "redact" mask_params =
    Ok (default (VStr "[REDACTED]") (default ∅ mask_params !! "token")).
Proof. unfold masks.apply_mask. simpl. destruct v; reflexivity. Qed.

(** C6, amended: a rule is a plain record and accepts any mask kind; an
    unknown kind is rejected by [apply_mask], with a [ValueError], when the
    rule is applied to a value, whatever the value.  The four known kinds
    never raise that error, and a redact rule cannot fail. *)
Theorem apply_mask_validates_kind_at_row_time
    (v : value) (mask_type : string) (mask_params : option (gmap string value)) :
  (mask_type ∉ masks.mask_types ->
   masks.apply_mask v mask_type mask_params = Raise (unknown_mask_type mask_type)) /\
  (mask_type ∈ masks.mask_types ->
   masks.apply_mask v mask_type mask_params <> Raise (unknown_mask_type mask_type)) /\
  (mask_type = "redact" -> is_ok (masks.apply_mask v mask_type mask_params) = true).
Proof.
  split; [apply apply_mask_unknown|]. split.
  - unfold masks.mask_types. intros Hin.
    apply list_elem_of_In in Hin. simpl in Hin.
    destruct Hin as [<-|[<-|[<-|[<-|[]]]]].
    + apply hash_mask_not_unknown.
    + rewrite apply_mask_redact. done.
    + apply truncate_mask_not_unknown.
    + apply bucket_mask_not_unknown.
  - intros ->. rewrite apply_mask_redact. reflexivity.
Qed.

End privacy.

(** C6, as stated, fails: a rule with the unknown kind [bogus] is a rule
    like any other, and applying it to a value fails at row time. *)
Lemma unknown_mask_kind_fails_at_row_time :
  ~ exists (rt : Py.Runtime) (masked : value),
      @masks.apply_mask rt (VStr "a@b") (config.mask_type
        {| config.column := "email"; config.mask_type := "bogus"; config.mask_params := ∅ |})
        (Some ∅) = Ok masked.
Proof. intros (rt & masked & H). vm_compute in H. discriminate H. Qed.

Section rule_application.
Import config.
Context `{!Py.Runtime}.

(** What one rule makes of the contents of a row. *)
Definition mask_cell (d : gmap string value) (rule : PrivacyRule)
  : result (gmap string value) :=
  match d !! column rule with
  | Some v =>
      masked_value ← masks.apply_mask v (mask_type rule) (Some (mask_params rule));
      Ok (<[column rule := masked_value]> d)
  | None => Ok d
  end.

(** The rules applied one after the other, in the order of the list. *)
Definition mask_cells (privacy_rules : list PrivacyRule) (d : gmap string value)
  : result (gmap string value) :=
  for_each mask_cell d privacy_rules.

Lemma for_each_app {A S} (body : S -> A -> result S) st l1 l2 :
  for_each body st (l1 ++ l2) = st' ← for_each body st l1; for_each body st' l2.
Proof.
  revert st. induction l1 as [|x l1 IH]; intros st; simpl; [reflexivity|].
  destruct (body st x); simpl; [apply IH|reflexivity].
Qed.

Lemma mask_cells_cons rule privacy_rules d :
  mask_cells (rule :: privacy_rules) d =
    d' ← mask_cell d rule; mask_cells privacy_rules d'.
Proof. reflexivity. Qed.

Lemma bind_Ok {A B} (m : result A) (k : A -> result B) b :
  m ≫= k = Ok b -> exists a, m = Ok a /\ k a = Ok b.
Proof. destruct m as [a|e]; simpl; [eauto|done]. Qed.

(** A rule changes at most its own column, and only when the row has it. *)
Lemma mask_cell_frame d rule d' :
  mask_cell d rule = Ok d' ->
  dom d' = dom d /\
  (d !! column rule = None -> d' = d) /\
  forall c, c <> column rule -> d' !! c = d !! c.
Proof.
  unfold mask_cell. destruct (d !! column rule) as [v|] eqn:Hv.
  - intros (m & _ & [= <-])%bind_Ok. split; [|split; [done|]].
    + rewrite dom_insert_L.
      assert (column rule ∈ dom d) by (apply elem_of_dom; eauto).
      set_solver.
    + intros c Hne. by rewrite lookup_insert_ne.
  - intros [= <-]. done.
Qed.

Lemma mask_cells_frame privacy_rules : forall d d',
  mask_cells privacy_rules d = Ok d' ->
  dom d' = dom d /\
  forall c, c ∉ (column <$> privacy_rules) -> d' !! c = d !! c.
Proof.
  induction privacy_rules as [|rule rules IH]; intros d d'.
  - intros [= ->]. done.
  - rewrite mask_cells_cons. intros (d1 & H1 & Hrest)%bind_Ok.
    destruct (mask_cell_frame _ _ _ H1) as (Hdom1 & _ & Hframe1).
    destruct (IH _ _ Hrest) as [Hdom Hframe].
    split; [congruence|].
    intros c Hc. rewrite fmap_cons, not_elem_of_cons in Hc. destruct Hc as [Hne Hc].
    rewrite (Hframe c Hc). apply Hframe1, Hne.
Qed.

(** The loop of [apply_privacy_rules] touches only the object it is given,
    and leaves in it what [mask_cells] computes. *)
Lemma apply_rules_spec privacy_rules : forall (h : heap) l d,
  h !! l = Some d ->
  (forall l', l' <> l ->
     (rules.apply_rules l privacy_rules h).2 !! l' = h !! l') /\
  is_Some ((rules.apply_rules l privacy_rules h).2 !! l) /\
  match (rules.apply_rules l privacy_rules h).1 with
  | Ok _ =>
      exists d', mask_cells privacy_rules d = Ok d' /\
                 (rules.apply_rules l privacy_rules h).2 !! l = Some d'
  | Raise e => mask_cells privacy_rules d = Raise e
  end.
Proof.
  induction privacy_rules as [|rule rules IH]; intros h l d Hl.
  - simpl. split; [done|]. split; eauto.
  - rewrite mask_cells_cons. cbn [rules.apply_rules].
    rewrite (lookup_total_correct _ _ _ Hl). unfold mask_cell.
    destruct (d !! column rule) as [v|] eqn:Hv.
    + destruct (masks.apply_mask v (mask_type rule) (Some (mask_params rule)))
        as [m|e]; simpl.
      * destruct (IH (<[l := <[column rule := m]> d]> h) l (<[column rule := m]> d))
          as (Hother & Hsome & Hres); [apply lookup_insert_eq|].
        split; [|split; assumption].
        intros l' Hne. rewrite (Hother l' Hne). by rewrite lookup_insert_ne.
      * split; [done|]. split; eauto.
    + apply IH, Hl.
Qed.

End rule_application.

Section rule_application_frame.
Import config.
Context `{!Py.Runtime}.

(** [apply_privacy_rules] copies the row into a fresh object and returns it
    with the contents [mask_cells] computes, or raises what [mask_cells]
    raises; the objects that existed before are untouched. *)
Lemma apply_privacy_rules_spec (h : heap) (row : nat) (d : gmap string value)
    (privacy_rules : list PrivacyRule) :
  h !! row = Some d ->
  exists h' : heap,
    (forall l x, h !! l = Some x -> h' !! l = Some x) /\
    h !! fresh (dom h) = None /\
    match mask_cells privacy_rules d with
    | Ok d' =>
        rules.apply_privacy_rules row privacy_rules h = (Ok (fresh (dom h)), h') /\
        h' !! fresh (dom h) = Some d'
    | Raise e => rules.apply_privacy_rules row privacy_rules h = (Raise e, h')
    end.
Proof.
  intros Hrow.
  assert (Hfresh : h !! fresh (dom h) = None).
  { apply not_elem_of_dom, is_fresh. }
  unfold rules.apply_privacy_rules, rules.dict_copy.
  rewrite (lookup_total_correct _ _ _ Hrow).
  set (l := fresh (dom h)) in *.
  set (h1 := <[l := d]> h).
  assert (Hold : forall l0 x, h !! l0 = Some x -> h1 !! l0 = Some x).
  { intros l0 x Hx. unfold h1. rewrite lookup_insert_ne; [done|]. congruence. }
  assert (Hnew : h1 !! l = Some d) by apply lookup_insert_eq.
  destruct privacy_rules as [|rule rules'].
  { exists h1. simpl. done. }
  destruct (apply_rules_spec (rule :: rules') h1 l d Hnew) as (Hother & _ & Hres).
  destruct (rules.apply_rules l (rule :: rules') h1) as [[u|e] h2]; simpl in Hother, Hres.
  - destruct Hres as (d' & -> & Hd'). exists h2. repeat split; try done.
    intros l0 x Hx. rewrite Hother by congruence. by apply Hold.
  - rewrite Hres. exists h2. repeat split; try done.
    intros l0 x Hx. rewrite Hother by congruence. by apply Hold.
Qed.

(** C7, amended: the source row, like every object that existed before the
    call, is left as it was, whether the call returns or raises.  When no
    mask raises, a new object is returned whose contents are the rules
    applied to the source contents in list order: it has the columns of the
    source, and every column that no rule names keeps its value.  When a
    mask raises, nothing is returned.  A rule that names a column the row
    lacks changes nothing, and a list of rules acts as its first part
    followed by its second part. *)
Theorem apply_privacy_rules_frame (h : heap) (row : nat) (d : gmap string value)
    (privacy_rules : list PrivacyRule) :
  h !! row = Some d ->
  let out := rules.apply_privacy_rules row privacy_rules h in
  (forall l x, h !! l = Some x -> out.2 !! l = Some x) /\
  match out.1 with
  | Ok l =>
      h !! l = None /\
      exists d', out.2 !! l = Some d' /\
                 mask_cells privacy_rules d = Ok d' /\
                 dom d' = dom d /\
                 forall c, c ∉ (column <$> privacy_rules) -> d' !! c = d !! c
  | Raise e => mask_cells privacy_rules d = Raise e
  end /\
  (forall rule d0, d0 !! column rule = None -> mask_cell d0 rule = Ok d0) /\
  (forall rules1 rules2,
     privacy_rules = rules1 ++ rules2 ->
     mask_cells privacy_rules d = d1 ← mask_cells rules1 d; mask_cells rules2 d1).
Proof.
  intros Hrow out. subst out.
  destruct (apply_privacy_rules_spec h row d privacy_rules Hrow)
    as (h' & Hkeep & Hfresh & Hres).
  destruct (mask_cells privacy_rules d) as [d'|e] eqn:Hcells.
  - destruct Hres as [-> Hd']. simpl. split; [done|]. split; [|split].
    + split; [done|]. exists d'.
      destruct (mask_cells_frame _ _ _ Hcells) as [Hdom Hframe]. done.
    + intros rule d0 Hnone. unfold mask_cell. rewrite Hnone. reflexivity.
    + intros rules1 rules2 ->. rewrite <- Hcells. apply for_each_app.
  - rewrite Hres. simpl. split; [done|]. split; [done|]. split.
    + intros rule d0 Hnone. unfold mask_cell. rewrite Hnone. reflexivity.
    + intros rules1 rules2 ->. rewrite <- Hcells. apply for_each_app.
Qed.

Lemma mask_cells_absent rule (d : gmap string value) :
  d !! column rule = None -> mask_cells [rule] d = Ok d.
Proof. intros Hc. rewrite mask_cells_cons. unfold mask_cell. rewrite Hc. reflexivity. Qed.

Lemma mask_cells_unknown rule (d : gmap string value) v :
  d !! column rule = Some v -> mask_type rule ∉ masks.mask_types ->
  mask_cells [rule] d = Raise (unknown_mask_type (mask_type rule)).
Proof.
  intros Hc Hk. rewrite mask_cells_cons. unfold mask_cell.
  rewrite Hc, (apply_mask_unknown _ _ _ Hk). reflexivity.
Qed.

(** Rows that lack the column of a rule pass the masking stage of the
    sampling loop whatever the mask kind of the rule: an unknown kind is
    met, and rejected, only at the first row that has the column, after
    the rows before it were written. *)
Lemma write_rows_unknown_kind_after_output (rule : PrivacyRule) (r1 r2 : nat)
    (d1 d2 : gmap string value) (v : value) (h : heap) :
  mask_type rule ∉ masks.mask_types ->
  h !! r1 = Some d1 -> h !! r2 = Some d2 ->
  d1 !! column rule = None -> d2 !! column rule = Some v ->
  exists st,
    core.write_rows (Some [rule]) [r1; r2]
      {| core.written := []; core.sampled_rows_list := [];
         core.row_count := 0; core.store := h |}
    = (Raise (unknown_mask_type (mask_type rule)), st) /\
    core.written st = [d1].
Proof.
  intros Hkind H1 H2 Hc1 Hc2.
  cbn [core.write_rows core.store core.written core.sampled_rows_list core.row_count].
  destruct (apply_privacy_rules_spec h r1 d1 [rule] H1) as (h1 & Hkeep1 & _ & Hres1).
  rewrite (mask_cells_absent _ _ Hc1) in Hres1. destruct Hres1 as [-> Hd1].
  rewrite (lookup_total_correct _ _ _ Hd1).
  destruct (apply_privacy_rules_spec h1 r2 d2 [rule] (Hkeep1 _ _ H2))
    as (h2 & _ & _ & Hres2).
  rewrite (mask_cells_unknown _ _ _ Hc2 Hkind) in Hres2.
  rewrite Hres2. eexists. split; reflexivity.
Qed.

End rule_application_frame.

(** C7, as stated, fails: with a rule of unknown kind on a column the row
    has, no row object is returned. *)
Lemma apply_privacy_rules_may_raise :
  ~ exists (rt : Py.Runtime) (l : nat) (h' : heap),
      @rules.apply_privacy_rules rt 0
        [{| config.column := "a"; config.mask_type := "bogus"; config.mask_params := ∅ |}]
        {[ 0 := {[ "a" := VInt 1 ]} ]} = (Ok l, h').
Proof.
  intros (rt & l & h' & H).
  destruct (@apply_privacy_rules_spec rt {[ 0 := {[ "a" := VInt 1 ]} ]} 0
              {[ "a" := VInt 1 ]}
              [{| config.column := "a"; config.mask_type := "bogus";
                  config.mask_params := ∅ |}]
              (lookup_singleton_eq _ _)) as (h2 & _ & _ & Hres).
  vm_compute (mask_cells _ _) in Hres. rewrite H in Hres. discriminate Hres.
Qed.

Lemma apply_privacy_rules_frame_witness :
  ({[ 0 := {[ "a" := VInt 1; "b" := VStr "x" ]} ]} : heap) !! 0
    = Some ({[ "a" := VInt 1; "b" := VStr "x" ]} : gmap string value) /\
  forall rt : Py.Runtime,
    (@rules.apply_privacy_rules rt 0
       [{| config.column := "a"; config.mask_type := "redact"; config.mask_params := ∅ |}]
       {[ 0 := {[ "a" := VInt 1; "b" := VStr "x" ]} ]}).2 !! 0
    = Some ({[ "a" := VInt 1; "b" := VStr "x" ]} : gmap string value).
Proof.
  split; [apply lookup_singleton_eq|].
  intros rt.
  apply (@apply_privacy_rules_frame rt _ 0 _ _ (lookup_singleton_eq _ _)).
  apply lookup_singleton_eq.
Defined.

(** ** Column statistics treat booleans as numbers (C10) *)
Section bool_stats.
Import type_inference stats manifest.
Context `{!Py.Runtime}.

Lemma string_eqb_eq (a b : string) : String.eqb a b = true <-> a = b.
Proof. apply String.eqb_eq. Qed.

Lemma dict_alter_get {V} k c (f : V -> V) d :
  dict_get String.eqb k (dict_alter c f d) =
    if String.eqb c k then f <$> dict_get String.eqb k d else dict_get String.eqb k d.
Proof.
  induction d as [|[k0 v0] d IH]; simpl.
  - destruct (String.eqb c k); reflexivity.
  - destruct (String.eqb_spec k0 c) as [->|Hne]; simpl.
    + destruct (String.eqb c k); reflexivity.
    + destruct (String.eqb_spec k0 k) as [->|Hne'].
      * destruct (String.eqb_spec c k) as [->|_]; [done|reflexivity].
      * exact IH.
Qed.

Lemma dict_alter_keys {V} c (f : V -> V) d :
  fst <$> dict_alter c f d = fst <$> d.
Proof.
  induction d as [|[k0 v0] d IH]; [reflexivity|]. cbn [dict_alter].
  destruct (String.eqb k0 c); [reflexivity|]. rewrite !fmap_cons, IH. reflexivity.
Qed.

Lemma dict_from_keys_spec {V} (new : string -> V) columns :
  NoDup (fst <$> dict_from_keys new columns) /\
  forall k, dict_get String.eqb k (dict_from_keys new columns) =
            if bool_decide (k ∈ columns) then Some (new k) else None.
Proof.
  unfold dict_from_keys.
  assert (Hgen : forall acc,
    NoDup (fst <$> acc) ->
    NoDup (fst <$> foldl (fun d col => dict_set String.eqb col (new col) d) acc columns) /\
    forall k, dict_get String.eqb k
                (foldl (fun d col => dict_set String.eqb col (new col) d) acc columns) =
              if bool_decide (k ∈ columns) then Some (new k)
              else dict_get String.eqb k acc).
  { induction columns as [|c columns IH]; intros acc Hnd; simpl.
    - split; [done|]. intros k. reflexivity.
    - destruct (IH (dict_set String.eqb c (new c) acc)) as [Hnd' Hget].
      { by apply (dict_set_NoDup _ string_eqb_eq). }
      split; [done|]. intros k. rewrite Hget, (dict_get_set _ string_eqb_eq).
      destruct (String.eqb_spec c k) as [->|Hne].
      + rewrite (bool_decide_eq_true_2 (k ∈ k :: columns)) by left.
        case_bool_decide; reflexivity.
      + case_bool_decide as Hin.
        * rewrite bool_decide_eq_true_2; [done|]. by right.
        * rewrite bool_decide_eq_false_2; [done|].
          rewrite not_elem_of_cons. split; [congruence|done]. }
  destruct (Hgen [] (NoDup_nil_2)) as [Hnd Hget]. split; [done|].
  intros k. rewrite Hget. case_bool_decide; reflexivity.
Qed.

(** [update] compares a boolean as the integer [0] or [1]. *)
Lemma num_lt_bool_int b z :
  num_lt (VBool b) (VInt z) = (int_of_bool b <? z)%Z /\
  num_lt (VInt z) (VBool b) = (z <? int_of_bool b)%Z.
Proof. split; reflexivity. Qed.

Lemma num_lt_bool_bool a b : num_lt (VBool a) (VBool b) = negb a && b.
Proof. destruct a, b; reflexivity. Qed.

Lemma update_bool_min self b :
  min_value (update self (VBool b)) =
    match min_value self with
    | None => Some (VBool b)
    | Some m => if num_lt (VBool b) m then Some (VBool b) else Some m
    end.
Proof. unfold update. simpl. destruct (min_value self); reflexivity. Qed.

Lemma update_bool_max self b :
  max_value (update self (VBool b)) =
    match max_value self with
    | None => Some (VBool b)
    | Some m => if num_lt m (VBool b) then Some (VBool b) else Some m
    end.
Proof. unfold update. simpl. destruct (max_value self); reflexivity. Qed.

(** The running minimum and maximum of a stream of booleans. *)
Lemma update_bools_min_max (bs : list bool) : forall self a b,
  min_value self = Some (VBool a) -> max_value self = Some (VBool b) ->
  min_value (foldl update self (VBool <$> bs)) = Some (VBool (a && forallb id bs)) /\
  max_value (foldl update self (VBool <$> bs)) = Some (VBool (b || existsb id bs)).
Proof.
  induction bs as [|x bs IH]; intros self a b Hmin Hmax.
  - simpl. rewrite andb_true_r, orb_false_r. done.
  - rewrite fmap_cons. cbn [foldl forallb existsb].
    destruct (IH (update self (VBool x)) (a && x) (b || x)) as [Hmin' Hmax'].
    + rewrite update_bool_min, Hmin, num_lt_bool_bool. destruct a, x; reflexivity.
    + rewrite update_bool_max, Hmax, num_lt_bool_bool. destruct b, x; reflexivity.
    + rewrite Hmin', Hmax'. unfold id at 1 3. rewrite andb_assoc, orb_assoc. done.
Qed.

(** The booleans that the rows hold in the column [col], in order. *)
Definition bools (col : string) (rows : list (gmap string value)) : list bool :=
  omap (fun row => match row !! col with Some (VBool b) => Some b | _ => None end) rows.

(** The minimum and maximum of [s] are those of the booleans [bs]: unset
    for none, else their conjunction and their disjunction. *)
Definition tracks (bs : list bool) (s : ColumnStats) : Prop :=
  match bs with
  | [] => min_value s = None /\ max_value s = None
  | _ :: _ =>
      min_value s = Some (VBool (forallb id bs)) /\
      max_value s = Some (VBool (existsb id bs))
  end.

Lemma tracks_snoc bs b s :
  tracks (bs ++ [b]) s <->
  min_value s = Some (VBool (forallb id bs && b)) /\
  max_value s = Some (VBool (existsb id bs || b)).
Proof.
  unfold tracks. destruct (bs ++ [b]) as [|x l] eqn:E.
  { by destruct bs. }
  rewrite <- E, forallb_app, existsb_app. cbn [forallb existsb]. unfold id at 2 4.
  by rewrite andb_true_r, orb_false_r.
Qed.

Lemma update_tracks s bs b : tracks bs s -> tracks (bs ++ [b]) (update s (VBool b)).
Proof.
  intros Hs. apply tracks_snoc. rewrite update_bool_min, update_bool_max.
  destruct bs as [|x bs]; destruct Hs as [-> ->]; [done|].
  rewrite !num_lt_bool_bool.
  destruct b, (forallb id (x :: bs)), (existsb id (x :: bs)); done.
Qed.

Lemma update_tracks_again s bs b :
  tracks (bs ++ [b]) s -> tracks (bs ++ [b]) (update s (VBool b)).
Proof.
  rewrite !tracks_snoc. intros [Hmin Hmax].
  rewrite update_bool_min, update_bool_max, Hmin, Hmax, !num_lt_bool_bool.
  destruct b, (forallb id bs), (existsb id bs); done.
Qed.

Section one_column.
Variables (col : string) (columns : list string).

(** One row: the entry of [col] takes the boolean of the row once [col] is
    met among the columns, however often it is listed. *)
Lemma observe_bool_column row b bs : forall (cs : list string) st s,
  row !! col = Some (VBool b) ->
  dict_get String.eqb col (stats.stats st) = Some s ->
  tracks bs s \/ tracks (bs ++ [b]) s ->
  exists s',
    dict_get String.eqb col (stats.stats (foldl (observe row) st cs)) = Some s' /\
    (tracks bs s' \/ tracks (bs ++ [b]) s') /\
    (col ∈ cs \/ tracks (bs ++ [b]) s -> tracks (bs ++ [b]) s') /\
    stopped (foldl (observe row) st cs) = stopped st /\
    row_count (foldl (observe row) st cs) = row_count st /\
    fst <$> stats.stats (foldl (observe row) st cs) = fst <$> stats.stats st.
Proof.
  induction cs as [|c cs IH]; intros st s Hrow Hget Hs.
  - exists s. simpl. repeat split; try done. intros [Hin|Hb]; [|done].
    by apply elem_of_nil in Hin.
  - cbn [foldl].
    destruct (String.eqb_spec c col) as [->|Hne].
    + assert (Hnext : tracks (bs ++ [b]) (update s (VBool b))).
      { destruct Hs as [Hs|Hs]; [by apply update_tracks|by apply update_tracks_again]. }
      destruct (IH (observe row st col) (update s (VBool b)))
        as (s' & Hg & Hbb & Hb & Hst & Hrc & Hk).
      * done.
      * unfold observe. cbn [stats.stats]. rewrite dict_alter_get, String.eqb_refl, Hget, Hrow.
        reflexivity.
      * by right.
      * exists s'. repeat split; try done.
        -- intros _. apply Hb. by right.
        -- rewrite Hk. unfold observe. cbn [stats.stats]. apply dict_alter_keys.
    + destruct (IH (observe row st c) s) as (s' & Hg & Hbb & Hb & Hst & Hrc & Hk).
      * done.
      * unfold observe. cbn [stats.stats]. rewrite dict_alter_get.
        destruct (String.eqb_spec c col); [done|exact Hget].
      * done.
      * exists s'. repeat split; try done.
        -- intros [Hin|Hbs]; apply Hb; [|by right].
           apply elem_of_cons in Hin as [Heq|Hin]; [congruence|by left].
        -- rewrite Hk. unfold observe. cbn [stats.stats]. apply dict_alter_keys.
Qed.

Lemma bools_cons row b rows :
  row !! col = Some (VBool b) -> bools col (row :: rows) = b :: bools col rows.
Proof. intros Hrow. unfold bools. cbn. by rewrite Hrow. Qed.

Lemma step_bool_column (rows : list (gmap string value)) : forall bs st s,
  col ∈ columns ->
  (forall row, row ∈ rows -> exists b, row !! col = Some (VBool b)) ->
  stopped st = false ->
  dict_get String.eqb col (stats.stats st) = Some s -> tracks bs s ->
  exists s',
    dict_get String.eqb col (stats.stats (foldl (step columns None) st rows)) = Some s' /\
    tracks (bs ++ bools col rows) s' /\
    fst <$> stats.stats (foldl (step columns None) st rows) = fst <$> stats.stats st.
Proof.
  induction rows as [|row rows IH]; intros bs st s Hcol Hrows Hstop Hget Hs.
  - exists s. simpl. rewrite app_nil_r. done.
  - cbn [foldl]. destruct (Hrows row) as [b Hb]; [left|].
    destruct (observe_bool_column row b bs columns st s Hb Hget (or_introl Hs))
      as (s1 & Hg1 & _ & Hb1 & Hst1 & _ & Hk1).
    set (st1 :=
      {| stats.stats := stats.stats (foldl (observe row) st columns);
         value_samples := value_samples (foldl (observe row) st columns);
         row_count := row_count (foldl (observe row) st columns) + 1;
         stopped := false |}).
    assert (Hstep : step columns None st row = st1).
    { unfold step. rewrite Hstop. reflexivity. }
    rewrite Hstep.
    destruct (IH (bs ++ [b]) st1 s1) as (s' & Hg & Hbb & Hk);
      [done| |reflexivity|exact Hg1|apply Hb1; by left|].
    + intros r Hr. apply Hrows. by right.
    + exists s'. rewrite (bools_cons _ _ _ Hb), (cons_middle b bs), app_assoc.
      split; [done|]. split; [done|]. rewrite Hk. exact Hk1.
Qed.

End one_column.

(** The field [k] of a dictionary of the manifest. *)
Definition doc_get (k : string) (d : doc) : option doc :=
  match d with
  | DDict items => dict_get String.eqb k items
  | _ => None
  end.

Lemma type_guess_loop_keeps_min_max col samples (cs : list string) :
  forall (d : list (string * ColumnStats)) s,
  dict_get String.eqb col d = Some s ->
  exists s',
    dict_get String.eqb col
      (foldl (fun stats c =>
                match dict_get String.eqb c samples with
                | Some (v :: vs) =>
                    dict_alter c
                      (fun s => set_type_guess s (infer_column_type (v :: vs) 100)) stats
                | _ => stats
                end) d cs) = Some s' /\
    min_value s' = min_value s /\ max_value s' = max_value s /\
    fst <$> foldl (fun stats c =>
                match dict_get String.eqb c samples with
                | Some (v :: vs) =>
                    dict_alter c
                      (fun s => set_type_guess s (infer_column_type (v :: vs) 100)) stats
                | _ => stats
                end) d cs = fst <$> d.
Proof.
  induction cs as [|c cs IH]; intros d s Hget; [exists s; done|].
  cbn [foldl].
  destruct (dict_get String.eqb c samples) as [[|v vs]|]; try (by apply IH).
  destruct (String.eqb_spec c col) as [->|Hne].
  - edestruct (IH (dict_alter col (fun s => set_type_guess s (infer_column_type (v :: vs) 100)) d))
      as (s' & Hg & Hmin & Hmax & Hk).
    { rewrite dict_alter_get, String.eqb_refl, Hget. reflexivity. }
    exists s'. rewrite Hk, dict_alter_keys. done.
  - edestruct (IH (dict_alter c (fun s => set_type_guess s (infer_column_type (v :: vs) 100)) d))
      as (s' & Hg & Hmin & Hmax & Hk).
    { rewrite dict_alter_get. destruct (String.eqb_spec c col); [done|exact Hget]. }
    exists s'. rewrite Hk, dict_alter_keys. done.
Qed.

Lemma dict_get_fmap_entries {V} (g : string * V -> string * V) k d :
  (forall e, (g e).1 = e.1) ->
  dict_get String.eqb k (g <$> d) = (fun v => (g (k, v)).2) <$> dict_get String.eqb k d /\
  fst <$> (g <$> d) = fst <$> d.
Proof.
  intros Hg. induction d as [|[k0 v0] d [IHget IHkeys]]; [done|].
  rewrite !fmap_cons. split.
  - cbn [dict_get]. specialize (Hg (k0, v0)).
    destruct (g (k0, v0)) as [k1 v1] eqn:E. simpl in Hg. subst k1.
    destruct (String.eqb_spec k0 k) as [->|Hne]; [|exact IHget].
    simpl. rewrite E. reflexivity.
  - rewrite Hg, IHkeys. reflexivity.
Qed.

Lemma trim_keeps_min_max col (max_top_values : Z) (d : list (string * ColumnStats)) s :
  dict_get String.eqb col d = Some s ->
  exists s',
    dict_get String.eqb col
      ((fun entry : string * ColumnStats =>
          if (max_top_values <? Z.of_nat (length (top_values entry.2)))%Z
          then (entry.1, set_top_values entry.2 (most_common max_top_values (top_values entry.2)))
          else entry) <$> d) = Some s' /\
    min_value s' = min_value s /\ max_value s' = max_value s /\
    fst <$> ((fun entry : string * ColumnStats =>
          if (max_top_values <? Z.of_nat (length (top_values entry.2)))%Z
          then (entry.1, set_top_values entry.2 (most_common max_top_values (top_values entry.2)))
          else entry) <$> d) = fst <$> d.
Proof.
  intros Hget.
  match goal with |- context [?g <$> d] =>
    destruct (dict_get_fmap_entries g col d) as [Hg Hk]
  end.
  { intros [k0 s0]. simpl. destruct (_ <? _)%Z; reflexivity. }
  rewrite Hg, Hk, Hget. simpl.
  destruct (max_top_values <? Z.of_nat (length (top_values s)))%Z; eexists; done.
Qed.

(** A column of booleans ends, in the statistics that [collect_stats]
    returns, with the conjunction of its booleans as the minimum and their
    disjunction as the maximum. *)
Lemma collect_stats_bool_column col columns rows max_top_values :
  col ∈ columns -> rows <> [] ->
  (forall row, row ∈ rows -> exists b, row !! col = Some (VBool b)) ->
  NoDup (fst <$> collect_stats rows columns max_top_values None) /\
  exists s,
    dict_get String.eqb col (collect_stats rows columns max_top_values None) = Some s /\
    min_value s = Some (VBool (forallb id (bools col rows))) /\
    max_value s = Some (VBool (existsb id (bools col rows))).
Proof.
  intros Hcol Hrows Hbool. unfold collect_stats.
  destruct (dict_from_keys_spec ColumnStats_new columns) as [Hnd Hnew].
  set (st0 := {| stats.stats := dict_from_keys ColumnStats_new columns;
                 value_samples := dict_from_keys (fun _ => []) columns;
                 row_count := 0; stopped := false |}).
  destruct (step_bool_column col columns rows [] st0 (ColumnStats_new col))
    as (s1 & Hg1 & Hb1 & Hk1).
  { done. }
  { done. }
  { reflexivity. }
  { unfold st0. cbn [stats.stats]. rewrite Hnew, bool_decide_eq_true_2 by done. reflexivity. }
  { done. }
  set (st := foldl (step columns None) st0 rows) in *.
  destruct (type_guess_loop_keeps_min_max col (value_samples st) columns (stats.stats st) s1 Hg1)
    as (s2 & Hg2 & Hmin2 & Hmax2 & Hk2).
  destruct (trim_keeps_min_max col max_top_values _ s2 Hg2) as (s3 & Hg3 & Hmin3 & Hmax3 & Hk3).
  split.
  - rewrite Hk3, Hk2, Hk1. exact Hnd.
  - exists s3. split; [exact Hg3|].
    cbn [app] in Hb1. unfold tracks in Hb1.
    destruct (bools col rows) as [|b bs] eqn:E.
    { destruct rows as [|row rows]; [done|].
      destruct (Hbool row) as [b Hb]; [left|]. by rewrite (bools_cons _ _ _ _ Hb) in E. }
    destruct Hb1 as [Hmin Hmax]. split; congruence.
Qed.

Lemma dict_of_entries_get {V W} (g : V -> W) k (entries : list (string * V)) :
  forall acc,
  NoDup (fst <$> entries) ->
  dict_get String.eqb k
    (foldl (fun d entry => dict_set String.eqb entry.1 (g entry.2) d) acc entries) =
    match dict_get String.eqb k entries with
    | Some v => Some (g v)
    | None => dict_get String.eqb k acc
    end.
Proof.
  induction entries as [|[k0 v0] entries IH]; intros acc Hnd; [reflexivity|].
  rewrite fmap_cons in Hnd. apply NoDup_cons in Hnd as [Hk0 Hnd].
  cbn [foldl dict_get fst snd]. rewrite (IH _ Hnd), (dict_get_set _ string_eqb_eq).
  destruct (String.eqb_spec k0 k) as [->|Hne]; [|reflexivity].
  destruct (dict_get String.eqb k entries) as [v|] eqn:E; [|reflexivity].
  destruct Hk0. apply (dict_get_elem_of _ string_eqb_eq) in E.
  apply list_elem_of_fmap. exists (k, v). done.
Qed.

Lemma column_entry_min_max s vmin vmax :
  min_value s = Some vmin -> max_value s = Some vmax ->
  doc_get "min_value" (column_entry s) = Some (DVal vmin) /\
  doc_get "max_value" (column_entry s) = Some (DVal vmax).
Proof.
  intros Hmin Hmax. unfold column_entry. rewrite Hmin, Hmax.
  destruct (top_values s); split; reflexivity.
Qed.

Lemma generate_manifest_column_stats version timestamp absolute input_path output_path
    config input_format output_format columns row_count
    (stats : list (string * ColumnStats)) col s :
  NoDup (fst <$> stats) -> dict_get String.eqb col stats = Some s ->
  doc_get "column_stats"
    (generate_manifest version timestamp absolute input_path output_path config
       input_format output_format columns row_count (Some stats))
    ≫= doc_get col = Some (column_entry s).
Proof.
  intros Hnd Hget. unfold generate_manifest.
  destruct stats as [|e es]; [done|].
  set (cs := foldl (fun d entry => dict_set String.eqb entry.1 (column_entry entry.2) d)
               [] (e :: es)).
  assert (Hcs : dict_get String.eqb col cs = Some (column_entry s)).
  { unfold cs. rewrite (dict_of_entries_get column_entry col (e :: es) [] Hnd), Hget.
    reflexivity. }
  destruct (config.privacy_rules config) as [[|r rs]|]; cbn; exact Hcs.
Qed.

(** C10: [update] compares a boolean with the running minimum and maximum as
    the integer [0] or [1]; a stream of booleans leaves their conjunction as
    the minimum and their disjunction as the maximum; and for a column that
    holds a boolean in every sampled row, the manifest built from
    [collect_stats] carries, in the statistics of that column, [min_value]
    and [max_value]: the conjunction and the disjunction of the booleans of
    the column, the values that the comparison leaves. *)
Theorem bool_column_min_max_in_manifest :
  (forall self b z,
     min_value (update self (VBool b)) =
       match min_value self with
       | None => Some (VBool b)
       | Some m => if num_lt (VBool b) m then Some (VBool b) else Some m
       end /\
     max_value (update self (VBool b)) =
       match max_value self with
       | None => Some (VBool b)
       | Some m => if num_lt m (VBool b) then Some (VBool b) else Some m
       end /\
     num_lt (VBool b) (VInt z) = (int_of_bool b <? z)%Z /\
     num_lt (VInt z) (VBool b) = (z <? int_of_bool b)%Z) /\
  (forall (col : string) (b : bool) (bs : list bool),
     let s := foldl update (ColumnStats_new col) (VBool <$> (b :: bs)) in
     min_value s = Some (VBool (forallb id (b :: bs))) /\
     max_value s = Some (VBool (existsb id (b :: bs)))) /\
  (forall (version timestamp : string) (absolute : string -> string)
          (input_path output_path : string) (config : config.SamplerConfig)
          (input_format output_format : string) (row_count max_top_values : Z)
          (columns : list string) (col : string) (rows : list (gmap string value)),
     col ∈ columns -> rows <> [] ->
     (forall row, row ∈ rows -> exists b, row !! col = Some (VBool b)) ->
     let m :=
       generate_manifest version timestamp absolute input_path output_path config
         input_format output_format columns row_count
         (Some (collect_stats rows columns max_top_values None)) in
     (forall row, row ∈ rows -> exists b, b ∈ bools col rows /\ row !! col = Some (VBool b)) /\
     length (bools col rows) = length rows /\
     (doc_get "column_stats" m ≫= doc_get col) ≫= doc_get "min_value"
       = Some (DVal (VBool (forallb id (bools col rows)))) /\
     (doc_get "column_stats" m ≫= doc_get col) ≫= doc_get "max_value"
       = Some (DVal (VBool (existsb id (bools col rows))))).
Proof.
  split; [|split].
  - intros self b z. rewrite update_bool_min, update_bool_max.
    destruct (num_lt_bool_int b z). done.
  - intros col b bs s. subst s. rewrite fmap_cons. cbn [foldl].
    destruct (update_bools_min_max bs (update (ColumnStats_new col) (VBool b)) b b)
      as [Hmin Hmax]; [reflexivity|reflexivity|].
    rewrite Hmin, Hmax. done.
  - intros version timestamp absolute input_path output_path config input_format
      output_format row_count max_top_values columns col rows Hcol Hrows Hbool.
    destruct (collect_stats_bool_column col columns rows max_top_values Hcol Hrows Hbool)
      as (Hnd & s & Hget & Hlo & Hhi).
    cbv zeta. split_and!.
    + intros row Hrow. destruct (Hbool row Hrow) as [b Hb]. exists b. split; [|done].
      unfold bools. apply list_elem_of_omap. exists row. by rewrite Hb.
    + clear -Hbool. induction rows as [|row rows IH]; [done|].
      destruct (Hbool row) as [b Hb]; [left|].
      rewrite (bools_cons _ _ _ _ Hb). cbn. rewrite IH; [done|].
      intros r Hr. apply Hbool. by right.
    + rewrite (generate_manifest_column_stats _ _ _ _ _ _ _ _ _ _ _ col s Hnd Hget).
      apply (column_entry_min_max s _ _ Hlo Hhi).
    + rewrite (generate_manifest_column_stats _ _ _ _ _ _ _ _ _ _ _ col s Hnd Hget).
      apply (column_entry_min_max s _ _ Hlo Hhi).
Qed.

End bool_stats.

(** ** A generator that meets the contracts of [random.Random]

    A linear congruential generator with a selection shuffle.  It shows that
    the contracts are satisfiable, and it runs the samplers on concrete
    inputs. *)
Module lcg.

Definition next (s : Z) : Z :=
  ((s * 6364136223846793005 + 1442695040888963407) mod 2 ^ 64)%Z.

Definition below (n : nat) (s : Z) : nat * Z :=
  (Z.to_nat ((next s / 2 ^ 32) mod Z.of_nat n), next s).

Definition randint (s : Z) (a b : Z) : Z * Z :=
  ((a + (next s / 2 ^ 32) mod (b - a + 1))%Z, next s).

Fixpoint draw_all {A} (fuel : nat) (s : Z) (l : list A) : list A * Z :=
  match fuel with
  | O => (l, s)
  | S fuel' =>
      match l !! (below (length l) s).1 with
      | Some x =>
          (x :: (draw_all fuel' (next s) (delete (below (length l) s).1 l)).1,
           (draw_all fuel' (next s) (delete (below (length l) s).1 l)).2)
      | None => (l, next s)
      end
  end.

Definition shuffle {A} (s : Z) (l : list A) : list A * Z := draw_all (length l) s l.

Definition sample {A} (s : Z) (l : list A) (k : nat) : list A * Z :=
  (take k (shuffle s l).1, (shuffle s l).2).

Definition random (s : Z) : float * Z :=
  (PrimFloat.div (Z_to_float (next s / 2 ^ 11)) (Z_to_float (2 ^ 53)), next s).

Lemma randint_range s a b : (a <= b)%Z -> (a <= (randint s a b).1 <= b)%Z.
Proof.
  intros Hab. unfold randint. simpl.
  pose proof (Z.mod_pos_bound (next s / 2 ^ 32) (b - a + 1)). lia.
Qed.

Lemma draw_all_perm {A} fuel : forall s (l : list A), (draw_all fuel s l).1 ≡ₚ l.
Proof.
  induction fuel as [|fuel IH]; intros s l; cbn [draw_all]; [done|].
  destruct (l !! (below (length l) s).1) as [x|] eqn:E; cbn [fst]; [|done].
  rewrite IH. symmetry. by apply delete_Permutation.
Qed.

Lemma sample_length {A} s (l : list A) k : k <= length l -> length (sample s l k).1 = k.
Proof.
  intros Hk. unfold sample, shuffle. simpl.
  rewrite length_take, (Permutation_length (draw_all_perm _ _ _)). lia.
Qed.

Lemma sample_submseteq {A} s (l : list A) k : (sample s l k).1 ⊆+ l.
Proof.
  unfold sample, shuffle. cbn [fst].
  etrans; [apply sublist_submseteq, sublist_take|].
  apply Permutation_submseteq, draw_all_perm.
Qed.

Lemma below_lt s n : 0 < n -> (below n s).1 < n.
Proof.
  intros Hn. unfold below. simpl.
  pose proof (Z.mod_pos_bound (next s / 2 ^ 32) (Z.of_nat n)). lia.
Qed.

#[export] Instance lcg_random : random.Random := {|
  random.rng := Z;
  random.seeded := fun s => s;
  random.randint := randint;
  random.sample := @sample;
  random.shuffle := @shuffle;
  random.random := random;
  random.choice_index := fun s n => below n s;
  random.randint_range := randint_range;
  random.sample_length := @sample_length;
  random.sample_submseteq := fun A s l k _ => sample_submseteq s l k;
  random.shuffle_perm := fun A s l => draw_all_perm (length l) s l;
  random.choice_index_lt := below_lt;
|}.

End lcg.

(** ** The reservoir of the random sampler (C2) *)
Section reservoir.
Import RandomSampler.
Context `{!random.Random}.

Lemma elem_of_list_insert_inv {A} (l : list A) i x y :
  y ∈ <[i := x]> l -> y = x \/ y ∈ l.
Proof.
  intros (j & Hj)%list_elem_of_lookup.
  apply list_lookup_insert_Some in Hj as [(_ & -> & _)|(_ & Hj)]; [by left|].
  right. apply list_elem_of_lookup. eauto.
Qed.

(** What holds of the loop variables after the rows [seen]. *)
Record reservoir_inv (T : Z) (st : state) (seen : list Row) : Prop := {
  inv_count : count st = Z.of_nat (length seen);
  inv_length : Z.of_nat (length (reservoir st)) = Z.min T (Z.of_nat (length seen));
  inv_elem : forall r, r ∈ reservoir st -> r ∈ seen;
  inv_prefix : (Z.of_nat (length seen) <= T)%Z -> reservoir st = seen;
}.

(** A full reservoir takes the incoming row at the drawn index when the
    draw is below the target, and is left alone otherwise. *)
Lemma step_full T st row :
  (0 <= count st)%Z -> Z.of_nat (length (reservoir st)) = T ->
  (0 <= (random.randint (gen st) 0 (count st)).1 <= count st)%Z /\
  step T st row =
    Ok {| reservoir :=
            if ((random.randint (gen st) 0 (count st)).1 <? T)%Z
            then <[Z.to_nat (random.randint (gen st) 0 (count st)).1 := row]> (reservoir st)
            else reservoir st;
          count := count st + 1;
          gen := (random.randint (gen st) 0 (count st)).2 |}.
Proof.
  intros Hc HT.
  pose proof (random.randint_range (gen st) 0 (count st) Hc) as Hr.
  split; [exact Hr|].
  unfold step. rewrite (proj2 (Z.ltb_ge _ _)) by lia.
  destruct (random.randint (gen st) 0 (count st)) as [index g] eqn:E. simpl in *.
  destruct (Z.ltb_spec index T); [|reflexivity].
  unfold list_setitem.
  rewrite (proj2 (Z.leb_le 0 index)), (proj2 (Z.ltb_lt index _)) by lia.
  reflexivity.
Qed.

Lemma step_inv T st seen row :
  (0 <= T)%Z -> reservoir_inv T st seen ->
  exists st', step T st row = Ok st' /\ reservoir_inv T st' (seen ++ [row]).
Proof.
  intros HT [Hc Hl He Hp].
  destruct (Z.ltb_spec (Z.of_nat (length (reservoir st))) T) as [Hlt|Hge].
  - assert (Hseen : (Z.of_nat (length seen) < T)%Z) by lia.
    eexists. split.
    { unfold step. rewrite (proj2 (Z.ltb_lt _ _) Hlt). reflexivity. }
    split; cbn [reservoir count gen]; rewrite ?length_app; simpl length.
    + lia.
    + lia.
    + intros r [Hr|Hr]%elem_of_app; apply elem_of_app; [left; auto|by right].
    + intros _. rewrite Hp by lia. reflexivity.
  - assert (Hfull : Z.of_nat (length (reservoir st)) = T) by lia.
    destruct (step_full T st row) as [Hr ->]; [lia|done|].
    eexists. split; [reflexivity|].
    split; cbn [reservoir count gen]; rewrite ?length_app; simpl length.
    + lia.
    + destruct (_ <? T)%Z; rewrite ?length_insert; lia.
    + intros r Hin. apply elem_of_app.
      destruct (_ <? T)%Z; [|left; auto].
      apply elem_of_list_insert_inv in Hin as [->|Hin]; [right; left|left; auto].
    + lia.
Qed.

Lemma run_inv T rows : forall st seen,
  (0 <= T)%Z -> reservoir_inv T st seen ->
  exists st', for_each (step T) st rows = Ok st' /\ reservoir_inv T st' (seen ++ rows).
Proof.
  induction rows as [|row rows IH]; intros st seen HT Hinv.
  - exists st. rewrite app_nil_r. done.
  - destruct (step_inv T st seen row HT Hinv) as (st1 & Hstep & Hinv1).
    destruct (IH st1 (seen ++ [row]) HT Hinv1) as (st' & Hrun & Hinv').
    exists st'. cbn [for_each]. rewrite Hstep. cbn. rewrite Hrun.
    rewrite <- app_assoc in Hinv'. done.
Qed.

Lemma reservoir_inv_init T g :
  (0 <= T)%Z -> reservoir_inv T {| reservoir := []; count := 0; gen := g |} [].
Proof. intros HT. split; simpl; try done; try lia. Qed.

End reservoir.

(** While the reservoir has room the rows are appended and the generator is
    not used. *)
Lemma run_fill `{!random.Random} T (pre : list Row) : forall st,
  (Z.of_nat (length (RandomSampler.reservoir st) + length pre) <= T)%Z ->
  for_each (RandomSampler.step T) st pre =
    Ok {| RandomSampler.reservoir := RandomSampler.reservoir st ++ pre;
          RandomSampler.count := RandomSampler.count st + Z.of_nat (length pre);
          RandomSampler.gen := RandomSampler.gen st |}.
Proof.
  induction pre as [|row pre IH]; intros st Hroom.
  - destruct st. cbn. by rewrite app_nil_r, Z.add_0_r.
  - cbn [for_each length] in *.
    assert (Hstep : RandomSampler.step T st row =
              Ok {| RandomSampler.reservoir := RandomSampler.reservoir st ++ [row];
                    RandomSampler.count := RandomSampler.count st + 1;
                    RandomSampler.gen := RandomSampler.gen st |}).
    { unfold RandomSampler.step. by rewrite (proj2 (Z.ltb_lt _ _)) by lia. }
    rewrite Hstep. cbn [mbind result_bind].
    rewrite IH by (cbn [RandomSampler.reservoir]; rewrite length_app; cbn [length]; lia).
    cbn [RandomSampler.reservoir RandomSampler.count RandomSampler.gen].
    rewrite <- app_assoc. do 2 f_equal. lia.
Qed.

(** C2: with a valid configuration of target [T], the random sampler runs
    its loop over all the rows without raising and returns the buffer that
    the loop leaves, in the order it has there: [min(T, N)] rows, all of
    them input rows, and all input rows in arrival order when [N <= T].
    The buffer is the one of Algorithm R.  The first [T] rows are appended
    without a draw.  Once the buffer is full, the row of index [i] (the rows
    [pre] precede it, [i = length pre]) makes the sampler draw
    [randint(0, i)], a number in [[0, i]], and replace the slot at the drawn
    index exactly when the draw is below [T]. *)
Theorem random_sample_is_algorithm_R `{!random.Random}
    (cfg : config.SamplerConfig) (entropy : random.rng)
    (rows : list Row) (columns : list string) :
  config.__post_init__ cfg = Ok tt ->
  let T := config.target_rows cfg in
  let self := RandomSampler.__init__ cfg entropy in
  exists final,
    RandomSampler.run self rows = Ok final /\
    RandomSampler.sample self rows columns = Ok (RandomSampler.reservoir final) /\
    Z.of_nat (length (RandomSampler.reservoir final)) = Z.min T (Z.of_nat (length rows)) /\
    (forall r, r ∈ RandomSampler.reservoir final -> r ∈ rows) /\
    ((Z.of_nat (length rows) <= T)%Z -> RandomSampler.reservoir final = rows) /\
    (forall pre post,
       rows = pre ++ post -> (Z.of_nat (length pre) <= T)%Z ->
       RandomSampler.run self pre =
         Ok {| RandomSampler.reservoir := pre;
               RandomSampler.count := Z.of_nat (length pre);
               RandomSampler.gen := RandomSampler.rng self |}) /\
    forall pre row post,
      rows = pre ++ row :: post -> (T <= Z.of_nat (length pre))%Z ->
      exists st,
        RandomSampler.run self pre = Ok st /\
        RandomSampler.count st = Z.of_nat (length pre) /\
        Z.of_nat (length (RandomSampler.reservoir st)) = T /\
        let draw := random.randint (RandomSampler.gen st) 0 (Z.of_nat (length pre)) in
        (0 <= draw.1 <= Z.of_nat (length pre))%Z /\
        RandomSampler.run self (pre ++ [row]) =
          Ok {| RandomSampler.reservoir :=
                  if (draw.1 <? T)%Z
                  then <[Z.to_nat draw.1 := row]> (RandomSampler.reservoir st)
                  else RandomSampler.reservoir st;
                RandomSampler.count := Z.of_nat (length pre) + 1;
                RandomSampler.gen := draw.2 |}.
Proof.
  intros Hvalid T self.
  assert (HT : (1 <= T)%Z).
  { unfold config.__post_init__ in Hvalid. fold T in Hvalid.
    destruct (Z.ltb_spec T 1); [discriminate Hvalid|lia]. }
  assert (Hrun : forall l, exists st,
            RandomSampler.run self l = Ok st /\ reservoir_inv T st l).
  { intros l. unfold RandomSampler.run.
    destruct (run_inv T l _ [] ltac:(lia) (reservoir_inv_init T (RandomSampler.rng self) ltac:(lia)))
      as (st & Hst & Hinv).
    exists st. done. }
  destruct (Hrun rows) as (st & Hst & [Hc Hl He Hp]).
  exists st. split; [exact Hst|]. unfold RandomSampler.sample. rewrite Hst.
  split; [reflexivity|]. split; [exact Hl|]. split; [exact He|]. split; [exact Hp|].
  split.
  { intros pre post _ Hpre. unfold RandomSampler.run. fold T.
    rewrite run_fill by (cbn; lia). reflexivity. }
  intros pre row post -> Hfull.
  destruct (Hrun pre) as (st1 & Hst1 & [Hc1 Hl1 _ _]).
  exists st1. split; [exact Hst1|]. split; [exact Hc1|].
  assert (Hlen : Z.of_nat (length (RandomSampler.reservoir st1)) = T) by lia.
  split; [exact Hlen|]. cbv zeta. rewrite <- Hc1.
  destruct (step_full T st1 row ltac:(lia) Hlen) as [Hrange Hstep].
  split; [exact Hrange|].
  unfold RandomSampler.run in *. rewrite for_each_app, Hst1. cbn.
  fold T. rewrite Hstep. reflexivity.
Qed.

Lemma random_sample_is_algorithm_R_witness :
  config.__post_init__
    {| config.sampling_mode := "random"; config.target_rows := 2;
       config.max_memory_bytes := None; config.key_columns := None;
       config.privacy_rules := None; config.seed := Some 42%Z;
       config.log_level := "INFO" |} = Ok tt /\
  exists out,
    RandomSampler.sample
      (RandomSampler.__init__ (H := lcg.lcg_random)
         {| config.sampling_mode := "random"; config.target_rows := 2;
            config.max_memory_bytes := None; config.key_columns := None;
            config.privacy_rules := None; config.seed := Some 42%Z;
            config.log_level := "INFO" |} 0%Z)
      [ {| row_id := 0; cells := {[ "id" := VInt 1 ]} |};
        {| row_id := 1; cells := {[ "id" := VInt 2 ]} |};
        {| row_id := 2; cells := {[ "id" := VInt 3 ]} |} ] ["id"] = Ok out /\
    Z.of_nat (length out) = 2%Z.
Proof.
  split; [reflexivity|].
  destruct (random_sample_is_algorithm_R (H := lcg.lcg_random)
              {| config.sampling_mode := "random"; config.target_rows := 2;
                 config.max_memory_bytes := None; config.key_columns := None;
                 config.privacy_rules := None; config.seed := Some 42%Z;
                 config.log_level := "INFO" |} 0%Z
              [ {| row_id := 0; cells := {[ "id" := VInt 1 ]} |};
                {| row_id := 1; cells := {[ "id" := VInt 2 ]} |};
                {| row_id := 2; cells := {[ "id" := VInt 3 ]} |} ] ["id"] eq_refl)
    as (final & _ & Hout & Hlen & _).
  exists (RandomSampler.reservoir final). split; [exact Hout|exact Hlen].
Defined.

(** ** Samplers never return more rows than the target, or than they saw *)
Section bounds.
Context `{!Py.Runtime} `{!random.Random}.









Lemma for_each_cons_Ok {A S} (body : S -> A -> result S) st x l r :
  for_each body st (x :: l) = Ok r ->
  exists st1, body st x = Ok st1 /\ for_each body st1 l = Ok r.
Proof. cbn [for_each]. apply bind_Ok. Qed.


Lemma outlier_collect_length cs rows : forall acc stats all stats',
  for_each (OutlierSampler.collect cs) (acc, stats) rows = Ok (all, stats') ->
  all = acc ++ rows.
Proof.
  induction rows as [|row rows IH]; intros acc stats all stats'.
  - intros [= <- _]. by rewrite app_nil_r.
  - intros ([acc1 stats1] & Hstep & Hrest)%for_each_cons_Ok.
    unfold OutlierSampler.collect in Hstep.
    apply bind_Ok in Hstep as (cs1 & _ & [= <- <-]).
    apply IH in Hrest. rewrite <- app_assoc in Hrest. done.
Qed.




End bounds.

(** ** The composite sampler (C9) *)
Section composite.
Context `{!Py.Runtime} `{!random.Random}.




End composite.






(** ** The time-aware sampler orders text timestamps by their hash (C1) *)
Section time_hash.
Context `{!random.Random}.

(** The timestamp of a row whose time column holds a text that is not a
    number is the hash of the text, which the interpreter keys per process. *)
Lemma timestamp_of_text (rt : Py.Runtime) (self : TimeSampler.t) c row text i f :
  TimeSampler.time_column self = Some c -> c <> "" ->
  cells row !! c = Some (VStr text) -> float_of_str text = None ->
  float_of_int (@str_hash rt text) = Ok f ->
  @TimeSampler._get_timestamp_value rt _ self row i = Ok f.
Proof.
  intros Hc Hne Hcell Hnum Hhash. unfold TimeSampler._get_timestamp_value.
  rewrite Hc, Hcell, Hnum. destruct (String.eqb_spec c ""); [done|]. exact Hhash.
Qed.

(** Two items are swapped exactly when the second key is less than the
    first, NaN or not. *)
Lemma list_sort_two (rt : Py.Runtime) {A} (x y : float * A) :
  @list_sort rt A [x; y] = if PrimFloat.ltb y.1 x.1 then [y; x] else [x; y].
Proof.
  unfold list_sort. destruct (keys_without_nan [x; y]).
  - unfold sort_by_key. cbn [foldl insert_by_key].
    destruct (PrimFloat.ltb y.1 x.1); reflexivity.
  - change (length [x; y] <? 64) with true. cbv iota.
    unfold short_sort, count_run. destruct (PrimFloat.ltb y.1 x.1); reflexivity.
Qed.

(** C1 fails on the code.  Two rows carry the texts [ta] and [tb] in the
    time column; neither text is a number.  In a process whose hash sends
    [tb] below [ta] the sampler emits the second row first; in a process
    whose hash does not, it emits the rows as they came.  Same rows, same
    configuration, same seed: two different outputs. *)
Theorem time_sample_follows_hash_salt (rt1 rt2 : Py.Runtime)
    (cfg : config.SamplerConfig) (entropy : random.rng) (columns : list string)
    (c : string) (cs : list string) (a b : Row) (ta tb : string) (fa1 fb1 fa2 fb2 : float) :
  config.key_columns cfg = Some (c :: cs) -> c <> "" ->
  (2 <= config.target_rows cfg)%Z ->
  cells a !! c = Some (VStr ta) -> cells b !! c = Some (VStr tb) ->
  float_of_str ta = None -> float_of_str tb = None ->
  float_of_int (@str_hash rt1 ta) = Ok fa1 -> float_of_int (@str_hash rt1 tb) = Ok fb1 ->
  float_of_int (@str_hash rt2 ta) = Ok fa2 -> float_of_int (@str_hash rt2 tb) = Ok fb2 ->
  PrimFloat.ltb fb1 fa1 = false -> PrimFloat.ltb fb2 fa2 = true ->
  @TimeSampler.sample rt1 _ (TimeSampler.__init__ cfg entropy) [a; b] columns = Ok [a; b] /\
  @TimeSampler.sample rt2 _ (TimeSampler.__init__ cfg entropy) [a; b] columns = Ok [b; a].
Proof.
  intros Hkeys Hne HT Ha Hb Hna Hnb Hfa1 Hfb1 Hfa2 Hfb2 Hlt1 Hlt2.
  set (self := TimeSampler.__init__ cfg entropy).
  assert (Hc : TimeSampler.time_column self = Some c).
  { unfold self, TimeSampler.__init__. cbn. rewrite Hkeys. reflexivity. }
  assert (Hle : (2 <=? config.target_rows cfg)%Z = true) by (apply Z.leb_le; lia).
  split; unfold TimeSampler.sample; cbn [for_each]; unfold TimeSampler.collect;
    cbn [fst snd].
  - rewrite (timestamp_of_text rt1 self c a ta _ fa1 Hc Hne Ha Hna Hfa1).
    cbn [mbind result_bind fst snd app].
    rewrite (timestamp_of_text rt1 self c b tb _ fb1 Hc Hne Hb Hnb Hfb1).
    cbn [mbind result_bind fst snd app].
    rewrite list_sort_two. cbn [fst]. rewrite Hlt1. cbn.
    change (Z.of_nat 2) with 2%Z. rewrite Hle. reflexivity.
  - rewrite (timestamp_of_text rt2 self c a ta _ fa2 Hc Hne Ha Hna Hfa2).
    cbn [mbind result_bind fst snd app].
    rewrite (timestamp_of_text rt2 self c b tb _ fb2 Hc Hne Hb Hnb Hfb2).
    cbn [mbind result_bind fst snd app].
    rewrite list_sort_two. cbn [fst]. rewrite Hlt2. cbn.
    change (Z.of_nat 2) with 2%Z. rewrite Hle. reflexivity.
Qed.

End time_hash.

(** A process whose [hash] of a text is [h].  The other library functions
    are left trivial, and a long list with a NaN key is left as it is. *)
Definition process_with_hash (h : string -> Z) : Py.Runtime :=
  {| str_hash := h;
     float_repr := fun _ => "";
     float_floordiv := fun a _ => a;
     hexdigest := fun _ _ => "";
     json_loads_ok := fun _ => false;
     sort_long := fun _ l => l;
     sort_long_perm := fun _ l => reflexivity l |}.

Lemma time_sample_follows_hash_salt_witness :
  @TimeSampler.sample (process_with_hash (fun s => (- Z.of_nat (String.length s))%Z))
    lcg.lcg_random
    (@TimeSampler.__init__ lcg.lcg_random
       {| config.sampling_mode := "time_aware"; config.target_rows := 10;
          config.max_memory_bytes := None; config.key_columns := Some ["ts"];
          config.privacy_rules := None; config.seed := Some 42%Z;
          config.log_level := "INFO" |} 0%Z)
    [ {| row_id := 0; cells := {[ "ts" := VStr "alpha" ]} |};
      {| row_id := 1; cells := {[ "ts" := VStr "beta" ]} |} ] ["ts"]
  = Ok [ {| row_id := 0; cells := {[ "ts" := VStr "alpha" ]} |};
         {| row_id := 1; cells := {[ "ts" := VStr "beta" ]} |} ] /\
  @TimeSampler.sample (process_with_hash (fun s => Z.of_nat (String.length s)))
    lcg.lcg_random
    (@TimeSampler.__init__ lcg.lcg_random
       {| config.sampling_mode := "time_aware"; config.target_rows := 10;
          config.max_memory_bytes := None; config.key_columns := Some ["ts"];
          config.privacy_rules := None; config.seed := Some 42%Z;
          config.log_level := "INFO" |} 0%Z)
    [ {| row_id := 0; cells := {[ "ts" := VStr "alpha" ]} |};
      {| row_id := 1; cells := {[ "ts" := VStr "beta" ]} |} ] ["ts"]
  = Ok [ {| row_id := 1; cells := {[ "ts" := VStr "beta" ]} |};
         {| row_id := 0; cells := {[ "ts" := VStr "alpha" ]} |} ].
Proof.
  eapply (time_sample_follows_hash_salt
            (process_with_hash (fun s => (- Z.of_nat (String.length s))%Z))
            (process_with_hash (fun s => Z.of_nat (String.length s)))
            _ _ _ "ts" [] _ _ "alpha" "beta").
  - reflexivity.
  - discriminate.
  - simpl. lia.
  - reflexivity.
  - reflexivity.
  - vm_compute. reflexivity.
  - vm_compute. reflexivity.
  - vm_compute. reflexivity.
  - vm_compute. reflexivity.
  - vm_compute. reflexivity.
  - vm_compute. reflexivity.
  - vm_compute. reflexivity.
  - vm_compute. reflexivity.
Defined.

(** ** The outlier-aware sampler and a leading NaN (C3) *)
Section outlier_nan.
Context `{!random.Random}.

Definition value_row (i : nat) (text : string) : Row :=
  {| row_id := i; cells := {[ "value" := VStr text ]} |}.

(** A column as a tabular reader yields it: the texts [nan], [5], [3], [7]
    and [1].  The row of index 4 carries the minimum and the row of index 3
    the maximum of its numbers. *)
Definition nan_first : list Row :=
  [value_row 0 "nan"; value_row 1 "5"; value_row 2 "3"; value_row 3 "7"; value_row 4 "1"].

Definition outlier_config : config.SamplerConfig :=
  {| config.sampling_mode := "outlier_aware"; config.target_rows := 2;
     config.max_memory_bytes := None; config.key_columns := Some ["value"];
     config.privacy_rules := None; config.seed := Some 0%Z;
     config.log_level := "INFO" |}.

Lemma nan_first_collected :
  for_each (OutlierSampler.collect ["value"]) ([], []) nan_first =
    Ok (nan_first,
        [("value",
          {| OutlierSampler.min := Some nan; OutlierSampler.max := Some nan;
             OutlierSampler.min_row := Some (value_row 0 "nan");
             OutlierSampler.max_row := Some (value_row 0 "nan") |})]).
Proof. vm_compute. reflexivity. Qed.

(** C3 fails on the code.  With target 2 the column admits its two
    extremes, but the NaN read first is never replaced as running minimum
    and maximum (no number compares below or above it), so the sampler
    emits the NaN row and one other row: never both the row of the minimum
    and the row of the maximum, whatever the generator draws. *)
Theorem outlier_sample_nan_hides_extremes (entropy : random.rng) :
  exists out,
    OutlierSampler.sample (OutlierSampler.__init__ outlier_config entropy)
      nan_first ["value"] = Ok out /\
    length out = 2 /\
    value_row 0 "nan" ∈ out /\
    ~ (value_row 4 "1" ∈ out /\ value_row 3 "7" ∈ out).
Proof.
  unfold OutlierSampler.sample.
  cbn [OutlierSampler.outlier_columns OutlierSampler.__init__ outlier_config
       config.key_columns OutlierSampler.config config.target_rows].
  rewrite nan_first_collected. cbn [mbind result_bind nan_first].
  set (g := OutlierSampler.rng _).
  change (OutlierSampler.outliers _) with ([value_row 0 "nan"], ({[0]} ∪ ∅ : gset nat)).
  change (Z.of_nat (length nan_first) <=? 2)%Z with false.
  cbv beta iota zeta.
  change (0 <? 2 - Z.of_nat (length [value_row 0 "nan"]))%Z with true.
  cbv beta iota zeta.
  set (others := [value_row 1 "5"; value_row 2 "3"; value_row 3 "7"; value_row 4 "1"]).
  assert (Hfilter : filter (fun row : Row => row_id row ∉ ({[0]} ∪ ∅ : gset nat))
                      nan_first = others).
  { vm_compute. reflexivity. }
  rewrite Hfilter. unfold others at 1. cbv beta iota zeta.
  assert (Hcount : Z.min (2 - Z.of_nat (length [value_row 0 "nan"]))
                     (Z.of_nat (length others)) = 1%Z) by reflexivity.
  rewrite Hcount.
  assert (Hsample : random.sample_checked g others 1 =
                    Ok (random.sample g others (Z.to_nat 1))) by reflexivity.
  rewrite Hsample. change (Z.to_nat 1) with 1.
  pose proof (random.sample_length _ g others 1 ltac:(simpl; lia)) as Hlen.
  pose proof (random.sample_submseteq _ g others 1 ltac:(simpl; lia)) as Hsub.
  destruct (random.sample g others 1) as [picked g1]. cbn [fst] in Hlen, Hsub.
  destruct picked as [|x [|? ?]]; try discriminate Hlen. clear Hlen.
  cbn [mbind result_bind app].
  pose proof (random.shuffle_perm _ g1 [value_row 0 "nan"; x]) as Hperm.
  destruct (random.shuffle g1 [value_row 0 "nan"; x]) as [shuffled g2].
  cbn [fst] in Hperm.
  assert (Hl2 : length shuffled = 2) by (rewrite Hperm; reflexivity).
  assert (Hslice : list_slice_to 2 shuffled = shuffled).
  { unfold list_slice_to. cbn. apply take_ge. lia. }
  rewrite Hslice. exists shuffled. split; [reflexivity|]. split; [exact Hl2|]. split.
  - rewrite Hperm. left.
  - rewrite Hperm. intros [H4 H3].
    apply elem_of_cons in H4 as [H4|H4]; [discriminate H4|].
    apply elem_of_cons in H3 as [H3|H3]; [discriminate H3|].
    apply list_elem_of_singleton in H4, H3. subst x. discriminate H3.
Qed.

End outlier_nan.

(** ** The order of binary64 numbers that are not NaN *)
Section float_order.

Definition not_nan (f : float) : Prop := Prim2SF f <> S754_nan.

Ltac cmp_cases :=
  repeat match goal with
  | s : bool |- _ => destruct s
  | |- context [Pos.compare_cont Eq ?a ?b] =>
      change (Pos.compare_cont Eq a b) with (Pos.compare a b)
  | |- context [Z.compare ?a ?b] => destruct (Z.compare_spec a b)
  | |- context [Pos.compare ?a ?b] => destruct (Pos.compare_spec a b)
  end.

Lemma SFleb_trans a b c : SFleb a b = true -> SFleb b c = true -> SFleb a c = true.
Proof.
  unfold SFleb.
  destruct a as [sa|sa| |sa ma ea], b as [sb|sb| |sb mb eb], c as [sc|sc| |sc mc ec];
    simpl; try discriminate; try reflexivity;
    cmp_cases; simpl; try discriminate; try reflexivity; intros; subst; try lia.
Qed.

Lemma SFltb_false_leb a b :
  a <> S754_nan -> b <> S754_nan -> SFltb a b = false -> SFleb b a = true.
Proof.
  unfold SFleb, SFltb.
  destruct a as [sa|sa| |sa ma ea], b as [sb|sb| |sb mb eb];
    simpl; try congruence; try reflexivity;
    cmp_cases; simpl; try discriminate; try reflexivity; intros; subst; try lia.
Qed.

Lemma SFleb_refl a : a <> S754_nan -> SFleb a a = true.
Proof.
  unfold SFleb. destruct a as [sa|sa| |sa ma ea]; simpl; try congruence; try reflexivity;
    cmp_cases; simpl; try reflexivity; try lia.
Qed.

Lemma leb_trans x y z :
  PrimFloat.leb x y = true -> PrimFloat.leb y z = true -> PrimFloat.leb x z = true.
Proof. rewrite !leb_spec. apply SFleb_trans. Qed.

Lemma leb_refl x : not_nan x -> PrimFloat.leb x x = true.
Proof. rewrite leb_spec. apply SFleb_refl. Qed.

Lemma ltb_leb x y : PrimFloat.ltb x y = true -> PrimFloat.leb x y = true.
Proof.
  rewrite ltb_spec, leb_spec. unfold SFltb, SFleb.
  destruct (SFcompare (Prim2SF x) (Prim2SF y)) as [[]|]; done.
Qed.

Lemma ltb_false_leb x y :
  not_nan x -> not_nan y -> PrimFloat.ltb x y = false -> PrimFloat.leb y x = true.
Proof. rewrite ltb_spec, leb_spec. apply SFltb_false_leb. Qed.

Lemma is_nan_false x : PrimFloat.is_nan x = false -> not_nan x.
Proof.
  unfold PrimFloat.is_nan, not_nan. rewrite FloatAxioms.eqb_spec. intros H E.
  rewrite E in H. discriminate H.
Qed.

End float_order.

(** ** The outlier sampler on columns without NaN (C3) *)
Section outlier_extremes.
Context `{!random.Random}.
Import OutlierSampler.

(** The number [_get_numeric_value] reads in the cell of [col], if any. *)
Definition numeric (col : string) (row : Row) : option float :=
  match cells row !! col with
  | Some v => match _get_numeric_value v with Ok o => o | Raise _ => None end
  | None => None
  end.

(** The two [if] statements that update an entry of [column_stats]. *)
Definition updated (row : Row) (value : float) (entry : stats) : stats :=
  let entry :=
    if is_none_or (min entry) (PrimFloat.ltb value)
    then {| min := Some value; max := max entry;
            min_row := Some row; max_row := max_row entry |}
    else entry in
  if is_none_or (max entry) (fun m => PrimFloat.ltb m value)
  then {| min := min entry; max := Some value;
          min_row := min_row entry; max_row := Some row |}
  else entry.

Definition blank : stats :=
  {| min := None; max := None; min_row := None; max_row := None |}.

(** [st] holds the least and the greatest number of [col] among [seen], and
    two rows of [seen] that carry them. *)
Definition extremes (col : string) (seen : list Row) (st : stats) : Prop :=
  exists rmin rmax fmin fmax,
    (min st = Some fmin /\ max st = Some fmax /\
     min_row st = Some rmin /\ max_row st = Some rmax) /\
    (rmin ∈ seen /\ rmax ∈ seen /\
     numeric col rmin = Some fmin /\ numeric col rmax = Some fmax) /\
    forall r f, r ∈ seen -> numeric col r = Some f ->
      PrimFloat.leb fmin f = true /\ PrimFloat.leb f fmax = true.

Definition tracked (col : string) (seen : list Row) (cs : list (string * stats)) : Prop :=
  match dict_get String.eqb col cs with
  | None => forall r, r ∈ seen -> numeric col r = None
  | Some st => extremes col seen st
  end.

(** No number of [col] among [seen] is a NaN. *)
Definition nan_free (col : string) (seen : list Row) : Prop :=
  forall r f, r ∈ seen -> numeric col r = Some f -> PrimFloat.is_nan f = false.

(** The rows kept in [column_stats] are rows of [seen]. *)
Definition rows_among (seen : list Row) (cs : list (string * stats)) : Prop :=
  forall k st r, (k, st) ∈ cs -> min_row st = Some r \/ max_row st = Some r -> r ∈ seen.

Lemma observe_cases row cs c cs' :
  observe row cs c = Ok cs' ->
  (numeric c row = None /\ cs' = cs) \/
  (exists f, numeric c row = Some f /\
     cs' = dict_set String.eqb c
             (updated row f (default blank (dict_get String.eqb c cs))) cs).
Proof.
  unfold observe, numeric. destruct (cells row !! c) as [v|]; [|intros [= <-]; by left].
  destruct (_get_numeric_value v) as [[f|]|e]; cbn [mbind result_bind].
  - intros [= <-]. right. exists f. done.
  - intros [= <-]. by left.
  - discriminate.
Qed.

Lemma extremes_equiv col seen seen' st :
  (forall r, r ∈ seen <-> r ∈ seen') -> extremes col seen st -> extremes col seen' st.
Proof.
  intros Heq (rmin & rmax & fmin & fmax & Hst & (? & ? & ? & ?) & Hall).
  exists rmin, rmax, fmin, fmax. split; [done|]. split.
  - repeat split; try done; by apply Heq.
  - intros r f Hr. apply Hall. by apply Heq.
Qed.

Lemma tracked_equiv col seen seen' cs :
  (forall r, r ∈ seen <-> r ∈ seen') -> tracked col seen cs -> tracked col seen' cs.
Proof.
  unfold tracked. intros Heq. destruct (dict_get String.eqb col cs).
  - by apply extremes_equiv.
  - intros Hall r Hr. apply Hall. by apply Heq.
Qed.

Lemma extremes_skip col seen row st :
  numeric col row = None -> extremes col seen st -> extremes col (seen ++ [row]) st.
Proof.
  intros Hnone (rmin & rmax & fmin & fmax & Hst & (? & ? & ? & ?) & Hall).
  exists rmin, rmax, fmin, fmax. split; [done|]. split.
  - repeat split; try done; apply elem_of_app; by left.
  - intros r f [Hr|Hr%list_elem_of_singleton]%elem_of_app Hf; [by apply (Hall r)|].
    subst r. congruence.
Qed.

Lemma updated_blank col seen row f :
  (forall r, r ∈ seen -> numeric col r = None) ->
  numeric col row = Some f -> not_nan f ->
  extremes col (seen ++ [row]) (updated row f blank).
Proof.
  intros Hnone Hf Hnan. exists row, row, f, f. split; [done|].
  assert (Hrow : row ∈ seen ++ [row]) by (apply elem_of_app; right; left).
  split; [done|].
  intros r f' [Hr|Hr%list_elem_of_singleton]%elem_of_app Hf'.
  - rewrite (Hnone r Hr) in Hf'. discriminate.
  - subst r. assert (f' = f) as -> by congruence. split; by apply leb_refl.
Qed.

Lemma updated_extremes col seen row f st :
  nan_free col seen -> numeric col row = Some f -> not_nan f ->
  extremes col seen st -> extremes col (seen ++ [row]) (updated row f st).
Proof.
  intros Hfree Hf Hnan (rmin & rmax & fmin & fmax & (Hmin & Hmax & Hrmin & Hrmax)
                          & (Hin1 & Hin2 & Hn1 & Hn2) & Hall).
  assert (Hnmin : not_nan fmin) by apply is_nan_false, (Hfree rmin fmin Hin1 Hn1).
  assert (Hnmax : not_nan fmax) by apply is_nan_false, (Hfree rmax fmax Hin2 Hn2).
  assert (Hrow : row ∈ seen ++ [row]) by (apply elem_of_app; right; left).
  assert (Hold : forall r, r ∈ seen -> r ∈ seen ++ [row])
    by (intros r Hr; apply elem_of_app; by left).
  unfold updated. rewrite Hmin. cbn [is_none_or].
  destruct (PrimFloat.ltb f fmin) eqn:Elo; cbn [max]; rewrite Hmax; cbn [is_none_or];
    destruct (PrimFloat.ltb fmax f) eqn:Ehi.
  - exists row, row, f, f. split; [done|]. split; [done|].
    intros r f' [Hr|Hr%list_elem_of_singleton]%elem_of_app Hf'.
    + destruct (Hall r f' Hr Hf') as [Hlo Hhi]. split.
      * eapply leb_trans; [by apply ltb_leb|done].
      * eapply leb_trans; [done|by apply ltb_leb].
    + subst r. assert (f' = f) as -> by congruence. split; by apply leb_refl.
  - exists row, rmax, f, fmax. split; [done|]. split; [by auto|].
    intros r f' [Hr|Hr%list_elem_of_singleton]%elem_of_app Hf'.
    + destruct (Hall r f' Hr Hf') as [Hlo Hhi]. split; [|done].
      eapply leb_trans; [by apply ltb_leb|done].
    + subst r. assert (f' = f) as -> by congruence. split; [by apply leb_refl|].
      by apply ltb_false_leb.
  - exists rmin, row, fmin, f. cbn. rewrite Hmin, Hrmin. split; [done|]. split; [by auto|].
    intros r f' [Hr|Hr%list_elem_of_singleton]%elem_of_app Hf'.
    + destruct (Hall r f' Hr Hf') as [Hlo Hhi]. split; [done|].
      eapply leb_trans; [done|by apply ltb_leb].
    + subst r. assert (f' = f) as -> by congruence. split; [|by apply leb_refl].
      by apply ltb_false_leb.
  - exists rmin, rmax, fmin, fmax. split; [done|]. split; [by auto|].
    intros r f' [Hr|Hr%list_elem_of_singleton]%elem_of_app Hf'.
    + by apply (Hall r).
    + subst r. assert (f' = f) as -> by congruence. split; by apply ltb_false_leb.
Qed.

Lemma string_eqb_refl (s : string) : String.eqb s s = true.
Proof. by apply String.eqb_eq. Qed.

(** Observing [col] in [row] brings [row] under the tracked extremes. *)
Lemma observe_tracked col seen row cs cs' :
  nan_free col (seen ++ [row]) -> tracked col seen cs ->
  observe row cs col = Ok cs' -> tracked col (seen ++ [row]) cs'.
Proof.
  intros Hfree Htr [[Hnone ->]|(f & Hf & ->)]%observe_cases.
  - unfold tracked in *. destruct (dict_get String.eqb col cs).
    + by apply extremes_skip.
    + intros r [Hr|Hr%list_elem_of_singleton]%elem_of_app; [by apply Htr|by subst r].
  - assert (Hnan : not_nan f).
    { apply is_nan_false, (Hfree row f); [|exact Hf]. apply elem_of_app; right; left. }
    assert (Hfree' : nan_free col seen).
    { intros r f' Hr. apply Hfree. apply elem_of_app; by left. }
    unfold tracked in *.
    rewrite (dict_get_set String.eqb String.eqb_eq), string_eqb_refl.
    destruct (dict_get String.eqb col cs) as [st|]; cbn [default].
    + by apply updated_extremes.
    + by apply updated_blank.
Qed.

(** Observing another column leaves the entry of [col] alone. *)
Lemma observe_other col c row cs cs' :
  c <> col -> observe row cs c = Ok cs' ->
  dict_get String.eqb col cs' = dict_get String.eqb col cs.
Proof.
  intros Hne [[_ ->]|(f & _ & ->)]%observe_cases; [done|].
  rewrite (dict_get_set String.eqb String.eqb_eq).
  destruct (String.eqb c col) eqn:E; [|done]. by apply String.eqb_eq in E.
Qed.

Lemma observe_all_tracked_done col seen row cols : forall cs cs',
  nan_free col (seen ++ [row]) -> tracked col (seen ++ [row]) cs ->
  for_each (observe row) cs cols = Ok cs' -> tracked col (seen ++ [row]) cs'.
Proof.
  induction cols as [|c cols IH]; intros cs cs' Hfree Htr.
  - by intros [= <-].
  - intros (cs1 & Hstep & Hrest)%for_each_cons_Ok.
    apply (IH cs1 cs' Hfree); [|done].
    destruct (decide (c = col)) as [->|Hne].
    + apply (tracked_equiv col ((seen ++ [row]) ++ [row])).
      { intros r. rewrite !elem_of_app. tauto. }
      apply (observe_tracked col _ row cs); [|done|done].
      intros r f Hr. apply Hfree. revert Hr. rewrite !elem_of_app. tauto.
    + unfold tracked in *. by rewrite (observe_other col c row cs cs1).
Qed.

Lemma observe_all_tracked col seen row cols : forall cs cs',
  nan_free col (seen ++ [row]) -> col ∈ cols -> tracked col seen cs ->
  for_each (observe row) cs cols = Ok cs' -> tracked col (seen ++ [row]) cs'.
Proof.
  induction cols as [|c cols IH]; intros cs cs' Hfree Hin Htr.
  - by apply elem_of_nil in Hin.
  - intros (cs1 & Hstep & Hrest)%for_each_cons_Ok.
    destruct (decide (c = col)) as [->|Hne].
    + apply (observe_all_tracked_done col seen row cols cs1 cs' Hfree); [|done].
      by apply (observe_tracked col seen row cs).
    + apply elem_of_cons in Hin as [->|Hin]; [done|].
      apply (IH cs1 cs' Hfree Hin); [|done].
      unfold tracked in *. by rewrite (observe_other col c row cs cs1).
Qed.

Lemma collect_tracked col cols rows : forall acc cs all cs',
  col ∈ cols -> nan_free col (acc ++ rows) -> tracked col acc cs ->
  for_each (collect cols) (acc, cs) rows = Ok (all, cs') ->
  tracked col (acc ++ rows) cs'.
Proof.
  induction rows as [|row rows IH]; intros acc cs all cs' Hin Hfree Htr.
  - intros [= <- <-]. by rewrite app_nil_r.
  - intros ([acc1 cs1] & Hstep & Hrest)%for_each_cons_Ok.
    unfold collect in Hstep. apply bind_Ok in Hstep as (cs2 & Hobs & [= <- <-]).
    cbn [fst snd] in *. rewrite (cons_middle row), app_assoc.
    rewrite (cons_middle row), app_assoc in Hfree.
    apply (IH (acc ++ [row]) cs2 all cs' Hin Hfree); [|exact Hrest].
    apply (observe_all_tracked col acc row cols cs cs2); try done.
    intros r f Hr. apply Hfree. apply elem_of_app. by left.
Qed.

(** *** The entries of [column_stats] *)

(** One entry for each observed column, and only for columns to check. *)
Definition keyed (cols : list string) (cs : list (string * stats)) : Prop :=
  NoDup cs.*1 /\ forall k, k ∈ cs.*1 -> k ∈ cols.

Lemma elem_of_dict_set k (v : stats) k' v' d :
  (k', v') ∈ dict_set String.eqb k v d -> (k', v') = (k, v) \/ (k', v') ∈ d.
Proof.
  induction d as [|[k0 v0] d IH]; cbn [dict_set].
  - intros ->%list_elem_of_singleton. by left.
  - destruct (String.eqb k0 k) eqn:E.
    + apply String.eqb_eq in E. subst k0.
      intros [->|Hin]%elem_of_cons; [by left|]. right. by right.
    + intros [->|Hin]%elem_of_cons; [right; left|].
      destruct (IH Hin) as [?|?]; [by left|]. right. by right.
Qed.

Lemma updated_rows row f st r :
  min_row (updated row f st) = Some r \/ max_row (updated row f st) = Some r ->
  r = row \/ min_row st = Some r \/ max_row st = Some r.
Proof.
  unfold updated.
  destruct (is_none_or (min st) _); cbn [max min_row max_row];
    destruct (is_none_or _ _); cbn [min_row max_row];
    intros [E|E]; try (injection E as <-); auto.
Qed.

Lemma rows_among_mono seen seen' cs :
  (forall r, r ∈ seen -> r ∈ seen') -> rows_among seen cs -> rows_among seen' cs.
Proof. intros Hsub Ham k st r Hin Hr. apply Hsub. by apply (Ham k st). Qed.

Lemma observe_rows_among seen row cs c cs' :
  row ∈ seen -> rows_among seen cs -> observe row cs c = Ok cs' -> rows_among seen cs'.
Proof.
  intros Hrow Ham [[_ ->]|(f & _ & ->)]%observe_cases; [done|].
  intros k st r [[= -> ->]|Hin]%elem_of_dict_set Hr; [|by apply (Ham k st)].
  apply updated_rows in Hr as [->|Hr]; [done|].
  destruct (dict_get String.eqb c cs) as [st0|] eqn:E; cbn [default] in Hr.
  - apply (dict_get_elem_of String.eqb String.eqb_eq) in E. by apply (Ham c st0).
  - by destruct Hr.
Qed.

Lemma observe_keyed cols row cs c cs' :
  c ∈ cols -> keyed cols cs -> observe row cs c = Ok cs' -> keyed cols cs'.
Proof.
  intros Hc [Hnd Hsub] [[_ ->]|(f & _ & ->)]%observe_cases; [done|]. split.
  - by apply (dict_set_NoDup String.eqb String.eqb_eq).
  - intros k. rewrite dict_set_keys.
    case_bool_decide; [by apply Hsub|].
    intros [Hk| ->%list_elem_of_singleton]%elem_of_app; [by apply Hsub|done].
Qed.

Lemma observe_all_entries cols seen row l : forall cs cs',
  (forall c, c ∈ l -> c ∈ cols) -> row ∈ seen ->
  keyed cols cs -> rows_among seen cs ->
  for_each (observe row) cs l = Ok cs' ->
  keyed cols cs' /\ rows_among seen cs'.
Proof.
  induction l as [|c l IH]; intros cs cs' Hl Hrow Hk Ham.
  - by intros [= <-].
  - intros (cs1 & Hstep & Hrest)%for_each_cons_Ok.
    apply (IH cs1 cs'); try done.
    + intros c' Hc'. apply Hl. by right.
    + apply (observe_keyed cols row cs c); [apply Hl; left|done|done].
    + by apply (observe_rows_among seen row cs c).
Qed.

Lemma collect_entries cols rows : forall acc cs all cs',
  keyed cols cs -> rows_among acc cs ->
  for_each (collect cols) (acc, cs) rows = Ok (all, cs') ->
  keyed cols cs' /\ rows_among (acc ++ rows) cs'.
Proof.
  induction rows as [|row rows IH]; intros acc cs all cs' Hk Ham.
  - intros [= <- <-]. by rewrite app_nil_r.
  - intros ([acc1 cs1] & Hstep & Hrest)%for_each_cons_Ok.
    unfold collect in Hstep. apply bind_Ok in Hstep as (cs2 & Hobs & [= <- <-]).
    cbn [fst snd] in *. rewrite (cons_middle row), app_assoc.
    destruct (observe_all_entries cols (acc ++ [row]) row cols cs cs2) as [Hk2 Ham2];
      try done.
    + apply elem_of_app. right. left.
    + apply (rows_among_mono acc); [|done]. intros r Hr. apply elem_of_app. by left.
    + by apply (IH (acc ++ [row]) cs2 all cs').
Qed.

Lemma keyed_length cols cs : keyed cols cs -> length cs <= length cols.
Proof.
  intros [Hnd Hsub]. rewrite <- (length_fmap fst cs).
  apply submseteq_length, NoDup_submseteq; done.
Qed.

(** *** The outlier rows *)

(** [outlier_set] holds the identities of [outlier_rows]. *)
Definition indexed (acc : list Row * gset nat) : Prop :=
  forall i, i ∈ acc.2 <-> exists r, r ∈ acc.1 /\ row_id r = i.

(** [r] is the row of a minimum or of a maximum in [cs]. *)
Definition offered (cs : list (string * stats)) (r : Row) : Prop :=
  exists k st, (k, st) ∈ cs /\ (min_row st = Some r \/ max_row st = Some r).

Lemma add_outlier_spec acc o :
  indexed acc ->
  indexed (add_outlier acc o) /\
  (forall r, r ∈ acc.1 -> r ∈ (add_outlier acc o).1) /\
  (forall r, r ∈ (add_outlier acc o).1 -> r ∈ acc.1 \/ o = Some r) /\
  (forall r, o = Some r -> row_id r ∈ (add_outlier acc o).2) /\
  length (add_outlier acc o).1 <= S (length acc.1).
Proof.
  intros Hidx. destruct o as [row|]; cbn [add_outlier].
  - case_bool_decide as Hin.
    + split_and!; auto. by intros r [= <-].
    + cbn [fst snd]. split_and!.
      * intros i. cbn [fst snd]. split.
        -- intros [->%elem_of_singleton|Hi]%elem_of_union.
           ++ exists row. split; [|done]. apply elem_of_app. right. left.
           ++ apply Hidx in Hi as (r & Hr & <-). exists r. split; [|done].
              apply elem_of_app. by left.
        -- intros (r & [Hr|Hr%list_elem_of_singleton]%elem_of_app & <-).
           ++ apply elem_of_union. right. apply Hidx. by exists r.
           ++ subst r. apply elem_of_union. left. by apply elem_of_singleton.
      * intros r Hr. apply elem_of_app. by left.
      * intros r [Hr|Hr%list_elem_of_singleton]%elem_of_app; [by left|right; by subst].
      * intros r [= <-]. apply elem_of_union. left. by apply elem_of_singleton.
      * rewrite length_app. simpl. lia.
  - split_and!; auto. done.
Qed.

Lemma indexed_mono a b :
  indexed a -> indexed b -> (forall r, r ∈ a.1 -> r ∈ b.1) -> forall i, i ∈ a.2 -> i ∈ b.2.
Proof.
  intros Ha Hb Hsub i (r & Hr & <-)%Ha. apply Hb. exists r. auto.
Qed.

Lemma outliers_from cs : forall acc,
  indexed acc ->
  let res :=
    foldl (fun acc entry => add_outlier (add_outlier acc (min_row entry.2)) (max_row entry.2))
      acc cs in
  indexed res /\
  (forall r, r ∈ acc.1 -> r ∈ res.1) /\
  (forall r, r ∈ res.1 -> r ∈ acc.1 \/ offered cs r) /\
  (forall r, offered cs r -> row_id r ∈ res.2) /\
  length res.1 <= length acc.1 + 2 * length cs.
Proof.
  induction cs as [|[k st] cs IH]; intros acc Hidx; cbn [foldl].
  - cbv zeta. split_and!; auto.
    + intros r (k & st & Hin & _). by apply elem_of_nil in Hin.
    + lia.
  - cbn [snd].
    destruct (add_outlier_spec acc (min_row st) Hidx) as (Hi1 & Hs1 & Hf1 & Ho1 & Hl1).
    destruct (add_outlier_spec _ (max_row st) Hi1) as (Hi2 & Hs2 & Hf2 & Ho2 & Hl2).
    destruct (IH _ Hi2) as (Hi3 & Hs3 & Hf3 & Ho3 & Hl3). cbv zeta.
    split_and!.
    + done.
    + auto.
    + intros r [Hr|(k' & st' & Hin & Hr)]%Hf3.
      * apply Hf2 in Hr as [Hr|Hr].
        -- apply Hf1 in Hr as [Hr|Hr]; [by left|].
           right. exists k, st. split; [left|by left].
        -- right. exists k, st. split; [left|by right].
      * right. exists k', st'. split; [by right|done].
    + intros r (k' & st' & [[= -> ->]|Hin]%elem_of_cons & Hr).
      * destruct Hr as [Hr|Hr].
        -- apply (indexed_mono _ _ Hi1 Hi3); [auto|]. by apply Ho1.
        -- apply (indexed_mono _ _ Hi2 Hi3); [auto|]. by apply Ho2.
      * apply Ho3. by exists k', st'.
    + simpl length. lia.
Qed.

Lemma outliers_spec cs :
  indexed (outliers cs) /\
  (forall r, r ∈ (outliers cs).1 -> offered cs r) /\
  (forall r, offered cs r -> row_id r ∈ (outliers cs).2) /\
  length (outliers cs).1 <= 2 * length cs.
Proof.
  assert (Hidx : indexed (([], ∅) : list Row * gset nat)).
  { intros i. cbn [fst snd]. split; [by intros ?%elem_of_empty|].
    intros (r & Hr & _). by apply elem_of_nil in Hr. }
  destruct (outliers_from cs _ Hidx) as (Hi & _ & Hf & Ho & Hl).
  split_and!; try done.
  intros r [Hr|Hr]%Hf; [by apply elem_of_nil in Hr|done].
Qed.

(** *** The sample *)

Definition columns_to_check (self : t) (columns : list string) : list string :=
  match outlier_columns self with
  | Some (c :: cs) => c :: cs
  | _ => columns
  end.

(** When the rows fit the target they are returned as they came. *)
Lemma outlier_sample_all_rows (self : t) rows columns out :
  sample self rows columns = Ok out ->
  (Z.of_nat (length rows) <= config.target_rows (config self))%Z ->
  out = rows.
Proof.
  unfold sample. intros ([all cs] & Hcollect & Hrest)%bind_Ok Hfit.
  apply outlier_collect_length in Hcollect. simpl in Hcollect. subst all.
  destruct rows as [|r0 rows]; [by injection Hrest as <-|].
  rewrite (proj2 (Z.leb_le _ _) Hfit) in Hrest. by injection Hrest as <-.
Qed.

(** On a column to check that holds a number and no NaN, where twice the
    number of columns to check fits the target, the sample holds a row
    with the least and a row with the greatest number of the column. *)
Lemma outlier_sample_keeps_extremes (self : t) rows columns out col :
  sample self rows columns = Ok out ->
  col ∈ columns_to_check self columns ->
  (2 * Z.of_nat (length (columns_to_check self columns))
     <= config.target_rows (config self))%Z ->
  (forall r1 r2, r1 ∈ rows -> r2 ∈ rows -> row_id r1 = row_id r2 -> r1 = r2) ->
  nan_free col rows ->
  (exists r, r ∈ rows /\ is_Some (numeric col r)) ->
  exists rmin rmax fmin fmax,
    (rmin ∈ out /\ numeric col rmin = Some fmin) /\
    (rmax ∈ out /\ numeric col rmax = Some fmax) /\
    forall r f, r ∈ rows -> numeric col r = Some f ->
      PrimFloat.leb fmin f = true /\ PrimFloat.leb f fmax = true.
Proof.
  intros Hout Hcol Hfit Hid Hfree (r0 & Hr0 & Hnum0).
  unfold sample in Hout. fold (columns_to_check self columns) in Hout.
  set (cols := columns_to_check self columns) in *.
  set (T := config.target_rows (config self)) in *.
  apply bind_Ok in Hout as ([all cs] & Hcollect & Hrest).
  pose proof (outlier_collect_length _ _ _ _ _ _ Hcollect) as Hall.
  simpl in Hall. subst all.
  assert (Htr : tracked col rows cs).
  { apply (collect_tracked col cols rows [] [] rows cs); try done.
    intros r Hr. by apply elem_of_nil in Hr. }
  destruct (collect_entries cols rows [] [] rows cs) as [Hkeyed Hamong]; try done.
  { split; [apply NoDup_nil_2|]. intros k Hk. by apply elem_of_nil in Hk. }
  { intros k st r Hin. by apply elem_of_nil in Hin. }
  simpl in Hamong.
  unfold tracked in Htr. destruct (dict_get String.eqb col cs) as [st|] eqn:Eget.
  2:{ rewrite (Htr r0 Hr0) in Hnum0. by destruct Hnum0. }
  destruct Htr as (rmin & rmax & fmin & fmax & (Hmin & Hmax & Hrmin & Hrmax)
                     & (Hin1 & Hin2 & Hn1 & Hn2) & Hbounds).
  apply (dict_get_elem_of String.eqb String.eqb_eq) in Eget.
  exists rmin, rmax, fmin, fmax.
  cut (rmin ∈ out /\ rmax ∈ out); [intros []; done|].
  destruct rows as [|r1 rows']; [by apply elem_of_nil in Hr0|].
  set (rows := r1 :: rows') in *.
  destruct (Z.leb_spec (Z.of_nat (length rows)) T) as [Hle|Hgt].
  { injection Hrest as <-. done. }
  destruct (outliers_spec cs) as (Hidx & Hfrom & Hoff & Hlen).
  destruct (outliers cs) as [orows oset]. cbn [fst snd] in *.
  assert (Hkept : forall r, offered cs r -> r ∈ rows -> r ∈ orows).
  { intros r Hr Hrows. apply Hoff, Hidx in Hr as (r' & Hr' & Hsame).
    assert (r' = r) as <-; [|done].
    apply Hid; [|done|done]. destruct (Hfrom r' Hr') as (k & st' & Hin & Hrow).
    by apply (Hamong k st'). }
  pose proof (keyed_length _ _ Hkeyed) as Hcs.
  apply bind_Ok in Hrest as ([picked g] & Hpick & Hrest).
  assert (Hpicked : (forall r, r ∈ orows -> r ∈ picked) /\
                    (Z.of_nat (length picked) <= T)%Z).
  { destruct (0 <? T - Z.of_nat (length orows))%Z eqn:Epos.
    - destruct (filter _ rows) as [|n0 non] eqn:Efilter.
      + injection Hpick as <- <-. split; [done|lia].
      + set (count := Z.min _ _) in Hpick.
        apply bind_Ok in Hpick as ([sampled g'] & Hsample & [= <- <-]).
        split; [intros r Hr; apply elem_of_app; by left|].
        unfold random.sample_checked in Hsample.
        destruct (_ || _) eqn:Echeck; [discriminate|].
        apply orb_false_iff in Echeck as [Hneg%Z.ltb_ge Hbig%Z.ltb_ge].
        pose proof (random.sample_length _ (rng self) (n0 :: non) (Z.to_nat count)
                      ltac:(lia)) as Hl.
        injection Hsample as Hsample. rewrite Hsample in Hl. cbn [fst] in Hl.
        rewrite length_app, Hl. unfold count. lia.
    - injection Hpick as <- <-. split; [done|lia]. }
  destruct Hpicked as [Hsub HlenT].
  pose proof (random.shuffle_perm _ g picked) as Hperm.
  destruct (random.shuffle g picked) as [shuffled g2]. cbn [fst] in Hperm.
  injection Hrest as <-.
  assert (Hslice : list_slice_to T shuffled = shuffled).
  { unfold list_slice_to. rewrite (proj2 (Z.leb_le 0 T)) by lia.
    apply take_ge. rewrite Hperm. lia. }
  rewrite Hslice, Hperm. split; apply Hsub, Hkept; try done.
  - exists col, st. auto.
  - exists col, st. auto.
Qed.

End outlier_extremes.

(** ** An instance: the numbers 5, 3, 7 and 1 *)
Section outlier_numbers.
Context `{!random.Random}.

Definition numbers : list Row :=
  [value_row 0 "5"; value_row 1 "3"; value_row 2 "7"; value_row 3 "1"].

Lemma numbers_collected :
  exists cs, for_each (OutlierSampler.collect ["value"]) ([], []) numbers = Ok (numbers, cs).
Proof. eexists. vm_compute. reflexivity. Qed.

Lemma numbers_numeric r :
  r ∈ numbers -> exists f, numeric "value" r = Some f /\ PrimFloat.is_nan f = false.
Proof.
  unfold numbers. rewrite !elem_of_cons, elem_of_nil.
  intros [->|[->|[->|[->|[]]]]]; eexists; split; vm_compute; reflexivity.
Qed.

(** With target 2 and the one column [value], every generator leaves a row
    with the least and a row with the greatest number in the sample. *)
Lemma outlier_sample_numbers (entropy : random.rng) :
  exists out rmin rmax fmin fmax,
    OutlierSampler.sample (OutlierSampler.__init__ outlier_config entropy)
      numbers ["value"] = Ok out /\
    (rmin ∈ out /\ numeric "value" rmin = Some fmin) /\
    (rmax ∈ out /\ numeric "value" rmax = Some fmax) /\
    forall r f, r ∈ numbers -> numeric "value" r = Some f ->
      PrimFloat.leb fmin f = true /\ PrimFloat.leb f fmax = true.
Proof.
  set (self := OutlierSampler.__init__ outlier_config entropy).
  assert (Hout : exists out, OutlierSampler.sample self numbers ["value"] = Ok out).
  { unfold OutlierSampler.sample.
    cbn [self OutlierSampler.outlier_columns OutlierSampler.__init__ outlier_config
         config.key_columns OutlierSampler.config config.target_rows].
    destruct numbers_collected as [cs ->]. cbn [mbind result_bind numbers].
    change (Z.of_nat (length _) <=? 2)%Z with false. cbv beta iota zeta.
    destruct (OutlierSampler.outliers cs) as [orows oset].
    destruct (0 <? 2 - Z.of_nat (length orows))%Z eqn:Epos.
    - destruct (filter _ _) as [|n0 non].
      + cbn [mbind result_bind]. destruct (random.shuffle _ orows). eauto.
      + unfold random.sample_checked.
        destruct (_ || _) eqn:Echeck.
        * apply orb_true_iff in Echeck as [Hneg%Z.ltb_lt|Hbig%Z.ltb_lt]; lia.
        * destruct (random.sample _ _ _) as [sampled g]. cbn [mbind result_bind].
          destruct (random.shuffle g _). eauto.
    - cbn [mbind result_bind]. destruct (random.shuffle _ orows). eauto. }
  destruct Hout as [out Hout]. exists out.
  destruct (outlier_sample_keeps_extremes self numbers ["value"] out "value" Hout)
    as (rmin & rmax & fmin & fmax & Hres).
  - left.
  - cbn. lia.
  - unfold numbers. intros r1 r2. rewrite !elem_of_cons, !elem_of_nil.
    intros [->|[->|[->|[->|[]]]]] [->|[->|[->|[->|[]]]]]; done.
  - intros r f (f' & Hf' & Hnan)%numbers_numeric Hf. congruence.
  - exists (value_row 0 "5"). split; [left|].
    destruct (numbers_numeric (value_row 0 "5")) as (f & -> & _); [left|done].
  - exists rmin, rmax, fmin, fmax. done.
Qed.

End outlier_numbers.
